(** * winewayland.drv window handling (dlls/winewayland.drv/window.c)

    A shallow embedding of the window registry, the surface role manager and
    the configuration state machine of the Wayland driver, together with the
    properties the specification states about them.

    Conventions.
    - Handles (HWND) and all machine integers are [Z]; NULL is [0].
    - A [struct wayland_win_data *] is represented by the handle that keys the
      record in the registry; in a well-formed registry a handle names exactly
      one record, so reading and writing through the pointer is reading and
      writing the record stored under that handle.
    - Every call that leaves window.c (Wayland protocol requests, window-system
      commands, helper calls into wayland_surface.c, mutex operations) is
      recorded as an [event]; a function returns its result, the new driver
      state and the events it issued, in order.
    - A NULL dereference, and a loop or recursion that exhausts its fuel, are
      [Fault]s. *)

From Stdlib Require Import ZArith List Bool Lia String.
From Stdlib Require QArith.
Import ListNotations.
Open Scope Z_scope.

(** ** Constants of the Windows and Wayland headers used by window.c *)

Definition HWND := Z.
Definition NULL : HWND := 0.

Module Win32.
Definition SWP_NOSIZE          := 0x0001.
Definition SWP_NOMOVE          := 0x0002.
Definition SWP_NOZORDER        := 0x0004.
Definition SWP_NOACTIVATE      := 0x0010.
Definition SWP_FRAMECHANGED    := 0x0020.
Definition SWP_HIDEWINDOW      := 0x0080.
Definition SWP_NOOWNERZORDER   := 0x0200.
Definition SWP_NOSENDCHANGING  := 0x0400.

Definition WS_MAXIMIZE := 0x01000000.
Definition WS_CAPTION  := 0x00C00000.
Definition WS_VISIBLE  := 0x10000000.
Definition WS_MINIMIZE := 0x20000000.

Definition SC_SIZE := 0xF000.
Definition SC_MOVE := 0xF010.

Definition WMSZ_LEFT        := 1.
Definition WMSZ_RIGHT       := 2.
Definition WMSZ_TOP         := 3.
Definition WMSZ_TOPLEFT     := 4.
Definition WMSZ_TOPRIGHT    := 5.
Definition WMSZ_BOTTOM      := 6.
Definition WMSZ_BOTTOMLEFT  := 7.
Definition WMSZ_BOTTOMRIGHT := 8.

Definition WM_ENTERSIZEMOVE := 0x0231.
Definition WM_EXITSIZEMOVE  := 0x0232.

Definition NTUSER_DPI_PER_MONITOR_AWARE    := 0x12.
Definition NTUSER_DPI_PER_MONITOR_AWARE_V2 := 0x22.
End Win32.
Import Win32.

Definition UWS_FORCE_ROLE_UPDATE  := 0x01.
Definition UWS_FORCE_CREATE       := 0x02.
Definition UWS_NO_UPDATE_CHILDREN := 0x04.

(** enum wayland_surface_config_state (waylanddrv.h), a bit set. *)
Definition WAYLAND_SURFACE_CONFIG_STATE_MAXIMIZED  := 1.
Definition WAYLAND_SURFACE_CONFIG_STATE_RESIZING   := 2.
Definition WAYLAND_SURFACE_CONFIG_STATE_TILED      := 4.
Definition WAYLAND_SURFACE_CONFIG_STATE_FULLSCREEN := 8.

(** enum wayland_surface_role (waylanddrv.h); NONE is the zero value, which
    is what the C tests [role && surface->role] rely on. *)
Inductive wayland_surface_role :=
| WAYLAND_SURFACE_ROLE_NONE
| WAYLAND_SURFACE_ROLE_TOPLEVEL
| WAYLAND_SURFACE_ROLE_SUBSURFACE.

Definition role_eqb (a b : wayland_surface_role) : bool :=
  match a, b with
  | WAYLAND_SURFACE_ROLE_NONE, WAYLAND_SURFACE_ROLE_NONE
  | WAYLAND_SURFACE_ROLE_TOPLEVEL, WAYLAND_SURFACE_ROLE_TOPLEVEL
  | WAYLAND_SURFACE_ROLE_SUBSURFACE, WAYLAND_SURFACE_ROLE_SUBSURFACE => true
  | _, _ => false
  end.

(** [role] used as a C truth value. *)
Definition role_set (r : wayland_surface_role) : bool :=
  negb (role_eqb r WAYLAND_SURFACE_ROLE_NONE).

(** enum xdg_toplevel_resize_edge (xdg-shell protocol). *)
Inductive xdg_toplevel_resize_edge :=
| XDG_TOPLEVEL_RESIZE_EDGE_NONE
| XDG_TOPLEVEL_RESIZE_EDGE_TOP
| XDG_TOPLEVEL_RESIZE_EDGE_BOTTOM
| XDG_TOPLEVEL_RESIZE_EDGE_LEFT
| XDG_TOPLEVEL_RESIZE_EDGE_TOP_LEFT
| XDG_TOPLEVEL_RESIZE_EDGE_BOTTOM_LEFT
| XDG_TOPLEVEL_RESIZE_EDGE_RIGHT
| XDG_TOPLEVEL_RESIZE_EDGE_TOP_RIGHT
| XDG_TOPLEVEL_RESIZE_EDGE_BOTTOM_RIGHT.

(** ** C integer helpers *)

(** [a & b] as a C truth value. *)
Definition test (a b : Z) : bool := negb (Z.land a b =? 0).

(** Two's-complement wrap of an INT result. *)
Definition to_INT (z : Z) : Z := (z + 2 ^ 31) mod 2 ^ 32 - 2 ^ 31.

(** ** Data model *)

Record RECT := mkRECT { left : Z; top : Z; right : Z; bottom : Z }.

Definition empty_rect : RECT := mkRECT 0 0 0 0.

Record wayland_surface_config := mkConfig {
  width : Z;
  height : Z;
  state : Z;
  serial : Z;
  processed : bool
}.

(** What [memset(&config, 0, sizeof(config))] leaves. *)
Definition zero_config : wayland_surface_config := mkConfig 0 0 0 0 false.

Record wayland_window_config := mkWindowConfig {
  rect : RECT;
  client_rect : RECT;
  window_state : Z;
  scale : QArith_base.Q;
  visible : bool;
  managed : bool
}.

Definition wayland_client_surface := nat.
Definition window_surface := nat.

(** The fields of [struct wayland_surface] that window.c reads or writes.
    The role objects [xdg_toplevel] and [wl_subsurface] are pointers that are
    only tested against NULL, hence booleans; [parent_weak_ref] is the weak
    reference to the anchoring window, reduced to the handle it carries. *)
Record wayland_surface := mkSurface {
  surface_hwnd : HWND;
  role : wayland_surface_role;
  xdg_toplevel : bool;
  wl_subsurface : bool;
  parent_weak_ref : option HWND;
  client : option wayland_client_surface;
  window : wayland_window_config;
  requested : wayland_surface_config;
  processing : wayland_surface_config;
  current : wayland_surface_config;
  resizing : bool
}.

Definition set_window (s : wayland_surface) (w : wayland_window_config) :=
  mkSurface (surface_hwnd s) (role s) (xdg_toplevel s) (wl_subsurface s)
            (parent_weak_ref s) (client s) w (requested s) (processing s)
            (current s) (resizing s).

Definition set_requested (s : wayland_surface) (c : wayland_surface_config) :=
  mkSurface (surface_hwnd s) (role s) (xdg_toplevel s) (wl_subsurface s)
            (parent_weak_ref s) (client s) (window s) c (processing s)
            (current s) (resizing s).

Definition set_processing (s : wayland_surface) (c : wayland_surface_config) :=
  mkSurface (surface_hwnd s) (role s) (xdg_toplevel s) (wl_subsurface s)
            (parent_weak_ref s) (client s) (window s) (requested s) c
            (current s) (resizing s).

Definition set_resizing (s : wayland_surface) (b : bool) :=
  mkSurface (surface_hwnd s) (role s) (xdg_toplevel s) (wl_subsurface s)
            (parent_weak_ref s) (client s) (window s) (requested s)
            (processing s) (current s) b.

Definition set_serial (c : wayland_surface_config) (n : Z) :=
  mkConfig (width c) (height c) (state c) n (processed c).

Definition set_processed (c : wayland_surface_config) (b : bool) :=
  mkConfig (width c) (height c) (state c) (serial c) b.

Record wayland_win_data := mkWinData {
  hwnd : HWND;
  wayland_surface_of : option wayland_surface;   (* data->wayland_surface *)
  window_surface_of : option window_surface;     (* data->window_surface *)
  window_rect : RECT;
  data_client_rect : RECT;
  visible_rect : RECT;
  data_managed : bool
}.

Definition set_wayland_surface (d : wayland_win_data) (s : option wayland_surface) :=
  mkWinData (hwnd d) s (window_surface_of d) (window_rect d)
            (data_client_rect d) (visible_rect d) (data_managed d).

(** ** The registry: win_data_rb

    The red-black tree is represented by its in-order traversal, the list of
    its records in ascending handle order. *)

Definition rb_tree := list wayland_win_data.

Definition wayland_win_data_cmp_rb (key : HWND) (entry : wayland_win_data) : Z :=
  if key <? hwnd entry then -1
  else if key >? hwnd entry then 1
  else 0.

(** Modelled from the spec: wine/rbtree.h is not among the sources.  The
    registry is an ordered mapping from handle to record; [rb_get] finds the
    entry the comparison function answers 0 for. *)
Fixpoint rb_get (tree : rb_tree) (key : HWND) : option wayland_win_data :=
  match tree with
  | [] => None
  | e :: rest =>
      if wayland_win_data_cmp_rb key e =? 0 then Some e else rb_get rest key
  end.

(** Modelled from the spec: wine/rbtree.h is not among the sources.  [rb_put]
    links a new entry at its place in the order, found with the comparison
    function, and refuses a key that is present (result -1, tree unchanged). *)
Fixpoint rb_put (tree : rb_tree) (key : HWND) (entry : wayland_win_data)
  : rb_tree * Z :=
  match tree with
  | [] => ([entry], 0)
  | e :: rest =>
      let c := wayland_win_data_cmp_rb key e in
      if c =? 0 then (tree, -1)
      else if c <? 0 then (entry :: tree, 0)
      else let '(rest', r) := rb_put rest key entry in (e :: rest', r)
  end.

(** Modelled from the spec: wine/rbtree.h is not among the sources.
    [rb_remove] unlinks the entry of a key. *)
Fixpoint rb_remove (tree : rb_tree) (key : HWND) : rb_tree :=
  match tree with
  | [] => []
  | e :: rest =>
      if wayland_win_data_cmp_rb key e =? 0 then rest
      else e :: rb_remove rest key
  end.

(** The record stored under [hwnd d] is replaced by [d]: the effect of a write
    through a [struct wayland_win_data *]. *)
Fixpoint rb_store (tree : rb_tree) (d : wayland_win_data) : rb_tree :=
  match tree with
  | [] => []
  | e :: rest =>
      if wayland_win_data_cmp_rb (hwnd d) e =? 0 then d :: rest
      else e :: rb_store rest d
  end.

Definition handles (tree : rb_tree) : list HWND := map hwnd tree.

(** A registry is well formed when its records are in strictly ascending
    handle order. *)
Inductive well_formed : rb_tree -> Prop :=
| wf_nil : well_formed []
| wf_cons : forall e rest,
    Forall (fun e' => hwnd e < hwnd e') rest ->
    well_formed rest ->
    well_formed (e :: rest).

Definition records_of (tree : rb_tree) (h : HWND) : list wayland_win_data :=
  filter (fun e => hwnd e =? h) tree.

(** ** Driver state, events, and the monad the functions run in *)

Record wayland_pointer := mkPointer {
  focused_hwnd : HWND;
  button_serial : Z
}.

(** [process_wayland]: the seat is a pointer that is only tested and passed on. *)
Record wayland := mkWayland {
  pointer : wayland_pointer;
  seat_wl_seat : option nat
}.

Record driver := mkDriver {
  win_data_rb : rb_tree;
  process_wayland : wayland;
  dpi_context : Z           (* the calling thread's DPI awareness context *)
}.

Definition set_tree (st : driver) (t : rb_tree) :=
  mkDriver t (process_wayland st) (dpi_context st).

Definition set_dpi_context (st : driver) (c : Z) :=
  mkDriver (win_data_rb st) (process_wayland st) c.

Inductive mutex :=
| win_data_mutex
| surface_mutex (h : HWND)
| pointer_mutex
| seat_mutex.

Inductive event :=
| EvLock (m : mutex)
| EvUnlock (m : mutex)
| EvCalloc (h : HWND)
| EvFree (h : HWND)
| EvSurfaceCreate (h : HWND) (ok : bool)
| EvSurfaceDestroy (h : HWND)
| EvClearRole (h : HWND)
| EvMakeToplevel (h : HWND)
| EvMakeSubsurface (h parent : HWND)
| EvSetTitle (h : HWND) (text : string)
| EvGetClient (h : HWND)
| EvAttachClient (h : HWND) (c : wayland_client_surface)
| EvClientRelease (c : wayland_client_surface)
| EvWindowSurfaceUpdate (ws : window_surface) (r : option RECT) (target : option HWND)
| EvWindowSurfaceRelease (ws : window_surface)
| EvUnsetMaximized (h : HWND)
| EvUnsetFullscreen (h : HWND)
| EvSetMaximized (h : HWND)
| EvSetFullscreen (h : HWND)
| EvMove (h : HWND) (seat : nat) (serial : Z)
| EvResize (h : HWND) (seat : nat) (serial : Z) (edge : xdg_toplevel_resize_edge)
| EvDisplayFlush
| EvSendMessage (h : HWND) (msg : Z)
| EvSetWindowLong (h : HWND) (style : Z)
| EvSetWindowPos (h after : HWND) (x y cx cy : Z) (flags : Z)
| EvClipCursor (r : RECT).

Inductive fault := NullDereference | OutOfFuel.

Inductive outcome (A : Type) :=
| Done (a : A) (st : driver) (tr : list event)
| Fault (f : fault).
Arguments Done {A} a st tr.
Arguments Fault {A} f.

Definition M (A : Type) := driver -> outcome A.

Definition pure {A} (a : A) : M A := fun st => Done a st [].

Definition bind {A B} (m : M A) (k : A -> M B) : M B :=
  fun st =>
    match m st with
    | Fault f => Fault f
    | Done a st1 tr1 =>
        match k a st1 with
        | Fault f => Fault f
        | Done b st2 tr2 => Done b st2 (tr1 ++ tr2)
        end
    end.

Definition emit (e : event) : M unit := fun st => Done tt st [e].
Definition crash {A} (f : fault) : M A := fun _ => Fault f.
Definition get_state : M driver := fun st => Done st st [].
Definition put_state (st : driver) : M unit := fun _ => Done tt st [].
Definition when (b : bool) (m : M unit) : M unit := if b then m else pure tt.

Declare Scope drv_scope.
Delimit Scope drv_scope with drv.
Notation "x <- m ;; k" := (bind m (fun x => k))
  (at level 100, m at next level, right associativity) : drv_scope.
Notation "m ;;; k" := (bind m (fun _ => k))
  (at level 100, right associativity) : drv_scope.
Open Scope drv_scope.

(** Dereference of a pointer that may be NULL. *)
Definition deref {A} (p : option A) : M A :=
  match p with Some a => pure a | None => crash NullDereference end.

(** Reading and writing a record through its handle. *)
Definition load_data (h : HWND) : M wayland_win_data :=
  st <- get_state ;; deref (rb_get (win_data_rb st) h).

Definition store_data (d : wayland_win_data) : M unit :=
  st <- get_state ;; put_state (set_tree st (rb_store (win_data_rb st) d)).

(** A write through the [struct wayland_surface *] of window [h]. *)
Definition store_surface (h : HWND) (s : wayland_surface) : M unit :=
  d <- load_data h ;; store_data (set_wayland_surface d (Some s)).

Fixpoint for_each {A} (l : list A) (body : A -> M unit) : M unit :=
  match l with
  | [] => pure tt
  | x :: rest => body x ;;; for_each rest body
  end.

Definition is_some {A} (o : option A) : bool :=
  match o with Some _ => true | None => false end.

(** ** The collaborators of window.c

    The window system is consulted through read-only queries; within one
    driver call its answers are given by the environment.  [calloc_win_data]
    tells whether the allocation of a record succeeds. *)
Class Environment := {
  NtUserGetAncestor : HWND -> HWND;                 (* GA_PARENT *)
  NtUserGetDesktopWindow : HWND;
  NtUserIsWindowVisible : HWND -> bool;
  NtUserIsChild : HWND -> HWND -> bool;
  NtUserGetForegroundWindow : HWND;
  NtUserGetWindowLongW : HWND -> Z;                 (* GWL_STYLE *)
  NtUserIsWindowRectFullScreen : RECT -> Z -> bool;
  NtUserGetSystemDpiForProcess : Z;
  NtUserGetDpiForWindow : HWND -> Z;
  NtUserInternalGetWindowText : HWND -> string;
  NtUserGetClipCursor : option RECT;
  calloc_win_data : HWND -> bool
}.

(** The helpers of wayland_surface.c, which is not among the sources: what
    each call does to the surface record it is given is left open, so every
    statement below holds for any implementation of them.  The calls
    themselves are recorded as events by their callers. *)
Class SurfaceOps := {
  wayland_surface_create : HWND -> option wayland_surface;
  wayland_surface_clear_role : wayland_surface -> wayland_surface;
  wayland_surface_make_toplevel : wayland_surface -> wayland_surface;
  wayland_surface_make_subsurface : wayland_surface -> wayland_surface -> wayland_surface;
  wayland_surface_get_client : wayland_surface -> option wayland_client_surface;
  wayland_surface_attach_client : wayland_surface -> wayland_client_surface -> wayland_surface;
  wayland_surface_coords_from_window : wayland_surface -> Z -> Z -> Z * Z;
  wayland_surface_coords_to_window : wayland_surface -> Z -> Z -> Z * Z;
  wayland_surface_config_is_compatible : wayland_surface_config -> Z -> Z -> Z -> bool
}.

Section Driver.

Context {env : Environment} {ops : SurfaceOps}.

Definition get_win_monitor_dpi (h : HWND) : Z := NtUserGetSystemDpiForProcess.

Definition NtUserSetThreadDpiAwarenessContext (ctx : Z) : M Z :=
  st <- get_state ;;
  put_state (set_dpi_context st ctx) ;;;
  pure (dpi_context st).

(** per-monitor DPI aware NtUserSetWindowPos call; its BOOL result is
    discarded by the only caller. *)
Definition set_window_pos (h after : HWND) (x y cx cy flags : Z) : M unit :=
  context <- NtUserSetThreadDpiAwarenessContext NTUSER_DPI_PER_MONITOR_AWARE_V2 ;;
  emit (EvSetWindowPos h after x y cx cy flags) ;;;
  _ <- NtUserSetThreadDpiAwarenessContext context ;;
  pure tt.

(** *** Window registry *)

(** The function returns a pointer; the model returns the record it points
    to.  On return of a record the registry lock is held. *)
Definition wayland_win_data_create (h : HWND) (window_rect client_rect visible_rect : RECT)
  : M (option wayland_win_data) :=
  let parent := NtUserGetAncestor h in
  if parent =? NULL then pure None
  else if negb (parent =? NtUserGetDesktopWindow) && (NtUserGetAncestor parent =? NULL)
  then pure None
  else if negb (calloc_win_data h) then pure None
  else
    emit (EvCalloc h) ;;;
    let data := mkWinData h None None window_rect client_rect visible_rect false in
    emit (EvLock win_data_mutex) ;;;
    st <- get_state ;;
    match rb_get (win_data_rb st) h with
    | Some existing =>
        emit (EvFree h) ;;;
        pure (Some existing)
    | None =>
        put_state (set_tree st (fst (rb_put (win_data_rb st) h data))) ;;;
        pure (Some data)
    end.

(** Called with the registry lock held; the lock is released inside. *)
Definition wayland_win_data_destroy (data : wayland_win_data) : M unit :=
  st <- get_state ;;
  put_state (set_tree st (rb_remove (win_data_rb st) (hwnd data))) ;;;
  emit (EvUnlock win_data_mutex) ;;;
  match window_surface_of data with
  | Some ws =>
      emit (EvWindowSurfaceUpdate ws None None) ;;;
      emit (EvWindowSurfaceRelease ws)
  | None => pure tt
  end ;;;
  when (is_some (wayland_surface_of data)) (emit (EvSurfaceDestroy (hwnd data))) ;;;
  emit (EvFree (hwnd data)).

Definition wayland_win_data_get_nolock (h : HWND) : M (option wayland_win_data) :=
  st <- get_state ;; pure (rb_get (win_data_rb st) h).

Definition wayland_win_data_get (h : HWND) : M (option wayland_win_data) :=
  emit (EvLock win_data_mutex) ;;;
  data <- wayland_win_data_get_nolock h ;;
  match data with
  | Some d => pure (Some d)
  | None => emit (EvUnlock win_data_mutex) ;;; pure None
  end.

Definition wayland_win_data_release (data : option wayland_win_data) : M unit :=
  _ <- deref data ;;                       (* assert(data) *)
  emit (EvUnlock win_data_mutex).

Definition wayland_win_data_get_config (data : wayland_win_data) : wayland_window_config :=
  let style := NtUserGetWindowLongW (hwnd data) in
  let window_state :=
    if NtUserIsWindowRectFullScreen (window_rect data) (get_win_monitor_dpi (hwnd data)) then
      if test style WS_MAXIMIZE && (Z.land style WS_CAPTION =? WS_CAPTION)
      then WAYLAND_SURFACE_CONFIG_STATE_MAXIMIZED
      else if negb (test style WS_MINIMIZE)
      then WAYLAND_SURFACE_CONFIG_STATE_FULLSCREEN
      else 0
    else if test style WS_MAXIMIZE
    then WAYLAND_SURFACE_CONFIG_STATE_MAXIMIZED
    else 0 in
  mkWindowConfig (window_rect data) (data_client_rect data) window_state
                 (QArith_base.Qmake (NtUserGetDpiForWindow (hwnd data)) 96)
                 (Z.land style WS_VISIBLE =? WS_VISIBLE)
                 (data_managed data).

Definition reapply_cursor_clipping : M unit :=
  context <- NtUserSetThreadDpiAwarenessContext NTUSER_DPI_PER_MONITOR_AWARE ;;
  match NtUserGetClipCursor with
  | Some r => emit (EvClipCursor r)
  | None => pure tt
  end ;;;
  _ <- NtUserSetThreadDpiAwarenessContext context ;;
  pure tt.

(** *** Topology resolver *)

Fixpoint top_parent_walk (fuel : nat) (cur : HWND) : M HWND :=
  match fuel with
  | O => crash OutOfFuel
  | S n =>
      let parent := NtUserGetAncestor cur in
      if negb (parent =? NULL) && negb (parent =? NtUserGetDesktopWindow)
      then top_parent_walk n parent
      else pure cur
  end.

Definition wayland_win_data_get_top_parent (fuel : nat) (data : wayland_win_data)
  : M (option wayland_win_data) :=
  cur <- top_parent_walk fuel (hwnd data) ;;
  if cur =? hwnd data then pure None else wayland_win_data_get_nolock cur.

Definition wayland_win_data_needs_wayland_surface
  (data : wayland_win_data) (parent_data : option wayland_win_data) : M bool :=
  let parent := NtUserGetAncestor (hwnd data) in
  if (parent =? NULL) || (parent =? NtUserGetDesktopWindow) then pure true
  else
    has_client <-
      match wayland_surface_of data with
      | Some s =>
          emit (EvLock (surface_mutex (hwnd data))) ;;;
          emit (EvUnlock (surface_mutex (hwnd data))) ;;;
          pure (is_some (client s))
      | None => pure false
      end ;;
    if has_client then pure true
    else
      pd <- deref parent_data ;;
      match wayland_surface_of pd with
      | Some ps =>
          emit (EvLock (surface_mutex (hwnd pd))) ;;;
          emit (EvUnlock (surface_mutex (hwnd pd))) ;;;
          pure (is_some (client ps))
      | None => pure false
      end.

(** *** Configuration state machine, window intent to compositor *)

Definition wayland_win_data_update_wayland_state (h : HWND) : M unit :=
  data <- load_data h ;;
  surface <- deref (wayland_surface_of data) ;;
  emit (EvLock (surface_mutex h)) ;;;
  (if wl_subsurface surface then
     store_surface h
       (set_processing surface (set_processed (set_serial (processing surface) 1) true))
   else if negb (xdg_toplevel surface) then pure tt
   else
     let processing_config :=
       negb (serial (processing surface) =? 0) && negb (processed (processing surface)) in
     if negb processing_config then
       when (negb (test (window_state (window surface)) WAYLAND_SURFACE_CONFIG_STATE_MAXIMIZED)
             && test (state (current surface)) WAYLAND_SURFACE_CONFIG_STATE_MAXIMIZED)
            (emit (EvUnsetMaximized h)) ;;;
       when (negb (test (window_state (window surface)) WAYLAND_SURFACE_CONFIG_STATE_FULLSCREEN)
             && test (state (current surface)) WAYLAND_SURFACE_CONFIG_STATE_FULLSCREEN)
            (emit (EvUnsetFullscreen h)) ;;;
       when (test (window_state (window surface)) WAYLAND_SURFACE_CONFIG_STATE_MAXIMIZED
             && negb (test (state (current surface)) WAYLAND_SURFACE_CONFIG_STATE_MAXIMIZED))
            (emit (EvSetMaximized h)) ;;;
       when (test (window_state (window surface)) WAYLAND_SURFACE_CONFIG_STATE_FULLSCREEN
             && negb (test (state (current surface)) WAYLAND_SURFACE_CONFIG_STATE_FULLSCREEN))
            (emit (EvSetFullscreen h))
     else
       store_surface h (set_processing surface (set_processed (processing surface) true))) ;;;
  emit (EvUnlock (surface_mutex h)) ;;;
  emit EvDisplayFlush.

(** *** Surface role manager *)

(** The role wanted for the window: lines 295-303. *)
Definition wanted_role (h : HWND) (parent_data : option wayland_win_data)
  : wayland_surface_role :=
  if NtUserIsWindowVisible h then
    match parent_data with
    | Some pd =>
        if is_some (wayland_surface_of pd)
        then WAYLAND_SURFACE_ROLE_SUBSURFACE
        else WAYLAND_SURFACE_ROLE_TOPLEVEL
    | None => WAYLAND_SURFACE_ROLE_TOPLEVEL
    end
  else WAYLAND_SURFACE_ROLE_NONE.

Definition detach_window_surface (data : wayland_win_data) : M unit :=
  match window_surface_of data with
  | Some ws => emit (EvWindowSurfaceUpdate ws None None)
  | None => pure tt
  end.

(** The body of wayland_win_data_update_wayland_surface up to the label
    [out]: it yields the values of the locals [surface], [client] and
    [surface_changed] there. *)
Definition update_wayland_surface_body (fuel : nat) (data : wayland_win_data) (flags : Z)
  : M (option wayland_surface * option wayland_client_surface * bool) :=
  let h := hwnd data in
  let surface := wayland_surface_of data in
  (* We anchor child windows to their toplevel parent window. *)
  parent_data <- wayland_win_data_get_top_parent fuel data ;;
  needs <- wayland_win_data_needs_wayland_surface data parent_data ;;
  (* Destroy unused surfaces of child windows. *)
  if negb needs && negb (test flags UWS_FORCE_CREATE) then
    match surface with
    | Some _ =>
        detach_window_surface data ;;;
        emit (EvSurfaceDestroy h) ;;;
        pure (None, None, true)
    | None => pure (None, None, false)
    end
  else
    let role_wanted := wanted_role h parent_data in
    (* We can temporarily remove a role from a wayland surface and add it
       back, but we can't change a surface's role. *)
    sc <-
      match surface with
      | Some s =>
          if role_set role_wanted && role_set (role s) && negb (role_eqb role_wanted (role s))
          then
            detach_window_surface data ;;;
            emit (EvLock (surface_mutex h)) ;;;
            c <- (if is_some (client s)
                  then emit (EvGetClient h) ;;; pure (wayland_surface_get_client s)
                  else pure None) ;;
            emit (EvUnlock (surface_mutex h)) ;;;
            emit (EvSurfaceDestroy h) ;;;
            pure (None, c)
          else pure (Some s, None)
      | None => pure (None, None)
      end ;;
    let '(surface, client) := sc in
    (* Ensure that we have a wayland surface. *)
    sc <-
      match surface with
      | Some s => pure (Some s, false)
      | None =>
          let created := wayland_surface_create h in
          emit (EvSurfaceCreate h (is_some created)) ;;;
          pure (created, is_some (wayland_surface_of data) || is_some created)
      end ;;
    let '(surface, surface_changed) := sc in
    match surface with
    | None => pure (None, client, surface_changed)
    | Some s =>
        emit (EvLock (surface_mutex h)) ;;;
        update_role <-
          (if negb (Bool.eqb (role_eqb role_wanted WAYLAND_SURFACE_ROLE_TOPLEVEL) (xdg_toplevel s))
           then pure true
           else if negb (Bool.eqb (role_eqb role_wanted WAYLAND_SURFACE_ROLE_SUBSURFACE) (wl_subsurface s))
           then pure true
           else
             stale_parent <-
               match role_wanted, parent_weak_ref s with
               | WAYLAND_SURFACE_ROLE_SUBSURFACE, Some ref_hwnd =>
                   pd <- deref parent_data ;;
                   pure (negb (ref_hwnd =? hwnd pd))
               | _, _ => pure false
               end ;;
             if stale_parent then pure true
             else pure (test flags UWS_FORCE_ROLE_UPDATE)) ;;
        s <-
          (if update_role then
             (* If we have a pre-existing surface ensure it has no role. *)
             s <- (if is_some (wayland_surface_of data)
                   then emit (EvClearRole h) ;;; pure (wayland_surface_clear_role s)
                   else pure s) ;;
             (* If the window is visible give it a role, otherwise keep it
                role-less. *)
             match role_wanted with
             | WAYLAND_SURFACE_ROLE_TOPLEVEL =>
                 emit (EvMakeToplevel h) ;;;
                 let s := wayland_surface_make_toplevel s in
                 when (xdg_toplevel s)
                      (let text := NtUserInternalGetWindowText h in
                       let text := if (String.length text =? 0)%nat then EmptyString else text in
                       emit (EvSetTitle h text)) ;;;
                 pure s
             | WAYLAND_SURFACE_ROLE_SUBSURFACE =>
                 pd <- deref parent_data ;;
                 ps <- deref (wayland_surface_of pd) ;;
                 emit (EvLock (surface_mutex (hwnd pd))) ;;;
                 emit (EvMakeSubsurface h (hwnd pd)) ;;;
                 emit (EvUnlock (surface_mutex (hwnd pd))) ;;;
                 pure (wayland_surface_make_subsurface s ps)
             | WAYLAND_SURFACE_ROLE_NONE => pure s
             end
           else pure s) ;;
        let s := set_window s (wayland_win_data_get_config data) in
        s <- match client with
             | Some c => emit (EvAttachClient h c) ;;; pure (wayland_surface_attach_client s c)
             | None => pure s
             end ;;
        emit (EvUnlock (surface_mutex h)) ;;;
        match window_surface_of data with
        | Some ws => emit (EvWindowSurfaceUpdate ws (Some (visible_rect data)) (Some h))
        | None => pure tt
        end ;;;
        (* Size/position changes affect the effective pointer constraint. *)
        when (h =? NtUserGetForegroundWindow) reapply_cursor_clipping ;;;
        pure (Some s, client, surface_changed)
    end.

(** wayland_win_data_update_wayland_surface.  [fuel] bounds both the walk up
    the ancestor chain and the depth of the recursion into child windows. *)
Fixpoint wayland_win_data_update_wayland_surface (fuel : nat) (h : HWND) (flags : Z)
  : M unit :=
  match fuel with
  | O => crash OutOfFuel
  | S fuel' =>
      data <- load_data h ;;
      r <- update_wayland_surface_body fuel data flags ;;
      let '(surface, client, surface_changed) := r in
      (* out: *)
      store_data (set_wayland_surface data surface) ;;;
      match client with
      | Some c => emit (EvClientRelease c)
      | None => pure tt
      end ;;;
      if negb (test flags UWS_NO_UPDATE_CHILDREN) then
        (* Update child window surfaces, but do not allow recursive updates. *)
        let wwd_flags := UWS_NO_UPDATE_CHILDREN in
        let wwd_flags :=
          if surface_changed then Z.lor wwd_flags UWS_FORCE_ROLE_UPDATE else wwd_flags in
        st <- get_state ;;
        for_each (handles (win_data_rb st)) (fun wh =>
          wwd <- load_data wh ;;
          if is_some (wayland_surface_of wwd) && NtUserIsChild h wh then
            wayland_win_data_update_wayland_surface fuel' wh wwd_flags ;;;
            wwd <- load_data wh ;;
            when (is_some (wayland_surface_of wwd))
                 (wayland_win_data_update_wayland_state wh)
          else pure tt)
      else pure tt
  end.

(** *** Locked access to a window's surface *)

Definition wayland_surface_lock_hwnd (h : HWND) : M (option wayland_surface) :=
  data <- wayland_win_data_get h ;;
  match data with
  | None => pure None
  | Some d =>
      let surface := wayland_surface_of d in
      when (is_some surface) (emit (EvLock (surface_mutex h))) ;;;
      wayland_win_data_release data ;;;
      pure surface
  end.

(** *** Configuration state machine, compositor to window *)

Definition wayland_configure_window (h : HWND) : M unit :=
  locked <- wayland_surface_lock_hwnd h ;;
  match locked with
  | None => pure tt
  | Some surface =>
      if negb (xdg_toplevel surface) then emit (EvUnlock (surface_mutex h))
      else if serial (requested surface) =? 0 then emit (EvUnlock (surface_mutex h))
      else
        let flags := 0 in
        let surface := set_processing surface (requested surface) in
        let surface := set_requested surface zero_config in
        let cstate := state (processing surface) in   (* the local [state] *)
        (* Ignore size hints if we don't have a state that requires strict
           size adherence, in order to avoid spurious resizes. *)
        let '(width, height) :=
          if negb (cstate =? 0)
          then (width (processing surface), height (processing surface))
          else (0, 0) in
        let needs_enter_size_move :=
          test cstate WAYLAND_SURFACE_CONFIG_STATE_RESIZING && negb (resizing surface) in
        let surface := if needs_enter_size_move then set_resizing surface true else surface in
        let needs_exit_size_move :=
          negb (test cstate WAYLAND_SURFACE_CONFIG_STATE_RESIZING) && resizing surface in
        let surface := if needs_exit_size_move then set_resizing surface false else surface in
        (* Transitions between normal/max/fullscreen may entail a frame change. *)
        let flags :=
          if test (Z.lxor cstate (state (current surface)))
                  (Z.lor WAYLAND_SURFACE_CONFIG_STATE_MAXIMIZED
                         WAYLAND_SURFACE_CONFIG_STATE_FULLSCREEN)
          then Z.lor flags SWP_FRAMECHANGED else flags in
        let '(window_surf_width, window_surf_height) :=
          wayland_surface_coords_from_window surface
            (to_INT (right (rect (window surface)) - left (rect (window surface))))
            (to_INT (bottom (rect (window surface)) - top (rect (window surface)))) in
        (* If the window is already fullscreen and its size is compatible with
           what the compositor is requesting, don't force a resize. *)
        let flags :=
          if test (window_state (window surface)) WAYLAND_SURFACE_CONFIG_STATE_FULLSCREEN
             && wayland_surface_config_is_compatible (processing surface)
                  window_surf_width window_surf_height (window_state (window surface))
          then Z.lor flags SWP_NOSIZE else flags in
        let '(window_width, window_height) :=
          wayland_surface_coords_to_window surface width height in
        store_surface h surface ;;;
        emit (EvUnlock (surface_mutex h)) ;;;
        when needs_enter_size_move (emit (EvSendMessage h WM_ENTERSIZEMOVE)) ;;;
        when needs_exit_size_move (emit (EvSendMessage h WM_EXITSIZEMOVE)) ;;;
        let flags :=
          Z.lor flags
            (Z.lor (Z.lor (Z.lor SWP_NOACTIVATE SWP_NOZORDER) SWP_NOOWNERZORDER) SWP_NOMOVE) in
        let flags :=
          if (window_width =? 0) || (window_height =? 0)
          then Z.lor flags SWP_NOSIZE else flags in
        let style := NtUserGetWindowLongW h in
        when (negb (Bool.eqb (negb (test cstate WAYLAND_SURFACE_CONFIG_STATE_MAXIMIZED))
                             (negb (test style WS_MAXIMIZE))))
             (emit (EvSetWindowLong h (Z.lxor style WS_MAXIMIZE))) ;;;
        (* The Wayland maximized and fullscreen states are very strict about
           surface size, so don't let the application override it. *)
        let flags :=
          if test cstate (Z.lor (Z.lor WAYLAND_SURFACE_CONFIG_STATE_MAXIMIZED
                                      WAYLAND_SURFACE_CONFIG_STATE_FULLSCREEN)
                               WAYLAND_SURFACE_CONFIG_STATE_TILED)
          then Z.lor flags SWP_NOSENDCHANGING else flags in
        set_window_pos h 0 0 0 window_width window_height flags
  end.

(** *** System commands *)

Definition hittest_to_resize_edge (hittest : Z) : xdg_toplevel_resize_edge :=
  if hittest =? WMSZ_LEFT then XDG_TOPLEVEL_RESIZE_EDGE_LEFT
  else if hittest =? WMSZ_RIGHT then XDG_TOPLEVEL_RESIZE_EDGE_RIGHT
  else if hittest =? WMSZ_TOP then XDG_TOPLEVEL_RESIZE_EDGE_TOP
  else if hittest =? WMSZ_TOPLEFT then XDG_TOPLEVEL_RESIZE_EDGE_TOP_LEFT
  else if hittest =? WMSZ_TOPRIGHT then XDG_TOPLEVEL_RESIZE_EDGE_TOP_RIGHT
  else if hittest =? WMSZ_BOTTOM then XDG_TOPLEVEL_RESIZE_EDGE_BOTTOM
  else if hittest =? WMSZ_BOTTOMLEFT then XDG_TOPLEVEL_RESIZE_EDGE_BOTTOM_LEFT
  else if hittest =? WMSZ_BOTTOMRIGHT then XDG_TOPLEVEL_RESIZE_EDGE_BOTTOM_RIGHT
  else XDG_TOPLEVEL_RESIZE_EDGE_NONE.

Definition WAYLAND_SysCommand (h : HWND) (wparam lparam : Z) : M Z :=
  let ret := -1 in
  let command := Z.land wparam 0xfff0 in
  emit (EvLock pointer_mutex) ;;;
  st <- get_state ;;
  let button_serial :=
    if focused_hwnd (pointer (process_wayland st)) =? h
    then button_serial (pointer (process_wayland st))
    else 0 in
  emit (EvUnlock pointer_mutex) ;;;
  ret <-
    (if (command =? SC_MOVE) || (command =? SC_SIZE) then
       locked <- wayland_surface_lock_hwnd h ;;
       match locked with
       | Some surface =>
           emit (EvLock seat_mutex) ;;;
           st <- get_state ;;
           match seat_wl_seat (process_wayland st) with
           | Some wl_seat =>
               if xdg_toplevel surface && negb (button_serial =? 0) then
                 if command =? SC_MOVE then emit (EvMove h wl_seat button_serial)
                 else if command =? SC_SIZE then
                   emit (EvResize h wl_seat button_serial
                                  (hittest_to_resize_edge (Z.land wparam 0x0f)))
                 else pure tt
               else pure tt
           | None => pure tt
           end ;;;
           emit (EvUnlock seat_mutex) ;;;
           emit (EvUnlock (surface_mutex h)) ;;;
           pure 0
       | None => pure ret
       end
     else pure ret) ;;
  emit EvDisplayFlush ;;;
  pure ret.

End Driver.

(** ** The callers in window.c *)

Section Callers.

Context {env : Environment} {ops : SurfaceOps}.

(** WAYLAND_WindowPosChanging; [visible_rect] is only passed on.  The result
    tells whether a dedicated window surface is to be used. *)
Definition WAYLAND_WindowPosChanging (fuel : nat) (h : HWND) (swp_flags : Z) (shaped : bool)
  (window_rect client_rect visible_rect : RECT) : M bool :=
  found <- wayland_win_data_get h ;;
  data <- match found with
          | Some d => pure (Some d)
          | None => wayland_win_data_create h window_rect client_rect visible_rect
          end ;;
  match data with
  | None => pure false                       (* use default surface *)
  | Some d =>
      (* Use the default surface for child windows, unless we need a dedicated
         wayland surface in which case use a dedicated window surface. *)
      let parent := NtUserGetAncestor h in
      ret <- (if negb (parent =? NULL) && negb (parent =? NtUserGetDesktopWindow) then
                top <- wayland_win_data_get_top_parent fuel d ;;
                wayland_win_data_needs_wayland_surface d top
              else pure true) ;;
      wayland_win_data_release data ;;;
      pure ret
  end.

Definition WAYLAND_SetWindowText (h : HWND) (text : string) : M unit :=
  locked <- wayland_surface_lock_hwnd h ;;
  match locked with
  | Some surface =>
      when (xdg_toplevel surface) (emit (EvSetTitle h text)) ;;;
      emit (EvUnlock (surface_mutex h))
  | None => pure tt
  end.

(** wayland_surface_lock_accel_hwnd: the locked surface of a window, created
    on demand for a child window that can be anchored to some toplevel. *)
Definition wayland_surface_lock_accel_hwnd (fuel : nat) (h : HWND)
  : M (option wayland_surface) :=
  found <- wayland_win_data_get h ;;
  match found with
  | None => pure None
  | Some d =>
      anchored <- (if is_some (wayland_surface_of d) then pure false
                   else top <- wayland_win_data_get_top_parent fuel d ;;
                        pure (is_some top)) ;;
      (if anchored then
         wayland_win_data_update_wayland_surface fuel h UWS_FORCE_CREATE ;;;
         d1 <- load_data h ;;
         when (is_some (wayland_surface_of d1)) (wayland_win_data_update_wayland_state h)
       else pure tt) ;;;
      d2 <- load_data h ;;
      let surface := wayland_surface_of d2 in
      when (is_some surface) (emit (EvLock (surface_mutex h))) ;;;
      wayland_win_data_release found ;;;
      pure surface
  end.

End Callers.

(** ** A reference implementation of the collaborators

    Used to run the driver on concrete inputs. *)

Definition zero_window_config : wayland_window_config :=
  mkWindowConfig empty_rect empty_rect 0 (QArith_base.Qmake 0 1) false false.

(** Modelled from the spec: the rounding of a scaled coordinate to the nearest
    integer (wayland_surface.c is not among the sources). *)
Definition round_Q (q : QArith_base.Q) : Z :=
  (2 * QArith_base.Qnum q + Z.pos (QArith_base.Qden q)) / (2 * Z.pos (QArith_base.Qden q)).

(** Modelled from the spec: surface coordinates to window coordinates, by the
    scale of the surface. *)
Definition scale_up (k : QArith_base.Q) (v : Z) : Z :=
  round_Q (QArith_base.Qmult (QArith_base.inject_Z v) k).

(** Modelled from the spec: window coordinates to surface coordinates. *)
Definition scale_down (k : QArith_base.Q) (v : Z) : Z :=
  if QArith_base.Qnum k =? 0 then 0
  else round_Q (QArith_base.Qdiv (QArith_base.inject_Z v) k).

(** Modelled from the spec: wayland_surface.c is not among the sources.  A new
    surface has no role and empty configurations; clearing a role drops the
    role object and the anchor reference; a role assignment creates the role
    object and records the role on the surface (a surface that had a role can
    get the same role back, never another one); a sub-surface refers weakly to
    its anchor window; the client presentation surface is attached to and read
    from the surface.  Coordinates are translated by the scale of the surface.
    A configuration is compatible with a size when the Maximized bits agree
    and a maximized configuration is not larger than the size. *)
#[local] Instance reference_surface_ops : SurfaceOps := {|
  wayland_surface_create h :=
    Some (mkSurface h WAYLAND_SURFACE_ROLE_NONE false false None None
                    zero_window_config zero_config zero_config zero_config false);
  wayland_surface_clear_role s :=
    mkSurface (surface_hwnd s) (role s) false false None (client s) (window s)
              (requested s) (processing s) (current s) (resizing s);
  wayland_surface_make_toplevel s :=
    mkSurface (surface_hwnd s) WAYLAND_SURFACE_ROLE_TOPLEVEL true false None (client s)
              (window s) (requested s) (processing s) (current s) (resizing s);
  wayland_surface_make_subsurface s parent :=
    mkSurface (surface_hwnd s) WAYLAND_SURFACE_ROLE_SUBSURFACE false true
              (Some (surface_hwnd parent)) (client s)
              (window s) (requested s) (processing s) (current s) (resizing s);
  wayland_surface_get_client s := client s;
  wayland_surface_attach_client s c :=
    mkSurface (surface_hwnd s) (role s) (xdg_toplevel s) (wl_subsurface s)
              (parent_weak_ref s) (Some c) (window s) (requested s) (processing s)
              (current s) (resizing s);
  wayland_surface_coords_from_window s x y :=
    (scale_down (scale (window s)) x, scale_down (scale (window s)) y);
  wayland_surface_coords_to_window s x y :=
    (scale_up (scale (window s)) x, scale_up (scale (window s)) y);
  wayland_surface_config_is_compatible conf w h st :=
    (Z.land st WAYLAND_SURFACE_CONFIG_STATE_MAXIMIZED
       =? Z.land (state conf) WAYLAND_SURFACE_CONFIG_STATE_MAXIMIZED)
    && negb (test (state conf) WAYLAND_SURFACE_CONFIG_STATE_MAXIMIZED
             && ((w <? width conf) || (h <? height conf)))
|}.

(** A small desktop: the desktop window 1, a top-level window 10 and its
    child 20, all visible, at 96 dpi; window 10 has the focus. *)
#[local] Instance sample_environment : Environment := {|
  NtUserGetAncestor h :=
    if h =? 10 then 1 else if h =? 20 then 10 else NULL;
  NtUserGetDesktopWindow := 1;
  NtUserIsWindowVisible h := (h =? 10) || (h =? 20);
  NtUserIsChild p c := (p =? 10) && (c =? 20);
  NtUserGetForegroundWindow := 10;
  NtUserGetWindowLongW h := WS_VISIBLE;
  NtUserIsWindowRectFullScreen r dpi :=
    (left r <=? 0) && (top r <=? 0) && (1920 <=? right r) && (1080 <=? bottom r);
  NtUserGetSystemDpiForProcess := 96;
  NtUserGetDpiForWindow h := 96;
  NtUserInternalGetWindowText h := "window"%string;
  NtUserGetClipCursor := None;
  calloc_win_data h := true
|}.

Definition sample_wayland : wayland := mkWayland (mkPointer 10 0) (Some 1%nat).

Definition empty_driver : driver := mkDriver [] sample_wayland 0.

(** ** Observations on event traces *)

(** *** Roles (surface role manager) *)

(** Modelled from the spec: what a call into wayland_surface.c does to the
    role held by the surface of a window.  A destroyed, failed or new surface
    and a surface whose role was cleared hold no role; a role assignment makes
    the surface hold that role (at most: an assignment that fails leaves it
    role-less). *)
Definition role_effect (e : event) : option (HWND * wayland_surface_role) :=
  match e with
  | EvSurfaceCreate h _ => Some (h, WAYLAND_SURFACE_ROLE_NONE)
  | EvSurfaceDestroy h => Some (h, WAYLAND_SURFACE_ROLE_NONE)
  | EvClearRole h => Some (h, WAYLAND_SURFACE_ROLE_NONE)
  | EvMakeToplevel h => Some (h, WAYLAND_SURFACE_ROLE_TOPLEVEL)
  | EvMakeSubsurface h _ => Some (h, WAYLAND_SURFACE_ROLE_SUBSURFACE)
  | _ => None
  end.

Definition role_map := HWND -> wayland_surface_role.

Definition set_role (rs : role_map) (h : HWND) (r : wayland_surface_role) : role_map :=
  fun h' => if h' =? h then r else rs h'.

(** A step of a surface's role from [old] to [new] is admissible when it is
    not a change from a role to a different role. *)
Definition role_step_ok (old new : wayland_surface_role) : bool :=
  negb (role_set old) || negb (role_set new) || role_eqb old new.

(** The roles observed along a trace, starting from the roles [rs] the
    surfaces hold: every step of every surface is admissible. *)
Fixpoint role_exclusive (rs : role_map) (tr : list event) : bool :=
  match tr with
  | [] => true
  | e :: rest =>
      match role_effect e with
      | Some (h, r) => role_step_ok (rs h) r && role_exclusive (set_role rs h r) rest
      | None => role_exclusive rs rest
      end
  end.

(** The role changes of a trace, in order. *)
Fixpoint role_events (tr : list event) : list (HWND * wayland_surface_role) :=
  match tr with
  | [] => []
  | e :: rest =>
      match role_effect e with
      | Some hr => hr :: role_events rest
      | None => role_events rest
      end
  end.

(** Every role assignment comes right after a removal of the role of the same
    window's surface; [cleared] is the window whose surface was just left
    role-less. *)
Fixpoint cleared_before_set (cleared : option HWND) (l : list (HWND * wayland_surface_role))
  : bool :=
  match l with
  | [] => true
  | (h, r) :: rest =>
      if role_set r then
        match cleared with
        | Some h' => (h =? h') && cleared_before_set None rest
        | None => false
        end
      else cleared_before_set (Some h) rest
  end.

(** The first role change of the trace is the destruction of the surface of
    window [h]. *)
Fixpoint destroyed_first (h : HWND) (tr : list event) : bool :=
  match tr with
  | [] => false
  | EvSurfaceDestroy h' :: _ => h' =? h
  | e :: rest =>
      match role_effect e with
      | Some _ => false
      | None => destroyed_first h rest
      end
  end.

(** The established role of the surface [s] conflicts with the wanted role:
    both are roles and they differ (line 307). *)
Definition role_conflict (wanted : wayland_surface_role) (s : wayland_surface) : bool :=
  role_set wanted && role_set (role s) && negb (role_eqb wanted (role s)).

(** *** State requests (configuration state machine) *)

Definition is_unset_call (e : event) : bool :=
  match e with
  | EvUnsetMaximized _ | EvUnsetFullscreen _ => true
  | _ => false
  end.

Definition is_set_call (e : event) : bool :=
  match e with
  | EvSetMaximized _ | EvSetFullscreen _ => true
  | _ => false
  end.

(** No unset request comes after a set request. *)
Fixpoint unsets_before_sets (tr : list event) : bool :=
  match tr with
  | [] => true
  | e :: rest =>
      (if is_set_call e then forallb (fun e' => negb (is_unset_call e')) rest else true)
      && unsets_before_sets rest
  end.

Definition state_calls (tr : list event) : list event :=
  filter (fun e => is_unset_call e || is_set_call e) tr.

(** *** Protocol requests and geometry calls *)

Definition is_geometry_call (e : event) : bool :=
  match e with
  | EvSetWindowPos _ _ _ _ _ _ _ => true
  | _ => false
  end.

Definition geometry_calls (tr : list event) : list event := filter is_geometry_call tr.

(** The requests sent to the compositor. *)
Definition is_protocol_call (e : event) : bool :=
  match e with
  | EvUnsetMaximized _ | EvUnsetFullscreen _ | EvSetMaximized _ | EvSetFullscreen _
  | EvMove _ _ _ | EvResize _ _ _ _
  | EvMakeToplevel _ | EvMakeSubsurface _ _ | EvClearRole _ | EvSetTitle _ _
  | EvSurfaceCreate _ _ | EvSurfaceDestroy _ | EvDisplayFlush => true
  | _ => false
  end.

Definition protocol_calls (tr : list event) : list event := filter is_protocol_call tr.

Definition is_move_resize (e : event) : bool :=
  match e with
  | EvMove _ _ _ | EvResize _ _ _ _ => true
  | _ => false
  end.

(** [flags] carries every bit of [mask]. *)
Definition has_flags (flags mask : Z) : Prop := Z.land flags mask = mask.

(** *** Locks *)

Definition mutex_eqb (a b : mutex) : bool :=
  match a, b with
  | win_data_mutex, win_data_mutex => true
  | surface_mutex h, surface_mutex h' => h =? h'
  | pointer_mutex, pointer_mutex => true
  | seat_mutex, seat_mutex => true
  | _, _ => false
  end.

Definition is_surface_mutex (m : mutex) : bool :=
  match m with surface_mutex _ => true | _ => false end.

Definition holds (held : list mutex) (m : mutex) : bool := existsb (mutex_eqb m) held.

Fixpoint drop (held : list mutex) (m : mutex) : list mutex :=
  match held with
  | [] => []
  | m' :: rest => if mutex_eqb m m' then rest else m' :: drop rest m
  end.

(** The mutexes held after a trace, by a thread that held [held] before it, if
    the trace keeps the discipline: a mutex is not locked while it is held
    (the mutexes are not recursive), only a held mutex is unlocked, and
    win_data_mutex is not taken while a surface mutex is held. *)
Fixpoint lock_discipline (held : list mutex) (tr : list event) : option (list mutex) :=
  match tr with
  | [] => Some held
  | EvLock m :: rest =>
      if holds held m then None
      else if mutex_eqb m win_data_mutex && existsb is_surface_mutex held then None
      else lock_discipline (m :: held) rest
  | EvUnlock m :: rest =>
      if holds held m then lock_discipline (drop held m) rest else None
  | _ :: rest => lock_discipline held rest
  end.

(** *** Frames *)

(** A record without its surface: what the role manager leaves alone. *)
Definition strip (d : wayland_win_data) : wayland_win_data := set_wayland_surface d None.

(** The driver states agree on everything but the surfaces of the records. *)
Definition same_windows (st st' : driver) : Prop :=
  map strip (win_data_rb st') = map strip (win_data_rb st) /\
  process_wayland st' = process_wayland st /\
  dpi_context st' = dpi_context st.

(** Every title is set right after the toplevel role was given to the same
    window. *)
Fixpoint titles_follow_toplevel (prev : option HWND) (tr : list event) : bool :=
  match tr with
  | [] => true
  | EvSetTitle h _ :: rest =>
      match prev with
      | Some h' => (h =? h') && titles_follow_toplevel None rest
      | None => false
      end
  | EvMakeToplevel h :: rest => titles_follow_toplevel (Some h) rest
  | _ :: rest => titles_follow_toplevel None rest
  end.

Section Topology.

Context {env : Environment}.

(** The parent is missing or is the desktop: the window is at the top. *)
Definition is_root (parent : HWND) : bool :=
  (parent =? NULL) || (parent =? NtUserGetDesktopWindow).

Fixpoint nth_ancestor (n : nat) (h : HWND) : HWND :=
  match n with
  | O => h
  | S k => NtUserGetAncestor (nth_ancestor k h)
  end.

(** A role is given to a visible window only, and a sub-surface is put under
    another window, one at the top of the window tree. *)
Definition role_target_ok (e : event) : bool :=
  match e with
  | EvMakeToplevel h => NtUserIsWindowVisible h
  | EvMakeSubsurface h p =>
      NtUserIsWindowVisible h && negb (p =? h) && is_root (NtUserGetAncestor p)
  | _ => true
  end.

End Topology.

(** ** Concurrent record creation

    Threads that run wayland_win_data_create against the shared registry.
    A thread advances by the statements the function is made of, one access
    to shared memory at a time: the lock of win_data_mutex (line 104), the
    lookup rb_get (line 106) and the insertion rb_put (line 112) are steps of
    their own, and the steps of different threads interleave freely.  The only
    thing that holds a thread back is pthread_mutex_lock, which waits until
    the mutex is free.  The state of a thread is its place in the function
    with its locals [data] and [rb_entry].  A thread that got a record holds
    the mutex until its caller releases it (wayland_win_data_release). *)
Inductive creator :=
| Calling (h : HWND) (window_rect client_rect visible_rect : RECT)
| Allocated (data : wayland_win_data)      (* record filled in, mutex not yet taken *)
| Locked (data : wayland_win_data)         (* mutex taken, registry not yet re-checked *)
| Checked (data : wayland_win_data) (rb_entry : option wayland_win_data)
                                           (* rb_get done, its result not yet acted on *)
| Returned (h : HWND) (r : option wayland_win_data)   (* result; mutex held if a record *)
| Released (h : HWND) (r : wayland_win_data).

Record system := mkSystem {
  registry : rb_tree;
  owner : option nat;                      (* the thread holding win_data_mutex *)
  threads : list creator
}.

Fixpoint set_thread (ts : list creator) (i : nat) (c : creator) : list creator :=
  match ts, i with
  | [], _ => []
  | _ :: rest, O => c :: rest
  | t :: rest, S j => t :: set_thread rest j c
  end.

Section Concurrent.

Context {env : Environment}.

(** The test of lines 92-96: the window can have a record and its allocation
    succeeds. *)
Definition can_allocate (h : HWND) : bool :=
  let parent := NtUserGetAncestor h in
  negb (parent =? NULL)
  && negb (negb (parent =? NtUserGetDesktopWindow) && (NtUserGetAncestor parent =? NULL))
  && calloc_win_data h.

Inductive step : system -> system -> Prop :=
| step_refuse : forall t o ts i h wr cr vr,
    nth_error ts i = Some (Calling h wr cr vr) ->
    can_allocate h = false ->
    step (mkSystem t o ts) (mkSystem t o (set_thread ts i (Returned h None)))
| step_allocate : forall t o ts i h wr cr vr,
    nth_error ts i = Some (Calling h wr cr vr) ->
    can_allocate h = true ->
    step (mkSystem t o ts)
         (mkSystem t o (set_thread ts i (Allocated (mkWinData h None None wr cr vr false))))
(* pthread_mutex_lock(&win_data_mutex): goes through when the mutex is free *)
| step_lock : forall t ts i data,
    nth_error ts i = Some (Allocated data) ->
    step (mkSystem t None ts) (mkSystem t (Some i) (set_thread ts i (Locked data)))
(* rb_entry = rb_get(&win_data_rb, hwnd), on the registry as it is now *)
| step_lookup : forall t o ts i data,
    nth_error ts i = Some (Locked data) ->
    step (mkSystem t o ts)
         (mkSystem t o (set_thread ts i (Checked data (rb_get t (hwnd data)))))
(* free(data); return RB_ENTRY_VALUE(rb_entry, ...) *)
| step_found : forall t o ts i data existing,
    nth_error ts i = Some (Checked data (Some existing)) ->
    step (mkSystem t o ts)
         (mkSystem t o (set_thread ts i (Returned (hwnd data) (Some existing))))
(* rb_put(&win_data_rb, hwnd, &data->entry), on the registry as it is now;
   return data *)
| step_insert : forall t o ts i data,
    nth_error ts i = Some (Checked data None) ->
    step (mkSystem t o ts)
         (mkSystem (fst (rb_put t (hwnd data) data)) o
                   (set_thread ts i (Returned (hwnd data) (Some data))))
(* the caller's wayland_win_data_release: pthread_mutex_unlock(&win_data_mutex) *)
| step_release : forall t o ts i h r,
    nth_error ts i = Some (Returned h (Some r)) ->
    step (mkSystem t o ts) (mkSystem t None (set_thread ts i (Released h r))).

(** Any number of steps, of any threads, in any order. *)
Inductive steps : system -> system -> Prop :=
| steps_done : forall s, steps s s
| steps_next : forall s1 s2 s3, step s1 s2 -> steps s2 s3 -> steps s1 s3.

End Concurrent.

Definition is_calling (c : creator) : Prop :=
  match c with Calling _ _ _ _ => True | _ => False end.

(** The record a thread got for window [h], if it got one. *)
Definition obtained (c : creator) (h : HWND) (d : wayland_win_data) : Prop :=
  c = Returned h (Some d) \/ c = Released h d.

(** The thread is between its lock of win_data_mutex and the release. *)
Definition in_critical_section (c : creator) : Prop :=
  match c with
  | Locked _ | Checked _ _ | Returned _ (Some _) => True
  | _ => False
  end.

(** What holds of thread [i] in state [c]: a thread past the lock owns the
    mutex, what its lookup found is still what the registry holds for the
    window, and the record a thread got is the one the registry holds for the
    window. *)
Definition thread_ok (sys : system) (i : nat) (c : creator) : Prop :=
  match c with
  | Calling _ _ _ _ | Allocated _ | Returned _ None => True
  | Locked _ => owner sys = Some i
  | Checked data rb_entry =>
      owner sys = Some i /\ rb_get (registry sys) (hwnd data) = rb_entry
  | Returned h (Some d) => owner sys = Some i /\ rb_get (registry sys) h = Some d
  | Released h d => rb_get (registry sys) h = Some d
  end.

Definition invariant (sys : system) : Prop :=
  well_formed (registry sys) /\
  forall i c, nth_error (threads sys) i = Some c -> thread_ok sys i c.

(** ** Vocabulary of the statements about state requests and system commands *)

(** Membership of [bit] differs between the window state and the current
    compositor state of surface [s]: the window leaves or enters the state. *)
Definition leaves (bit : Z) (s : wayland_surface) : bool :=
  negb (test (window_state (window s)) bit) && test (state (current s)) bit.

Definition enters (bit : Z) (s : wayland_surface) : bool :=
  test (window_state (window s)) bit && negb (test (state (current s)) bit).

Definition changes (bit : Z) (s : wayland_surface) : bool := leaves bit s || enters bit s.

(** The serial WAYLAND_SysCommand works with: the last button press, when the
    pointer focus is on the window. *)
Definition effective_button_serial (st : driver) (h : HWND) : Z :=
  if focused_hwnd (pointer (process_wayland st)) =? h
  then button_serial (pointer (process_wayland st))
  else 0.

Definition is_move_or_size (wparam : Z) : Prop :=
  Z.land wparam 0xfff0 = SC_MOVE \/ Z.land wparam 0xfff0 = SC_SIZE.

Definition has_surface (st : driver) (h : HWND) : Prop :=
  exists data surface,
    rb_get (win_data_rb st) h = Some data /\ wayland_surface_of data = Some surface.

(** The specification's reading of a move or size command without a button
    serial: no move or resize request is issued and the result is -1. *)
Definition not_handled_without_serial (st : driver) (h : HWND) (wparam lparam : Z) : Prop :=
  is_move_or_size wparam ->
  effective_button_serial st h = 0 ->
  exists st' tr,
    WAYLAND_SysCommand h wparam lparam st = Done (-1) st' tr /\
    filter is_move_resize tr = [].

(** ** The drain of a pending configuration, in closed form *)

(** The surface as wayland_configure_window leaves it when it drains: the
    requested snapshot has become the processing one and [resizing] follows
    the Resizing bit. *)
Definition drained (s : wayland_surface) : wayland_surface :=
  set_resizing (set_requested (set_processing s (requested s)) zero_config)
               (test (state (requested s)) WAYLAND_SURFACE_CONFIG_STATE_RESIZING).

(** The size hint the drain keeps from a snapshot. *)
Definition size_hint (c : wayland_surface_config) : Z * Z :=
  if negb (state c =? 0) then (width c, height c) else (0, 0).

(** The flags of the geometry call, from the four decisions taken on the way:
    a frame change, a compatible fullscreen size, an empty translated size,
    and a state that is strict about the size. *)
Definition drain_flags (frame compatible empty strict : bool) : Z :=
  let flags := 0 in
  let flags := if frame then Z.lor flags SWP_FRAMECHANGED else flags in
  let flags := if compatible then Z.lor flags SWP_NOSIZE else flags in
  let flags :=
    Z.lor flags
      (Z.lor (Z.lor (Z.lor SWP_NOACTIVATE SWP_NOZORDER) SWP_NOOWNERZORDER) SWP_NOMOVE) in
  let flags := if empty then Z.lor flags SWP_NOSIZE else flags in
  if strict then Z.lor flags SWP_NOSENDCHANGING else flags.

(** The events of wayland_surface_lock_hwnd on a window that has a surface. *)
Definition lock_events (h : HWND) : list event :=
  [EvLock win_data_mutex; EvLock (surface_mutex h); EvUnlock win_data_mutex].

(** ** Sample driver states

    Window 10 of the sample desktop with a top-level surface: its window
    configuration has state [win_state] and an 800x600 rectangle, and the
    compositor snapshot [rq] is pending. *)
Definition sample_rect : RECT := mkRECT 0 0 800 600.

Definition sample_surface (rq : wayland_surface_config) (win_state : Z) : wayland_surface :=
  mkSurface 10 WAYLAND_SURFACE_ROLE_TOPLEVEL true false None None
            (mkWindowConfig sample_rect sample_rect win_state
                            (QArith_base.Qmake 96 96) true true)
            rq zero_config zero_config false.

Definition sample_record (s : option wayland_surface) : wayland_win_data :=
  mkWinData 10 s None sample_rect sample_rect sample_rect true.

Definition sample_driver (s : option wayland_surface) : driver :=
  mkDriver [sample_record s] sample_wayland 0.

(** The compositor asks for a maximized 1920x1080 window (serial 5). *)
Definition maximize_request : wayland_surface_config :=
  mkConfig 1920 1080 WAYLAND_SURFACE_CONFIG_STATE_MAXIMIZED 5 false.

(** The compositor asks for a fullscreen 640x480 window (serial 6). *)
Definition fullscreen_request : wayland_surface_config :=
  mkConfig 640 480 WAYLAND_SURFACE_CONFIG_STATE_FULLSCREEN 6 false.

(** An advisory configure: no state, a suggested size (serial 7). *)
Definition advisory_request : wayland_surface_config :=
  mkConfig 1024 768 0 7 false.

Definition maximize_pending : driver :=
  sample_driver (Some (sample_surface maximize_request 0)).

(** A fullscreen window with a fullscreen request pending. *)
Definition fullscreen_pending : driver :=
  sample_driver (Some (sample_surface fullscreen_request
                                      WAYLAND_SURFACE_CONFIG_STATE_FULLSCREEN)).

Definition advisory_pending : driver :=
  sample_driver (Some (sample_surface advisory_request 0)).

(** Nothing pending. *)
Definition idle_driver : driver :=
  sample_driver (Some (sample_surface zero_config 0)).

(** Window 10 as the compositor sees it maximized while the window itself has
    become fullscreen. *)
Definition to_fullscreen_surface : wayland_surface :=
  mkSurface 10 WAYLAND_SURFACE_ROLE_TOPLEVEL true false None None
            (mkWindowConfig sample_rect sample_rect WAYLAND_SURFACE_CONFIG_STATE_FULLSCREEN
                            (QArith_base.Qmake 96 96) true true)
            zero_config zero_config
            (mkConfig 800 600 WAYLAND_SURFACE_CONFIG_STATE_MAXIMIZED 4 true) false.

(** Two threads race to create the record of window 10, with different
    rectangles; the second allocates first, the first inserts first. *)
Definition racing_threads : list creator :=
  [Calling 10 sample_rect sample_rect sample_rect;
   Calling 10 empty_rect empty_rect empty_rect].

Definition first_record : wayland_win_data :=
  mkWinData 10 None None sample_rect sample_rect sample_rect false.

Definition second_record : wayland_win_data :=
  mkWinData 10 None None empty_rect empty_rect empty_rect false.

Definition after_race : system :=
  mkSystem [first_record] None [Released 10 first_record; Released 10 first_record].

(** Window 20, a child of window 10, still has the surface it got as a
    top-level window; window 10 now has a surface of its own, with a client
    presentation surface attached, so window 20 is to become a sub-surface. *)
Definition anchor_surface : wayland_surface :=
  mkSurface 10 WAYLAND_SURFACE_ROLE_TOPLEVEL true false None (Some 1%nat)
            (mkWindowConfig sample_rect sample_rect 0 (QArith_base.Qmake 96 96) true true)
            zero_config zero_config zero_config false.

Definition child_surface : wayland_surface :=
  mkSurface 20 WAYLAND_SURFACE_ROLE_TOPLEVEL true false None None
            (mkWindowConfig sample_rect sample_rect 0 (QArith_base.Qmake 96 96) true false)
            zero_config zero_config zero_config false.

Definition child_record : wayland_win_data :=
  mkWinData 20 (Some child_surface) None sample_rect sample_rect sample_rect false.

Definition conflict_driver : driver :=
  mkDriver [sample_record (Some anchor_surface); child_record] sample_wayland 0.

(** Window 10 known to the driver, without a surface yet. *)
Definition bare_driver : driver := sample_driver None.

(** *** Calls made under a mutex *)

(** The mutexes a call is made under: a request on a surface needs the mutex
    of that surface, a sub-surface is put under its anchor with the mutex of
    the anchor held as well, and an interactive move or resize uses the seat. *)
Definition needs_mutex (e : event) : list mutex :=
  match e with
  | EvClearRole h | EvMakeToplevel h | EvSetTitle h _ | EvGetClient h
  | EvAttachClient h _ | EvUnsetMaximized h | EvUnsetFullscreen h
  | EvSetMaximized h | EvSetFullscreen h => [surface_mutex h]
  | EvMakeSubsurface h parent => [surface_mutex h; surface_mutex parent]
  | EvMove h _ _ | EvResize h _ _ _ => [surface_mutex h; seat_mutex]
  | _ => []
  end.

(** Every call of the trace is made with the mutexes it needs held, by a
    thread that held [held] before the trace. *)
Fixpoint guarded (held : list mutex) (tr : list event) : bool :=
  match tr with
  | [] => true
  | e :: rest =>
      match e with
      | EvLock m => guarded (m :: held) rest
      | EvUnlock m => guarded (drop held m) rest
      | _ => forallb (holds held) (needs_mutex e) && guarded held rest
      end
  end.

(** The calls of a trace, without the mutex operations. *)
Definition is_call (e : event) : bool :=
  match e with
  | EvLock _ | EvUnlock _ => false
  | _ => true
  end.

Definition calls (tr : list event) : list event := filter is_call tr.

(** The mutexes held on return from wayland_surface_lock_hwnd. *)
Definition held_for (h : HWND) (r : option wayland_surface) : list mutex :=
  match r with
  | Some _ => [surface_mutex h]
  | None => []
  end.

(** The surface the registry has for a window. *)
Definition surface_at (st : driver) (h : HWND) : option wayland_surface :=
  match rb_get (win_data_rb st) h with
  | Some d => wayland_surface_of d
  | None => None
  end.

(** The request WAYLAND_SysCommand makes for a move or size command. *)
Definition move_resize_request (h : HWND) (wparam : Z) (seat : nat) (serial : Z) : event :=
  if Z.land wparam 0xfff0 =? SC_MOVE
  then EvMove h seat serial
  else EvResize h seat serial (hittest_to_resize_edge (Z.land wparam 0x0f)).

(** The state requests a reconciliation pass makes for a top-level surface. *)
Definition state_requests (h : HWND) (s : wayland_surface) : list event :=
  (if leaves WAYLAND_SURFACE_CONFIG_STATE_MAXIMIZED s then [EvUnsetMaximized h] else [])
  ++ (if leaves WAYLAND_SURFACE_CONFIG_STATE_FULLSCREEN s then [EvUnsetFullscreen h] else [])
  ++ (if enters WAYLAND_SURFACE_CONFIG_STATE_MAXIMIZED s then [EvSetMaximized h] else [])
  ++ (if enters WAYLAND_SURFACE_CONFIG_STATE_FULLSCREEN s then [EvSetFullscreen h] else []).

(** A snapshot of the compositor that is still to be acknowledged. *)
Definition pending (c : wayland_surface_config) : bool :=
  negb (serial c =? 0) && negb (processed c).

(** The pointer is on window 10 and the last button press has serial 7. *)
Definition pressed_driver : driver :=
  mkDriver [sample_record (Some (sample_surface zero_config 0))]
           (mkWayland (mkPointer 10 7) (Some 1%nat)) 0.

(** The compositor's maximize request is being processed: the window is
    already maximized for the window system, not yet for the compositor. *)
Definition processing_surface : wayland_surface :=
  mkSurface 10 WAYLAND_SURFACE_ROLE_TOPLEVEL true false None None
            (mkWindowConfig sample_rect sample_rect WAYLAND_SURFACE_CONFIG_STATE_MAXIMIZED
                            (QArith_base.Qmake 96 96) true true)
            zero_config maximize_request zero_config false.

(** Window 20, a child of window 10, has no surface; window 10 has one. *)
Definition accel_driver : driver :=
  mkDriver [sample_record (Some anchor_surface);
            mkWinData 20 None None sample_rect sample_rect sample_rect false]
           sample_wayland 0.

(** ** Entry points that call into other parts of the driver

    WAYLAND_WindowPosChanged, WAYLAND_DestroyWindow, wayland_window_flush and
    the managed-window test make calls of their own besides those of the
    functions above: on window surfaces, on the GL drawable and on the heap.
    Their traces are lists of [call]s, in which the events of the functions
    above appear as they were issued. *)

Module Win32Styles.
Definition WS_POPUP         := 0x80000000.
Definition WS_CHILD         := 0x40000000.
Definition WS_SYSMENU       := 0x00080000.
Definition WS_THICKFRAME    := 0x00040000.
Definition WS_EX_APPWINDOW  := 0x00040000.
Definition HWND_BOTTOM : HWND := 1.
Definition STATUS_BUFFER_TOO_SMALL := 0xC0000023.
End Win32Styles.
Import Win32Styles.

Inductive call :=
| Within (e : event)                        (* an event of the functions above *)
| AddRef (ws : window_surface)              (* window_surface_add_ref *)
| Flush (ws : window_surface)               (* window_surface_flush *)
| DestroyGlDrawable (h : HWND)              (* wayland_destroy_gl_drawable *)
| Malloc (count : Z) (ok : bool)            (* malloc(count * sizeof(HWND)) *)
| Free.                                     (* free of a window list *)

(** Reading past the end of a window list is a failure of its own. *)
Inductive failure := Inner (f : fault) | OutOfBounds.

Inductive completion (A : Type) :=
| Completed (a : A) (st : driver) (tr : list call)
| Aborted (f : failure).
Arguments Completed {A} a st tr.
Arguments Aborted {A} f.

Definition Entry (A : Type) := driver -> completion A.

Definition eret {A} (a : A) : Entry A := fun st => Completed a st [].

Definition ebind {A B} (m : Entry A) (k : A -> Entry B) : Entry B :=
  fun st =>
    match m st with
    | Aborted f => Aborted f
    | Completed a st1 tr1 =>
        match k a st1 with
        | Aborted f => Aborted f
        | Completed b st2 tr2 => Completed b st2 (tr1 ++ tr2)
        end
    end.

Definition ecall (c : call) : Entry unit := fun st => Completed tt st [c].
Definition efail {A} (f : failure) : Entry A := fun _ => Aborted f.

(** A function of the layers above, run as it is. *)
Definition lift {A} (m : M A) : Entry A :=
  fun st =>
    match m st with
    | Done a st' tr => Completed a st' (map Within tr)
    | Fault f => Aborted (Inner f)
    end.

Declare Scope entry_scope.
Delimit Scope entry_scope with entry.
Notation "x <- m ;; k" := (ebind m (fun x => k))
  (at level 100, m at next level, right associativity) : entry_scope.
Notation "m ;;; k" := (ebind m (fun _ => k))
  (at level 100, right associativity) : entry_scope.

(** What the window system is asked by the managed-window test, and the heap.
    [NtUserBuildHwndList count] gives the status, the list written to a buffer
    of [count] handles and the count written back. *)
Class WindowSystem := {
  NtUserGetWindowLongW_exstyle : HWND -> Z;            (* GWL_EXSTYLE *)
  NtUserGetGUIThreadInfo : option HWND;                (* hwndActive, if the call succeeds *)
  NtUserGetMonitorInfo_work : HWND -> RECT;            (* rcWork of the window's monitor *)
  NtUserGetWindowRelative_owner : HWND -> HWND;        (* GW_OWNER *)
  NtUserBuildHwndList : Z -> Z * list HWND * Z;
  malloc_hwnd_list : Z -> bool
}.

Section EntryPoints.

Context {env : Environment} {ops : SurfaceOps} {win : WindowSystem}.

Definition is_managed (h : HWND) : M bool :=
  data <- wayland_win_data_get h ;;
  let ret := match data with Some d => data_managed d | None => false end in
  match data with
  | Some _ => wayland_win_data_release data
  | None => pure tt
  end ;;;
  pure ret.

Local Open Scope entry_scope.

Fixpoint build_hwnd_list_from (fuel : nat) (count : Z) : Entry (option (list HWND)) :=
  match fuel with
  | O => efail (Inner OutOfFuel)
  | S n =>
      if negb (malloc_hwnd_list count) then
        ecall (Malloc count false) ;;; eret None
      else
        ecall (Malloc count true) ;;;
        let '(status, list, count') := NtUserBuildHwndList count in
        if status =? 0 then eret (Some list)
        else
          ecall Free ;;;
          if negb (status =? STATUS_BUFFER_TOO_SMALL) then eret None
          else build_hwnd_list_from n count'
  end.

Definition build_hwnd_list (fuel : nat) : Entry (option (list HWND)) :=
  build_hwnd_list_from fuel 128.

(** The loop of has_owned_popups over the list, from [list[i]] on. *)
Fixpoint owned_popup_scan (h : HWND) (list : list HWND) : Entry bool :=
  match list with
  | [] => efail OutOfBounds
  | w :: rest =>
      if w =? HWND_BOTTOM then eret false
      else if w =? h then eret false              (* popups are always above owner *)
      else if negb (NtUserGetWindowRelative_owner w =? h) then owned_popup_scan h rest
      else
        ret <- lift (is_managed w) ;;
        if ret then eret true else owned_popup_scan h rest
  end.

Definition has_owned_popups (fuel : nat) (h : HWND) : Entry bool :=
  list <- build_hwnd_list fuel ;;
  match list with
  | None => eret false
  | Some l =>
      ret <- owned_popup_scan h l ;;
      ecall Free ;;;
      eret ret
  end.

Definition get_active_window : HWND :=
  match NtUserGetGUIThreadInfo with
  | Some active => active
  | None => 0
  end.

(** is_window_managed: whether a given window should be managed. *)
Definition is_window_managed (fuel : nat) (h : HWND) (swp_flags : Z) (window_rect : RECT)
  : Entry bool :=
  (* child windows are not managed *)
  let style := NtUserGetWindowLongW h in
  if Z.land style (Z.lor WS_CHILD WS_POPUP) =? WS_CHILD then eret false
  (* activated windows are managed *)
  else if negb (test swp_flags (Z.lor SWP_NOACTIVATE SWP_HIDEWINDOW)) then eret true
  else if h =? get_active_window then eret true
  (* windows with caption are managed *)
  else if Z.land style WS_CAPTION =? WS_CAPTION then eret true
  (* windows with thick frame are managed *)
  else if test style WS_THICKFRAME then eret true
  (* popup with sysmenu == caption are managed *)
  else if test style WS_POPUP && test style WS_SYSMENU then eret true
  (* full-screen popup windows are managed *)
  else if test style WS_POPUP
          && (let work := NtUserGetMonitorInfo_work h in
              (left window_rect <=? left work) && (right work <=? right window_rect)
              && (top window_rect <=? top work) && (bottom work <=? bottom window_rect))
  then eret true
  (* application windows are managed *)
  else if test (NtUserGetWindowLongW_exstyle h) WS_EX_APPWINDOW then eret true
  (* windows that own popups are managed *)
  else
    owns <- has_owned_popups fuel h ;;
    if owns then eret true
    else eret false.                              (* default: not managed *)

Definition WAYLAND_DestroyWindow (h : HWND) : Entry unit :=
  found <- lift (wayland_win_data_get h) ;;
  match found with
  | None => eret tt
  | Some data =>
      lift (wayland_win_data_destroy data) ;;;
      ecall (DestroyGlDrawable h)
  end.

(** WAYLAND_WindowPosChanged; [insert_after] and [valid_rects] are not used.
    [fuel] bounds the retries of the window list and the role manager. *)
Definition WAYLAND_WindowPosChanged (fuel : nat) (h insert_after : HWND) (swp_flags : Z)
  (window_rect client_rect visible_rect : RECT) (valid_rects : list RECT)
  (surface : option window_surface) : Entry unit :=
  (* Get the managed state with win_data unlocked, as is_window_managed
     may need to query win_data information about other HWNDs and thus
     acquire the lock itself internally. *)
  managed <- is_window_managed fuel h swp_flags window_rect ;;
  found <- lift (wayland_win_data_get h) ;;
  match found with
  | None => eret tt
  | Some data =>
      lift (store_data (mkWinData (hwnd data) (wayland_surface_of data)
                                  (window_surface_of data)
                                  window_rect client_rect visible_rect managed)) ;;;
      match surface with
      | Some ws => ecall (AddRef ws)
      | None => eret tt
      end ;;;
      match window_surface_of data with
      | Some old => lift (emit (EvWindowSurfaceRelease old))
      | None => eret tt
      end ;;;
      lift (store_data (mkWinData (hwnd data) (wayland_surface_of data) surface
                                  window_rect client_rect visible_rect managed)) ;;;
      lift (wayland_win_data_update_wayland_surface fuel h 0) ;;;
      data <- lift (load_data h) ;;
      lift (when (is_some (wayland_surface_of data))
                 (wayland_win_data_update_wayland_state h)) ;;;
      lift (wayland_win_data_release found)
  end.

(** wayland_window_flush: flush the window_surface associated with a HWND. *)
Definition wayland_window_flush (h : HWND) : Entry unit :=
  found <- lift (wayland_win_data_get h) ;;
  match found with
  | None => eret tt
  | Some data =>
      match window_surface_of data with
      | Some ws => ecall (Flush ws)
      | None => eret tt
      end ;;;
      lift (wayland_win_data_release found)
  end.

End EntryPoints.

(** *** Observations on the traces of the entry points *)

(** The events of the functions above within a trace of calls. *)
Fixpoint events_of (tr : list call) : list event :=
  match tr with
  | [] => []
  | Within e :: rest => e :: events_of rest
  | _ :: rest => events_of rest
  end.

(** The number of window lists allocated and not freed after a trace that
    started with [n] of them; a free without a list is refused. *)
Fixpoint outstanding (n : nat) (tr : list call) : option nat :=
  match tr with
  | [] => Some n
  | Malloc _ true :: rest => outstanding (S n) rest
  | Free :: rest =>
      match n with
      | O => None
      | S k => outstanding k rest
      end
  | _ :: rest => outstanding n rest
  end.

(** The release of a window surface. *)
Definition is_window_surface_release (e : event) : bool :=
  match e with
  | EvWindowSurfaceRelease _ => true
  | _ => false
  end.

(** The reference-count calls on window surfaces within a trace, in order. *)
Definition window_surface_refs (tr : list call) : list call :=
  filter (fun c => match c with
                   | AddRef _ => true
                   | Within e => is_window_surface_release e
                   | _ => false
                   end) tr.

(** The calls on window surfaces and on the GL drawable are made with the
    registry lock held (a flush) or with no lock held (the destruction of
    the drawable), by a thread that held [held] before the trace. *)
Fixpoint entry_guarded (held : list mutex) (tr : list call) : bool :=
  match tr with
  | [] => true
  | Within (EvLock m) :: rest => entry_guarded (m :: held) rest
  | Within (EvUnlock m) :: rest => entry_guarded (drop held m) rest
  | Flush _ :: rest => holds held win_data_mutex && entry_guarded held rest
  | AddRef _ :: rest => holds held win_data_mutex && entry_guarded held rest
  | DestroyGlDrawable _ :: rest =>
      match held with
      | [] => entry_guarded held rest
      | _ => false
      end
  | _ :: rest => entry_guarded held rest
  end.

(** The calls of the managed-window test: the heap and the registry lock. *)
Definition quiet (c : call) : bool :=
  match c with
  | Malloc _ _ | Free => true
  | Within (EvLock win_data_mutex) | Within (EvUnlock win_data_mutex) => true
  | _ => false
  end.

(** The reasons for which is_window_managed takes a window as managed, but
    for the popups it owns. *)
Definition managed_by_itself {env : Environment} {win : WindowSystem}
  (h : HWND) (swp_flags : Z) (window_rect : RECT) : Prop :=
  let style := NtUserGetWindowLongW h in
  let work := NtUserGetMonitorInfo_work h in
  Z.land swp_flags (Z.lor SWP_NOACTIVATE SWP_HIDEWINDOW) = 0 \/
  h = get_active_window \/
  Z.land style WS_CAPTION = WS_CAPTION \/
  Z.land style WS_THICKFRAME <> 0 \/
  (Z.land style WS_POPUP <> 0 /\
   (Z.land style WS_SYSMENU <> 0 \/
    (left window_rect <= left work /\ right work <= right window_rect /\
     top window_rect <= top work /\ bottom work <= bottom window_rect))) \/
  Z.land (NtUserGetWindowLongW_exstyle h) WS_EX_APPWINDOW <> 0.

(** The record of a window without its surface. *)
Definition stripped_at (st : driver) (h : HWND) : option wayland_win_data :=
  option_map strip (rb_get (win_data_rb st) h).

(** A desktop on which window 30, a window without decorations, owns the
    managed window 10, which is above it in the window list. *)
#[local] Instance sample_window_system : WindowSystem := {|
  NtUserGetWindowLongW_exstyle h := 0;
  NtUserGetGUIThreadInfo := Some 10;
  NtUserGetMonitorInfo_work h := mkRECT 0 0 1920 1040;
  NtUserGetWindowRelative_owner h := if h =? 10 then 30 else NULL;
  NtUserBuildHwndList count :=
    if count <? 256 then (STATUS_BUFFER_TOO_SMALL, [], 256) else (0, [10; 30; HWND_BOTTOM], 3);
  malloc_hwnd_list count := true
|}.

(** Window 10 with a window surface of its own and no Wayland surface. *)
Definition painted_driver : driver :=
  mkDriver [mkWinData 10 None (Some 3%nat) sample_rect sample_rect sample_rect false]
           sample_wayland 0.

(** * Properties *)

(** ** Basic facts: comparison, registry, monad *)

Lemma cmp_rb_zero key e : (wayland_win_data_cmp_rb key e =? 0) = (key =? hwnd e).
Proof.
  unfold wayland_win_data_cmp_rb.
  destruct (key <? hwnd e) eqn:Hlt; [apply Z.ltb_lt in Hlt|apply Z.ltb_ge in Hlt].
  - simpl. symmetry. apply Z.eqb_neq. lia.
  - destruct (key >? hwnd e) eqn:Hgt.
    + simpl. symmetry. apply Z.eqb_neq. apply Z.gtb_lt in Hgt. lia.
    + simpl. symmetry. apply Z.eqb_eq.
      rewrite Z.gtb_ltb in Hgt. apply Z.ltb_ge in Hgt. lia.
Qed.

Lemma cmp_rb_neg key e : (wayland_win_data_cmp_rb key e <? 0) = (key <? hwnd e).
Proof.
  unfold wayland_win_data_cmp_rb.
  destruct (key <? hwnd e); [reflexivity|].
  destruct (key >? hwnd e); reflexivity.
Qed.

Lemma rb_get_hwnd tree key d : rb_get tree key = Some d -> hwnd d = key.
Proof.
  induction tree as [|e rest IH]; simpl; [discriminate|].
  rewrite cmp_rb_zero. destruct (key =? hwnd e) eqn:E.
  - intros [= <-]. apply Z.eqb_eq in E. congruence.
  - exact IH.
Qed.

Lemma rb_get_In tree key d : rb_get tree key = Some d -> In d tree.
Proof.
  induction tree as [|e rest IH]; simpl; [discriminate|].
  destruct (wayland_win_data_cmp_rb key e =? 0).
  - intros [= <-]. now left.
  - intros H. right. auto.
Qed.

Lemma rb_get_store tree d d0 :
  rb_get tree (hwnd d) = Some d0 -> rb_get (rb_store tree d) (hwnd d) = Some d.
Proof.
  induction tree as [|e rest IH]; simpl; [discriminate|].
  destruct (wayland_win_data_cmp_rb (hwnd d) e =? 0) eqn:E; simpl.
  - intros _. rewrite cmp_rb_zero, Z.eqb_refl. reflexivity.
  - rewrite E. exact IH.
Qed.

Lemma rb_get_store_other tree d key :
  key <> hwnd d -> rb_get (rb_store tree d) key = rb_get tree key.
Proof.
  intros Hne. induction tree as [|e rest IH]; simpl; [reflexivity|].
  destruct (wayland_win_data_cmp_rb (hwnd d) e =? 0) eqn:E; simpl.
  - rewrite cmp_rb_zero in E. apply Z.eqb_eq in E.
    rewrite !cmp_rb_zero.
    destruct (key =? hwnd d) eqn:E1; [apply Z.eqb_eq in E1; contradiction|].
    rewrite <- E, E1. reflexivity.
  - rewrite IH. reflexivity.
Qed.

Lemma handles_store tree d : handles (rb_store tree d) = handles tree.
Proof.
  unfold handles. induction tree as [|e rest IH]; simpl; [reflexivity|].
  destruct (wayland_win_data_cmp_rb (hwnd d) e =? 0) eqn:E; simpl.
  - rewrite cmp_rb_zero in E. apply Z.eqb_eq in E. now rewrite E.
  - now rewrite IH.
Qed.

Lemma bind_Done {A B} (m : M A) (k : A -> M B) st b st2 tr :
  bind m k st = Done b st2 tr ->
  exists a st1 tr1 tr2,
    m st = Done a st1 tr1 /\ k a st1 = Done b st2 tr2 /\ tr = tr1 ++ tr2.
Proof.
  unfold bind. destruct (m st) as [a st1 tr1|f]; [|discriminate].
  destruct (k a st1) as [b' st2' tr2|f] eqn:Hk; [|discriminate].
  intros [= <- <- <-]. exists a, st1, tr1, tr2. auto.
Qed.

Lemma bind_run {A B} (m : M A) (k : A -> M B) st a st1 tr1 :
  m st = Done a st1 tr1 ->
  bind m k st =
    match k a st1 with
    | Done b st2 tr2 => Done b st2 (tr1 ++ tr2)
    | Fault f => Fault f
    end.
Proof. unfold bind. intros ->. reflexivity. Qed.

(** ** wayland_surface_lock_hwnd and the drain *)

Section ConfigureFacts.

Context {env : Environment} {ops : SurfaceOps}.

Lemma lock_hwnd_surface st h data surface :
  rb_get (win_data_rb st) h = Some data ->
  wayland_surface_of data = Some surface ->
  wayland_surface_lock_hwnd h st = Done (Some surface) st (lock_events h).
Proof.
  intros Hget Hs.
  unfold wayland_surface_lock_hwnd, wayland_win_data_get, wayland_win_data_get_nolock,
    wayland_win_data_release, bind, emit, get_state, pure, when, deref.
  simpl. rewrite Hget, Hs. reflexivity.
Qed.

Lemma lock_hwnd_no_surface st h data :
  rb_get (win_data_rb st) h = Some data ->
  wayland_surface_of data = None ->
  wayland_surface_lock_hwnd h st =
    Done None st [EvLock win_data_mutex; EvUnlock win_data_mutex].
Proof.
  intros Hget Hs.
  unfold wayland_surface_lock_hwnd, wayland_win_data_get, wayland_win_data_get_nolock,
    wayland_win_data_release, bind, emit, get_state, pure, when, deref.
  simpl. rewrite Hget, Hs. reflexivity.
Qed.

Lemma lock_hwnd_no_record st h :
  rb_get (win_data_rb st) h = None ->
  wayland_surface_lock_hwnd h st =
    Done None st [EvLock win_data_mutex; EvUnlock win_data_mutex].
Proof.
  intros Hget.
  unfold wayland_surface_lock_hwnd, wayland_win_data_get, wayland_win_data_get_nolock,
    bind, emit, get_state, pure.
  simpl. rewrite Hget. reflexivity.
Qed.

Lemma drained_resizing s :
  (let cstate := state (requested s) in
   let s1 := set_requested (set_processing s (requested s)) zero_config in
   let enter := test cstate WAYLAND_SURFACE_CONFIG_STATE_RESIZING && negb (resizing s1) in
   let s2 := if enter then set_resizing s1 true else s1 in
   let leave := negb (test cstate WAYLAND_SURFACE_CONFIG_STATE_RESIZING) && resizing s2 in
   if leave then set_resizing s2 false else s2) = drained s.
Proof.
  unfold drained. destruct s as [h r xt ws pr cl w rq pc cu rz]. simpl.
  destruct (test (state rq) WAYLAND_SURFACE_CONFIG_STATE_RESIZING), rz; reflexivity.
Qed.

(** The whole effect of a drain on a top-level surface with a pending
    snapshot. *)
Lemma configure_window_drains st h data surface :
  rb_get (win_data_rb st) h = Some data ->
  wayland_surface_of data = Some surface ->
  xdg_toplevel surface = true ->
  serial (requested surface) <> 0 ->
  let cstate := state (requested surface) in
  let s' := drained surface in
  let size := wayland_surface_coords_from_window s'
                (to_INT (right (rect (window surface)) - left (rect (window surface))))
                (to_INT (bottom (rect (window surface)) - top (rect (window surface)))) in
  let compatible :=
    test (window_state (window surface)) WAYLAND_SURFACE_CONFIG_STATE_FULLSCREEN
    && wayland_surface_config_is_compatible (requested surface) (fst size) (snd size)
         (window_state (window surface)) in
  let target := wayland_surface_coords_to_window s'
                  (fst (size_hint (requested surface))) (snd (size_hint (requested surface))) in
  let style := NtUserGetWindowLongW h in
  wayland_configure_window h st =
    Done tt
      (set_tree st (rb_store (win_data_rb st) (set_wayland_surface data (Some s'))))
      (lock_events h ++ [EvUnlock (surface_mutex h)]
       ++ (if test cstate WAYLAND_SURFACE_CONFIG_STATE_RESIZING && negb (resizing surface)
           then [EvSendMessage h WM_ENTERSIZEMOVE] else [])
       ++ (if negb (test cstate WAYLAND_SURFACE_CONFIG_STATE_RESIZING) && resizing surface
           then [EvSendMessage h WM_EXITSIZEMOVE] else [])
       ++ (if negb (Bool.eqb (negb (test cstate WAYLAND_SURFACE_CONFIG_STATE_MAXIMIZED))
                             (negb (test style WS_MAXIMIZE)))
           then [EvSetWindowLong h (Z.lxor style WS_MAXIMIZE)] else [])
       ++ [EvSetWindowPos h 0 0 0 (fst target) (snd target)
             (drain_flags
                (test (Z.lxor cstate (state (current surface)))
                      (Z.lor WAYLAND_SURFACE_CONFIG_STATE_MAXIMIZED
                             WAYLAND_SURFACE_CONFIG_STATE_FULLSCREEN))
                compatible
                ((fst target =? 0) || (snd target =? 0))
                (test cstate (Z.lor (Z.lor WAYLAND_SURFACE_CONFIG_STATE_MAXIMIZED
                                           WAYLAND_SURFACE_CONFIG_STATE_FULLSCREEN)
                                    WAYLAND_SURFACE_CONFIG_STATE_TILED)))]).
Proof.
  intros Hget Hs Htop Hserial. cbv zeta.
  unfold wayland_configure_window.
  rewrite (bind_run _ _ _ _ _ _ (lock_hwnd_surface st h data surface Hget Hs)).
  unfold drained, size_hint.
  destruct surface as [sh r xt ws pr cl w rq pc cu rz].
  destruct rq as [rw rh rs rser rp].
  simpl in Htop, Hserial. subst xt.
  unfold set_resizing, set_requested, set_processing. simpl.
  destruct (rser =? 0) eqn:E; [apply Z.eqb_eq in E; contradiction|].
  destruct (test rs WAYLAND_SURFACE_CONFIG_STATE_RESIZING) eqn:Hrz; destruct rz; simpl.
  all: destruct (rs =? 0); simpl.
  all: destruct (wayland_surface_coords_from_window _ _ _) as [sw shh] eqn:Hfrom; simpl.
  all: destruct (wayland_surface_coords_to_window _ _ _) as [ww wh] eqn:Hto; simpl.
  all: unfold store_surface, load_data, store_data, set_window_pos,
         NtUserSetThreadDpiAwarenessContext, bind, get_state, put_state, deref, pure,
         emit, when, drain_flags, lock_events; simpl; rewrite Hget; simpl.
  all: repeat match goal with
         | |- context [if ?c then _ else _] => destruct c
         end; reflexivity.
Qed.

Lemma configure_window_idle st h data surface :
  rb_get (win_data_rb st) h = Some data ->
  wayland_surface_of data = Some surface ->
  xdg_toplevel surface = false \/ serial (requested surface) = 0 ->
  wayland_configure_window h st =
    Done tt st (lock_events h ++ [EvUnlock (surface_mutex h)]).
Proof.
  intros Hget Hs Hidle. unfold wayland_configure_window.
  rewrite (bind_run _ _ _ _ _ _ (lock_hwnd_surface st h data surface Hget Hs)).
  destruct (xdg_toplevel surface); simpl.
  - destruct Hidle as [Hx|Hz]; [discriminate|]. rewrite Hz. reflexivity.
  - reflexivity.
Qed.

Lemma configure_window_no_surface st h :
  (rb_get (win_data_rb st) h = None \/
   exists data, rb_get (win_data_rb st) h = Some data /\ wayland_surface_of data = None) ->
  wayland_configure_window h st =
    Done tt st [EvLock win_data_mutex; EvUnlock win_data_mutex].
Proof.
  intros Hno. unfold wayland_configure_window.
  destruct Hno as [Hget|[data [Hget Hs]]].
  - rewrite (bind_run _ _ _ _ _ _ (lock_hwnd_no_record st h Hget)). reflexivity.
  - rewrite (bind_run _ _ _ _ _ _ (lock_hwnd_no_surface st h data Hget Hs)). reflexivity.
Qed.

Lemma geometry_calls_drain h pre msgs1 msgs2 fixup call :
  geometry_calls pre = [] ->
  (forall e, In e msgs1 -> is_geometry_call e = false) ->
  (forall e, In e msgs2 -> is_geometry_call e = false) ->
  (forall e, In e fixup -> is_geometry_call e = false) ->
  is_geometry_call call = true ->
  geometry_calls (pre ++ [EvUnlock (surface_mutex h)] ++ msgs1 ++ msgs2 ++ fixup ++ [call])
  = [call].
Proof.
  intros Hpre H1 H2 H3 Hc. unfold geometry_calls in *.
  assert (Hnone : forall l, (forall e, In e l -> is_geometry_call e = false) ->
                            filter is_geometry_call l = []).
  { induction l as [|e l IH]; simpl; intros Hl; [reflexivity|].
    rewrite (Hl e (or_introl eq_refl)). apply IH. intros e' He'. apply Hl. now right. }
  rewrite !filter_app, Hpre, (Hnone _ H1), (Hnone _ H2), (Hnone _ H3).
  simpl. rewrite Hc. reflexivity.
Qed.

Lemma drain_flags_base frame compatible empty strict :
  let flags := drain_flags frame compatible empty strict in
  has_flags flags SWP_NOACTIVATE /\ has_flags flags SWP_NOZORDER /\
  has_flags flags SWP_NOOWNERZORDER /\ has_flags flags SWP_NOMOVE.
Proof. destruct frame, compatible, empty, strict; vm_compute; auto. Qed.

Lemma drain_flags_strict frame compatible empty :
  has_flags (drain_flags frame compatible empty true) SWP_NOSENDCHANGING.
Proof. destruct frame, compatible, empty; vm_compute; auto. Qed.

Lemma drain_flags_nosize frame compatible empty strict :
  compatible = true \/ empty = true ->
  has_flags (drain_flags frame compatible empty strict) SWP_NOSIZE.
Proof.
  intros [-> | ->]; destruct frame, strict;
    try destruct empty; try destruct compatible; vm_compute; auto.
Qed.

(** The geometry call of a drain, with the decisions that fix its flags. *)
Lemma configure_window_geometry st h data surface :
  rb_get (win_data_rb st) h = Some data ->
  wayland_surface_of data = Some surface ->
  xdg_toplevel surface = true ->
  serial (requested surface) <> 0 ->
  exists st' tr frame compatible,
    let size := wayland_surface_coords_from_window (drained surface)
                  (to_INT (right (rect (window surface)) - left (rect (window surface))))
                  (to_INT (bottom (rect (window surface)) - top (rect (window surface)))) in
    let target := wayland_surface_coords_to_window (drained surface)
                    (fst (size_hint (requested surface)))
                    (snd (size_hint (requested surface))) in
    wayland_configure_window h st = Done tt st' tr /\
    rb_get (win_data_rb st') h = Some (set_wayland_surface data (Some (drained surface))) /\
    dpi_context st' = dpi_context st /\
    compatible =
      (test (window_state (window surface)) WAYLAND_SURFACE_CONFIG_STATE_FULLSCREEN
       && wayland_surface_config_is_compatible (requested surface) (fst size) (snd size)
            (window_state (window surface))) /\
    geometry_calls tr =
      [EvSetWindowPos h 0 0 0 (fst target) (snd target)
         (drain_flags frame compatible
            ((fst target =? 0) || (snd target =? 0))
            (test (state (requested surface))
               (Z.lor (Z.lor WAYLAND_SURFACE_CONFIG_STATE_MAXIMIZED
                             WAYLAND_SURFACE_CONFIG_STATE_FULLSCREEN)
                      WAYLAND_SURFACE_CONFIG_STATE_TILED)))] /\
    (forall e, In e tr -> is_geometry_call e = true -> In e (geometry_calls tr)).
Proof.
  intros Hget Hs Htop Hserial.
  pose proof (configure_window_drains st h data surface Hget Hs Htop Hserial) as Hrun.
  cbv zeta in Hrun. eexists _, _, _, _. cbv zeta.
  split; [exact Hrun|].
  split.
  { simpl. rewrite <- (rb_get_hwnd _ _ _ Hget).
    apply (rb_get_store _ (set_wayland_surface data (Some (drained surface))) data).
    simpl. rewrite (rb_get_hwnd _ _ _ Hget). exact Hget. }
  split; [reflexivity|].
  split; [reflexivity|].
  split.
  - apply geometry_calls_drain; try reflexivity.
    all: intros e; match goal with |- In _ (if ?c then _ else _) -> _ => destruct c end;
      intros He; [destruct He as [<-|[]]; reflexivity | destruct He].
  - intros e He Hg. unfold geometry_calls. apply filter_In. auto.
Qed.

End ConfigureFacts.

(** ** The configuration state machine: draining *)

Section Drain.

Context {env : Environment} {ops : SurfaceOps}.

(** C2.  A drain step on a top-level surface with a pending snapshot
    ([requested.serial] not 0) copies the whole requested snapshot into
    [processing] and resets [requested] to all-zero; the snapshot is thereby
    consumed once: a further drain finds serial 0, changes nothing and issues
    no geometry call and no protocol request. *)
Theorem drain_promotes_requested st h data surface :
  rb_get (win_data_rb st) h = Some data ->
  wayland_surface_of data = Some surface ->
  xdg_toplevel surface = true ->
  serial (requested surface) <> 0 ->
  exists st' tr data' surface',
    wayland_configure_window h st = Done tt st' tr /\
    rb_get (win_data_rb st') h = Some data' /\
    wayland_surface_of data' = Some surface' /\
    processing surface' = requested surface /\
    requested surface' = zero_config /\
    serial (requested surface') = 0 /\
    exists tr2,
      wayland_configure_window h st' = Done tt st' tr2 /\
      geometry_calls tr2 = [] /\ protocol_calls tr2 = [].
Proof.
  intros Hget Hs Htop Hserial.
  destruct (configure_window_geometry st h data surface Hget Hs Htop Hserial)
    as (st' & tr & frame & compatible & Hrun & Hget' & _).
  exists st', tr, (set_wayland_surface data (Some (drained surface))), (drained surface).
  repeat split; try assumption; try reflexivity.
  exists (lock_events h ++ [EvUnlock (surface_mutex h)]). split; [|split; reflexivity].
  apply (configure_window_idle st' h _ (drained surface) Hget' eq_refl).
  right. reflexivity.
Qed.

(** C6.  A drain on a surface whose [requested.serial] is 0 returns before
    any mutation: the driver state, hence [processing] and [current], is
    unchanged, and neither a protocol request nor a geometry call is issued. *)
Theorem drain_without_request_is_noop st h data surface :
  rb_get (win_data_rb st) h = Some data ->
  wayland_surface_of data = Some surface ->
  serial (requested surface) = 0 ->
  exists tr,
    wayland_configure_window h st = Done tt st tr /\
    protocol_calls tr = [] /\ geometry_calls tr = [] /\
    tr = [EvLock win_data_mutex; EvLock (surface_mutex h);
          EvUnlock win_data_mutex; EvUnlock (surface_mutex h)].
Proof.
  intros Hget Hs Hz.
  exists (lock_events h ++ [EvUnlock (surface_mutex h)]).
  split; [|repeat split; reflexivity].
  apply (configure_window_idle st h data surface Hget Hs). now right.
Qed.

(** C5.  When the window state has the Fullscreen bit and the drained
    snapshot is compatible (wayland_surface_config_is_compatible) with the
    window size in surface coordinates, the geometry call of the drain
    carries SWP_NOSIZE. *)
Theorem fullscreen_size_stability st h data surface :
  rb_get (win_data_rb st) h = Some data ->
  wayland_surface_of data = Some surface ->
  xdg_toplevel surface = true ->
  serial (requested surface) <> 0 ->
  test (window_state (window surface)) WAYLAND_SURFACE_CONFIG_STATE_FULLSCREEN = true ->
  (let size := wayland_surface_coords_from_window (drained surface)
                 (to_INT (right (rect (window surface)) - left (rect (window surface))))
                 (to_INT (bottom (rect (window surface)) - top (rect (window surface)))) in
   wayland_surface_config_is_compatible (requested surface) (fst size) (snd size)
     (window_state (window surface)) = true) ->
  exists st' tr cx cy flags,
    wayland_configure_window h st = Done tt st' tr /\
    geometry_calls tr = [EvSetWindowPos h 0 0 0 cx cy flags] /\
    has_flags flags SWP_NOSIZE.
Proof.
  intros Hget Hs Htop Hserial Hfull Hcompat. cbv zeta in Hcompat.
  destruct (configure_window_geometry st h data surface Hget Hs Htop Hserial)
    as (st' & tr & frame & compatible & Hrun & _ & _ & Hc & Hcalls & _).
  rewrite Hfull, Hcompat in Hc. simpl in Hc. subst compatible.
  eexists st', tr, _, _, _. split; [exact Hrun|]. split; [exact Hcalls|].
  apply drain_flags_nosize. now left.
Qed.

(** C7.  A drained configuration whose state bit set is zero has its
    suggested width and height ignored: the size handed to the coordinate
    translation is 0 x 0.  A zero translated width or height makes the
    geometry call carry SWP_NOSIZE; so, the translation of the empty size
    being empty, a zero-state configure does not resize the window. *)
Theorem zero_state_configure_keeps_size st h data surface :
  rb_get (win_data_rb st) h = Some data ->
  wayland_surface_of data = Some surface ->
  xdg_toplevel surface = true ->
  serial (requested surface) <> 0 ->
  state (requested surface) = 0 ->
  wayland_surface_coords_to_window (drained surface) 0 0 = (0, 0) ->
  exists st' tr cx cy flags,
    wayland_configure_window h st = Done tt st' tr /\
    geometry_calls tr = [EvSetWindowPos h 0 0 0 cx cy flags] /\
    (cx, cy) = wayland_surface_coords_to_window (drained surface) 0 0 /\
    has_flags flags SWP_NOSIZE.
Proof.
  intros Hget Hs Htop Hserial Hstate Hzero.
  destruct (configure_window_geometry st h data surface Hget Hs Htop Hserial)
    as (st' & tr & frame & compatible & Hrun & _ & _ & _ & Hcalls & _).
  unfold size_hint in Hcalls. rewrite Hstate in Hcalls.
  cbn [negb Z.eqb fst snd] in Hcalls.
  eexists st', tr, _, _, _. split; [exact Hrun|]. split; [exact Hcalls|].
  split; [symmetry; apply surjective_pairing|].
  apply drain_flags_nosize. right. rewrite Hzero. reflexivity.
Qed.

(** A zero translated width or height alone makes any drain carry
    SWP_NOSIZE, whatever the state of the snapshot. *)
Lemma empty_target_keeps_size st h data surface :
  rb_get (win_data_rb st) h = Some data ->
  wayland_surface_of data = Some surface ->
  xdg_toplevel surface = true ->
  serial (requested surface) <> 0 ->
  exists st' tr cx cy flags,
    wayland_configure_window h st = Done tt st' tr /\
    geometry_calls tr = [EvSetWindowPos h 0 0 0 cx cy flags] /\
    (cx, cy) = wayland_surface_coords_to_window (drained surface)
                 (fst (size_hint (requested surface))) (snd (size_hint (requested surface))) /\
    (cx = 0 \/ cy = 0 -> has_flags flags SWP_NOSIZE).
Proof.
  intros Hget Hs Htop Hserial.
  destruct (configure_window_geometry st h data surface Hget Hs Htop Hserial)
    as (st' & tr & frame & compatible & Hrun & _ & _ & _ & Hcalls & _).
  eexists st', tr, _, _, _. split; [exact Hrun|]. split; [exact Hcalls|].
  split; [symmetry; apply surjective_pairing|].
  intros Hz. apply drain_flags_nosize. right.
  apply Bool.orb_true_iff. destruct Hz as [Hz|Hz]; rewrite Hz; auto.
Qed.

(** C8.  Every geometry call issued by wayland_configure_window carries
    SWP_NOACTIVATE, SWP_NOZORDER, SWP_NOOWNERZORDER and SWP_NOMOVE; it is
    issued for a surface with a pending snapshot, and when the drained state
    has Maximized, Fullscreen or Tiled set it carries SWP_NOSENDCHANGING too. *)
Theorem geometry_call_flags st h st' tr h' after x y cx cy flags :
  wayland_configure_window h st = Done tt st' tr ->
  In (EvSetWindowPos h' after x y cx cy flags) tr ->
  has_flags flags SWP_NOACTIVATE /\ has_flags flags SWP_NOZORDER /\
  has_flags flags SWP_NOOWNERZORDER /\ has_flags flags SWP_NOMOVE /\
  exists data surface,
    rb_get (win_data_rb st) h = Some data /\
    wayland_surface_of data = Some surface /\
    (test (state (requested surface))
          (Z.lor (Z.lor WAYLAND_SURFACE_CONFIG_STATE_MAXIMIZED
                        WAYLAND_SURFACE_CONFIG_STATE_FULLSCREEN)
                 WAYLAND_SURFACE_CONFIG_STATE_TILED) = true ->
     has_flags flags SWP_NOSENDCHANGING).
Proof.
  intros Hrun Hin.
  destruct (rb_get (win_data_rb st) h) as [data|] eqn:Hget.
  2: { rewrite configure_window_no_surface in Hrun by now left.
       injection Hrun as _ <-. simpl in Hin. intuition discriminate. }
  destruct (wayland_surface_of data) as [surface|] eqn:Hs.
  2: { rewrite configure_window_no_surface in Hrun by (right; eauto).
       injection Hrun as _ <-. simpl in Hin. intuition discriminate. }
  destruct (xdg_toplevel surface) eqn:Htop.
  2: { rewrite (configure_window_idle st h data surface Hget Hs) in Hrun by now left.
       injection Hrun as _ <-. simpl in Hin. intuition discriminate. }
  destruct (Z.eq_dec (serial (requested surface)) 0) as [Hz|Hserial].
  { rewrite (configure_window_idle st h data surface Hget Hs) in Hrun by now right.
    injection Hrun as _ <-. simpl in Hin. intuition discriminate. }
  destruct (configure_window_geometry st h data surface Hget Hs Htop Hserial)
    as (st2 & tr2 & frame & compatible & Hrun2 & _ & _ & _ & Hcalls & Hall).
  rewrite Hrun2 in Hrun. injection Hrun as _ <-.
  apply Hall in Hin; [|reflexivity]. rewrite Hcalls in Hin.
  destruct Hin as [Heq|[]]. injection Heq as _ _ _ _ _ _ <-.
  destruct (drain_flags_base frame compatible
              ((fst (wayland_surface_coords_to_window (drained surface)
                       (fst (size_hint (requested surface)))
                       (snd (size_hint (requested surface)))) =? 0)
               || (snd (wayland_surface_coords_to_window (drained surface)
                          (fst (size_hint (requested surface)))
                          (snd (size_hint (requested surface)))) =? 0))
              (test (state (requested surface))
                 (Z.lor (Z.lor WAYLAND_SURFACE_CONFIG_STATE_MAXIMIZED
                               WAYLAND_SURFACE_CONFIG_STATE_FULLSCREEN)
                        WAYLAND_SURFACE_CONFIG_STATE_TILED)))
    as (H1 & H2 & H3 & H4).
  split; [exact H1|]. split; [exact H2|]. split; [exact H3|]. split; [exact H4|].
  exists data, surface. split; [reflexivity|]. split; [exact Hs|].
  intros Hstrict.
  match goal with
  | |- has_flags (drain_flags _ _ _ ?s) _ => replace s with true by (symmetry; exact Hstrict)
  end.
  apply drain_flags_strict.
Qed.

End Drain.

Lemma drain_promotes_requested_witness :
  rb_get (win_data_rb maximize_pending) 10
    = Some (sample_record (Some (sample_surface maximize_request 0))) /\
  serial (requested (sample_surface maximize_request 0)) <> 0 /\
  exists st' tr data' surface',
    wayland_configure_window 10 maximize_pending = Done tt st' tr /\
    rb_get (win_data_rb st') 10 = Some data' /\
    wayland_surface_of data' = Some surface' /\
    processing surface' = maximize_request /\
    requested surface' = zero_config /\
    serial (requested surface') = 0 /\
    exists tr2,
      wayland_configure_window 10 st' = Done tt st' tr2 /\
      geometry_calls tr2 = [] /\ protocol_calls tr2 = [].
Proof.
  split; [reflexivity|]. split; [discriminate|].
  apply (@drain_promotes_requested sample_environment reference_surface_ops
           maximize_pending 10
           (sample_record (Some (sample_surface maximize_request 0)))
           (sample_surface maximize_request 0));
    [reflexivity|reflexivity|reflexivity|discriminate].
Defined.

Lemma drain_without_request_is_noop_witness :
  rb_get (win_data_rb idle_driver) 10
    = Some (sample_record (Some (sample_surface zero_config 0))) /\
  serial (requested (sample_surface zero_config 0)) = 0 /\
  exists tr,
    wayland_configure_window 10 idle_driver = Done tt idle_driver tr /\
    protocol_calls tr = [] /\ geometry_calls tr = [] /\
    tr = [EvLock win_data_mutex; EvLock (surface_mutex 10);
          EvUnlock win_data_mutex; EvUnlock (surface_mutex 10)].
Proof.
  split; [reflexivity|]. split; [reflexivity|].
  apply (@drain_without_request_is_noop sample_environment reference_surface_ops
           idle_driver 10
           (sample_record (Some (sample_surface zero_config 0)))
           (sample_surface zero_config 0));
    reflexivity.
Defined.

Lemma fullscreen_size_stability_witness :
  test (window_state (window (sample_surface fullscreen_request
                                WAYLAND_SURFACE_CONFIG_STATE_FULLSCREEN)))
       WAYLAND_SURFACE_CONFIG_STATE_FULLSCREEN = true /\
  wayland_surface_config_is_compatible fullscreen_request 800 600
    WAYLAND_SURFACE_CONFIG_STATE_FULLSCREEN = true /\
  exists st' tr cx cy flags,
    wayland_configure_window 10 fullscreen_pending = Done tt st' tr /\
    geometry_calls tr = [EvSetWindowPos 10 0 0 0 cx cy flags] /\
    has_flags flags SWP_NOSIZE.
Proof.
  split; [reflexivity|]. split; [reflexivity|].
  apply (@fullscreen_size_stability sample_environment reference_surface_ops
           fullscreen_pending 10
           (sample_record (Some (sample_surface fullscreen_request
                                   WAYLAND_SURFACE_CONFIG_STATE_FULLSCREEN)))
           (sample_surface fullscreen_request WAYLAND_SURFACE_CONFIG_STATE_FULLSCREEN));
    [reflexivity|reflexivity|reflexivity|discriminate|reflexivity|reflexivity].
Defined.

Lemma zero_state_configure_keeps_size_witness :
  state (requested (sample_surface advisory_request 0)) = 0 /\
  serial (requested (sample_surface advisory_request 0)) <> 0 /\
  wayland_surface_coords_to_window (drained (sample_surface advisory_request 0)) 0 0
    = (0, 0) /\
  exists st' tr cx cy flags,
    wayland_configure_window 10 advisory_pending = Done tt st' tr /\
    geometry_calls tr = [EvSetWindowPos 10 0 0 0 cx cy flags] /\
    (cx, cy) = wayland_surface_coords_to_window
                 (drained (sample_surface advisory_request 0)) 0 0 /\
    has_flags flags SWP_NOSIZE.
Proof.
  split; [reflexivity|]. split; [discriminate|]. split; [reflexivity|].
  apply (@zero_state_configure_keeps_size sample_environment reference_surface_ops
           advisory_pending 10
           (sample_record (Some (sample_surface advisory_request 0)))
           (sample_surface advisory_request 0));
    [reflexivity|reflexivity|reflexivity|discriminate|reflexivity|reflexivity].
Defined.

Lemma geometry_call_flags_witness :
  exists st' tr,
    wayland_configure_window 10 maximize_pending = Done tt st' tr /\
    In (EvSetWindowPos 10 0 0 0 1920 1080 1590) tr /\
    has_flags 1590 SWP_NOACTIVATE /\ has_flags 1590 SWP_NOZORDER /\
    has_flags 1590 SWP_NOOWNERZORDER /\ has_flags 1590 SWP_NOMOVE /\
    exists data surface,
      rb_get (win_data_rb maximize_pending) 10 = Some data /\
      wayland_surface_of data = Some surface /\
      (test (state (requested surface))
            (Z.lor (Z.lor WAYLAND_SURFACE_CONFIG_STATE_MAXIMIZED
                          WAYLAND_SURFACE_CONFIG_STATE_FULLSCREEN)
                   WAYLAND_SURFACE_CONFIG_STATE_TILED) = true ->
       has_flags 1590 SWP_NOSENDCHANGING).
Proof.
  eexists _, _.
  split; [vm_compute; reflexivity|].
  split; [do 5 right; left; reflexivity|].
  eapply (@geometry_call_flags sample_environment reference_surface_ops
            maximize_pending 10 _ _ 10 0 0 0 1920 1080 1590).
  - vm_compute. reflexivity.
  - do 5 right. left. reflexivity.
Defined.

(** ** System commands *)

(** C10.  hittest_to_resize_edge is total, answers each of the eight edge and
    corner selectors exactly for the corresponding WMSZ_* code, and answers
    XDG_TOPLEVEL_RESIZE_EDGE_NONE for every other value. *)
Theorem hittest_to_resize_edge_total (hittest : Z) :
  (hittest_to_resize_edge hittest = XDG_TOPLEVEL_RESIZE_EDGE_LEFT <-> hittest = WMSZ_LEFT) /\
  (hittest_to_resize_edge hittest = XDG_TOPLEVEL_RESIZE_EDGE_RIGHT <-> hittest = WMSZ_RIGHT) /\
  (hittest_to_resize_edge hittest = XDG_TOPLEVEL_RESIZE_EDGE_TOP <-> hittest = WMSZ_TOP) /\
  (hittest_to_resize_edge hittest = XDG_TOPLEVEL_RESIZE_EDGE_TOP_LEFT
     <-> hittest = WMSZ_TOPLEFT) /\
  (hittest_to_resize_edge hittest = XDG_TOPLEVEL_RESIZE_EDGE_TOP_RIGHT
     <-> hittest = WMSZ_TOPRIGHT) /\
  (hittest_to_resize_edge hittest = XDG_TOPLEVEL_RESIZE_EDGE_BOTTOM
     <-> hittest = WMSZ_BOTTOM) /\
  (hittest_to_resize_edge hittest = XDG_TOPLEVEL_RESIZE_EDGE_BOTTOM_LEFT
     <-> hittest = WMSZ_BOTTOMLEFT) /\
  (hittest_to_resize_edge hittest = XDG_TOPLEVEL_RESIZE_EDGE_BOTTOM_RIGHT
     <-> hittest = WMSZ_BOTTOMRIGHT) /\
  (hittest_to_resize_edge hittest = XDG_TOPLEVEL_RESIZE_EDGE_NONE
     <-> ~ In hittest [WMSZ_LEFT; WMSZ_RIGHT; WMSZ_TOP; WMSZ_TOPLEFT; WMSZ_TOPRIGHT;
                       WMSZ_BOTTOM; WMSZ_BOTTOMLEFT; WMSZ_BOTTOMRIGHT]).
Proof.
  unfold hittest_to_resize_edge, WMSZ_LEFT, WMSZ_RIGHT, WMSZ_TOP, WMSZ_TOPLEFT,
    WMSZ_TOPRIGHT, WMSZ_BOTTOM, WMSZ_BOTTOMLEFT, WMSZ_BOTTOMRIGHT.
  repeat match goal with
         | |- context [?a =? ?b] => destruct (Z.eqb_spec a b); [subst|]
         end;
    repeat split; intros H; try discriminate; try reflexivity; try congruence;
    try (exfalso; apply H; simpl; tauto);
    try (simpl in H; intuition congruence).
  simpl. intuition congruence.
Qed.

(** C9, as the code has it.  For a move or size command without a button
    serial no interactive move or resize request is issued; the result is 0
    when the window has a surface and -1 when it has none. *)
Theorem syscommand_without_serial st h wparam lparam :
  is_move_or_size wparam ->
  effective_button_serial st h = 0 ->
  exists tr r,
    WAYLAND_SysCommand h wparam lparam st = Done r st tr /\
    filter is_move_resize tr = [] /\
    (has_surface st h -> r = 0) /\
    (~ has_surface st h -> r = -1).
Proof.
  intros Hcmd Hserial. unfold WAYLAND_SysCommand.
  unfold effective_button_serial in Hserial.
  assert (Hc : (Z.land wparam 65520 =? SC_MOVE) || (Z.land wparam 65520 =? SC_SIZE) = true).
  { apply Bool.orb_true_iff. destruct Hcmd as [Hc|Hc]; [left|right]; now apply Z.eqb_eq. }
  unfold bind at 1. unfold emit at 1. unfold bind at 1. unfold get_state at 1.
  rewrite Hserial. unfold bind at 1. unfold emit at 1.
  unfold bind at 1. rewrite Hc.
  destruct (rb_get (win_data_rb st) h) as [data|] eqn:Hget.
  - destruct (wayland_surface_of data) as [surface|] eqn:Hs.
    + rewrite (bind_run _ _ _ _ _ _ (lock_hwnd_surface st h data surface Hget Hs)).
      exists ([EvLock pointer_mutex] ++ [EvUnlock pointer_mutex] ++
              (lock_events h ++ [EvLock seat_mutex; EvUnlock seat_mutex;
                                 EvUnlock (surface_mutex h)]) ++ [EvDisplayFlush]), 0.
      split.
      { unfold bind, emit, get_state, pure. simpl.
        destruct (seat_wl_seat (process_wayland st)); simpl.
        - rewrite Bool.andb_false_r. reflexivity.
        - reflexivity. }
      split; [reflexivity|]. split; [reflexivity|].
      intros Hno. exfalso. apply Hno. exists data, surface. auto.
    + rewrite (bind_run _ _ _ _ _ _ (lock_hwnd_no_surface st h data Hget Hs)).
      eexists _, _. split; [reflexivity|]. split; [reflexivity|].
      split; [|reflexivity].
      intros (d & s & Hd & Hss). rewrite Hget in Hd. injection Hd as <-. congruence.
  - rewrite (bind_run _ _ _ _ _ _ (lock_hwnd_no_record st h Hget)).
    eexists _, _. split; [reflexivity|]. split; [reflexivity|].
    split; [|reflexivity].
    intros (d & s & Hd & Hss). congruence.
Qed.

(** C9, the specification's sentence fails: the move command on sample
    window 10, which has a surface, is answered 0 although no button serial
    is available. *)
Lemma not_handled_without_serial_counterexample :
  ~ not_handled_without_serial idle_driver 10 SC_MOVE 0.
Proof.
  intros Hclaim.
  destruct (Hclaim (or_introl eq_refl) eq_refl) as (st' & tr & Hrun & _).
  vm_compute in Hrun. discriminate Hrun.
Qed.

Lemma syscommand_without_serial_witness :
  is_move_or_size SC_MOVE /\
  effective_button_serial idle_driver 10 = 0 /\
  exists tr r,
    WAYLAND_SysCommand 10 SC_MOVE 0 idle_driver = Done r idle_driver tr /\
    filter is_move_resize tr = [] /\
    (has_surface idle_driver 10 -> r = 0) /\
    (~ has_surface idle_driver 10 -> r = -1).
Proof.
  split; [left; reflexivity|]. split; [reflexivity|].
  apply (syscommand_without_serial idle_driver 10 SC_MOVE 0);
    [left; reflexivity|reflexivity].
Defined.

(** ** The configuration state machine: window intent to compositor *)

Lemma update_wayland_state_toplevel st h data surface :
  rb_get (win_data_rb st) h = Some data ->
  wayland_surface_of data = Some surface ->
  wl_subsurface surface = false ->
  xdg_toplevel surface = true ->
  serial (processing surface) = 0 \/ processed (processing surface) = true ->
  wayland_win_data_update_wayland_state h st =
    Done tt st
      ([EvLock (surface_mutex h)]
       ++ (if leaves WAYLAND_SURFACE_CONFIG_STATE_MAXIMIZED surface
           then [EvUnsetMaximized h] else [])
       ++ (if leaves WAYLAND_SURFACE_CONFIG_STATE_FULLSCREEN surface
           then [EvUnsetFullscreen h] else [])
       ++ (if enters WAYLAND_SURFACE_CONFIG_STATE_MAXIMIZED surface
           then [EvSetMaximized h] else [])
       ++ (if enters WAYLAND_SURFACE_CONFIG_STATE_FULLSCREEN surface
           then [EvSetFullscreen h] else [])
       ++ [EvUnlock (surface_mutex h); EvDisplayFlush]).
Proof.
  intros Hget Hs Hsub Htop Hidle.
  assert (Hpc : negb (serial (processing surface) =? 0)
                && negb (processed (processing surface)) = false).
  { destruct Hidle as [-> | ->]; [reflexivity|apply Bool.andb_false_r]. }
  unfold wayland_win_data_update_wayland_state, load_data, bind, get_state, deref,
    pure, emit, leaves, enters.
  rewrite Hget, Hs, Hsub, Htop, Hpc. simpl.
  unfold when, emit, pure.
  destruct (test (window_state (window surface)) WAYLAND_SURFACE_CONFIG_STATE_MAXIMIZED),
    (test (state (current surface)) WAYLAND_SURFACE_CONFIG_STATE_MAXIMIZED),
    (test (window_state (window surface)) WAYLAND_SURFACE_CONFIG_STATE_FULLSCREEN),
    (test (state (current surface)) WAYLAND_SURFACE_CONFIG_STATE_FULLSCREEN);
    reflexivity.
Qed.

(** C4.  In a reconciliation pass of wayland_win_data_update_wayland_state on
    a top-level surface that is not processing a compositor snapshot, the
    state requests are the applicable unset requests followed by the
    applicable set requests: no unset request comes after a set request.
    When Maximized and Fullscreen both change membership, the two requests
    that result are issued in that order. *)
Theorem unset_before_set st h data surface :
  rb_get (win_data_rb st) h = Some data ->
  wayland_surface_of data = Some surface ->
  wl_subsurface surface = false ->
  xdg_toplevel surface = true ->
  serial (processing surface) = 0 \/ processed (processing surface) = true ->
  exists tr,
    wayland_win_data_update_wayland_state h st = Done tt st tr /\
    state_calls tr =
      (if leaves WAYLAND_SURFACE_CONFIG_STATE_MAXIMIZED surface
       then [EvUnsetMaximized h] else [])
      ++ (if leaves WAYLAND_SURFACE_CONFIG_STATE_FULLSCREEN surface
          then [EvUnsetFullscreen h] else [])
      ++ (if enters WAYLAND_SURFACE_CONFIG_STATE_MAXIMIZED surface
          then [EvSetMaximized h] else [])
      ++ (if enters WAYLAND_SURFACE_CONFIG_STATE_FULLSCREEN surface
          then [EvSetFullscreen h] else []) /\
    unsets_before_sets tr = true /\
    (changes WAYLAND_SURFACE_CONFIG_STATE_MAXIMIZED surface = true ->
     changes WAYLAND_SURFACE_CONFIG_STATE_FULLSCREEN surface = true ->
     exists first second,
       state_calls tr = [first; second] /\
       (is_set_call first = true -> is_unset_call second = false)).
Proof.
  intros Hget Hs Hsub Htop Hidle.
  eexists. split.
  { apply (update_wayland_state_toplevel st h data surface); assumption. }
  unfold changes, leaves, enters.
  destruct (test (window_state (window surface)) WAYLAND_SURFACE_CONFIG_STATE_MAXIMIZED),
    (test (state (current surface)) WAYLAND_SURFACE_CONFIG_STATE_MAXIMIZED),
    (test (window_state (window surface)) WAYLAND_SURFACE_CONFIG_STATE_FULLSCREEN),
    (test (state (current surface)) WAYLAND_SURFACE_CONFIG_STATE_FULLSCREEN);
    simpl; (split; [reflexivity|]); (split; [reflexivity|]);
    intros Hm Hf; try discriminate;
    eexists _, _; (split; [reflexivity|]); simpl; intros Hset; try reflexivity;
    discriminate.
Qed.

(** Whatever the surface, a pass that completes never issues an unset request
    after a set request. *)
Lemma update_wayland_state_order st h st' tr :
  wayland_win_data_update_wayland_state h st = Done tt st' tr ->
  unsets_before_sets tr = true.
Proof.
  unfold wayland_win_data_update_wayland_state, load_data, store_surface, load_data,
    store_data, bind, get_state, put_state, deref, pure, emit, when.
  simpl.
  destruct (rb_get (win_data_rb st) h) as [data|]; simpl; [|discriminate].
  destruct (wayland_surface_of data) as [surface|]; simpl; [|discriminate].
  destruct (wl_subsurface surface); simpl.
  { destruct (rb_get (win_data_rb st) h); simpl; [|discriminate].
    intros [= _ <-]. reflexivity. }
  destruct (xdg_toplevel surface); simpl; [|intros [= _ <-]; reflexivity].
  destruct (negb (serial (processing surface) =? 0) && negb (processed (processing surface)));
    simpl.
  { destruct (rb_get (win_data_rb st) h); simpl; [|discriminate].
    intros [= _ <-]. reflexivity. }
  destruct (test (window_state (window surface)) WAYLAND_SURFACE_CONFIG_STATE_MAXIMIZED),
    (test (state (current surface)) WAYLAND_SURFACE_CONFIG_STATE_MAXIMIZED),
    (test (window_state (window surface)) WAYLAND_SURFACE_CONFIG_STATE_FULLSCREEN),
    (test (state (current surface)) WAYLAND_SURFACE_CONFIG_STATE_FULLSCREEN);
    simpl; intros [= _ <-]; reflexivity.
Qed.

Lemma unset_before_set_witness :
  rb_get (win_data_rb (sample_driver (Some to_fullscreen_surface))) 10
    = Some (sample_record (Some to_fullscreen_surface)) /\
  processed (processing to_fullscreen_surface) = false /\
  serial (processing to_fullscreen_surface) = 0 /\
  changes WAYLAND_SURFACE_CONFIG_STATE_MAXIMIZED to_fullscreen_surface = true /\
  changes WAYLAND_SURFACE_CONFIG_STATE_FULLSCREEN to_fullscreen_surface = true /\
  exists tr,
    wayland_win_data_update_wayland_state 10 (sample_driver (Some to_fullscreen_surface))
      = Done tt (sample_driver (Some to_fullscreen_surface)) tr /\
    state_calls tr = [EvUnsetMaximized 10; EvSetFullscreen 10] /\
    unsets_before_sets tr = true.
Proof.
  split; [reflexivity|]. split; [reflexivity|]. split; [reflexivity|].
  split; [reflexivity|]. split; [reflexivity|].
  destruct (unset_before_set (sample_driver (Some to_fullscreen_surface)) 10
              (sample_record (Some to_fullscreen_surface)) to_fullscreen_surface
              eq_refl eq_refl eq_refl eq_refl (or_introl eq_refl))
    as (tr & Hrun & Hcalls & Horder & _).
  exists tr. split; [exact Hrun|]. split; [exact Hcalls|exact Horder].
Defined.

(** ** The window registry *)

Lemma rb_put_get tree key entry :
  hwnd entry = key ->
  rb_get tree key = None ->
  rb_get (fst (rb_put tree key entry)) key = Some entry.
Proof.
  intros Hk. induction tree as [|e rest IH]; simpl.
  - intros _. rewrite cmp_rb_zero, Hk, Z.eqb_refl. reflexivity.
  - rewrite cmp_rb_zero. destruct (key =? hwnd e) eqn:E; [discriminate|].
    intros Hnone. rewrite cmp_rb_neg.
    destruct (key <? hwnd e); simpl.
    + rewrite cmp_rb_zero, Hk, Z.eqb_refl. reflexivity.
    + destruct (rb_put rest key entry) as [rest' r] eqn:Hput. simpl in *.
      rewrite cmp_rb_zero, E. auto.
Qed.

Lemma rb_put_get_other tree key entry key' :
  hwnd entry = key ->
  key' <> key ->
  rb_get (fst (rb_put tree key entry)) key' = rb_get tree key'.
Proof.
  intros Hk Hne. induction tree as [|e rest IH]; simpl.
  - rewrite cmp_rb_zero, Hk.
    destruct (key' =? key) eqn:E; [apply Z.eqb_eq in E; contradiction|reflexivity].
  - destruct (wayland_win_data_cmp_rb key e =? 0); [reflexivity|].
    destruct (wayland_win_data_cmp_rb key e <? 0); simpl.
    + rewrite (cmp_rb_zero key' entry), Hk.
      destruct (key' =? key) eqn:E; [apply Z.eqb_eq in E; contradiction|reflexivity].
    + destruct (rb_put rest key entry) as [rest' r] eqn:Hput. simpl in *.
      rewrite IH. reflexivity.
Qed.

Lemma rb_put_In tree key entry x :
  In x (fst (rb_put tree key entry)) -> x = entry \/ In x tree.
Proof.
  induction tree as [|e rest IH]; simpl.
  - intros [<-|[]]. now left.
  - destruct (wayland_win_data_cmp_rb key e =? 0); [simpl; intros H; right; exact H|].
    destruct (wayland_win_data_cmp_rb key e <? 0); simpl.
    + intros [<-|H]; [now left|now right].
    + destruct (rb_put rest key entry) as [rest' r] eqn:Hput. simpl in *.
      intros [<-|H]; [right; now left|].
      destruct (IH H) as [->|Hin]; [now left|right; now right].
Qed.

Lemma rb_put_well_formed tree key entry :
  hwnd entry = key ->
  well_formed tree ->
  well_formed (fst (rb_put tree key entry)).
Proof.
  intros Hk. induction tree as [|e rest IH]; simpl; intros Hwf.
  - constructor; [constructor|constructor].
  - inversion Hwf as [|e' rest' Hall Hrest]; subst e' rest'.
    rewrite cmp_rb_zero, cmp_rb_neg.
    destruct (key =? hwnd e) eqn:E; [exact Hwf|].
    destruct (key <? hwnd e) eqn:Hlt; simpl.
    + apply Z.ltb_lt in Hlt. constructor; [|exact Hwf].
      constructor; [lia|].
      eapply Forall_impl; [|exact Hall]. simpl. intros a Ha. lia.
    + destruct (rb_put rest key entry) as [rest2 r] eqn:Hput. simpl in *.
      apply Z.ltb_ge in Hlt. apply Z.eqb_neq in E.
      constructor; [|auto].
      apply Forall_forall. intros x Hx.
      pose proof (rb_put_In rest key entry x) as Hin. rewrite Hput in Hin.
      destruct (Hin Hx) as [->|Hold]; [lia|].
      rewrite Forall_forall in Hall. auto.
Qed.

Lemma well_formed_records tree h :
  well_formed tree -> (List.length (records_of tree h) <= 1)%nat.
Proof.
  unfold records_of. induction 1 as [|e rest Hall Hwf IH]; simpl; [lia|].
  destruct (hwnd e =? h) eqn:E; [|exact IH].
  apply Z.eqb_eq in E. simpl.
  assert (Hnone : filter (fun e' => hwnd e' =? h) rest = []).
  { clear IH Hwf. induction rest as [|x rest IH]; simpl; [reflexivity|].
    inversion Hall as [|a l Hx Hrest]; subst a l.
    destruct (hwnd x =? h) eqn:Ex; [apply Z.eqb_eq in Ex; lia|auto]. }
  rewrite Hnone. simpl. lia.
Qed.

Lemma rb_get_records tree h d :
  well_formed tree -> rb_get tree h = Some d -> records_of tree h = [d].
Proof.
  unfold records_of. induction 1 as [|e rest Hall Hwf IH]; simpl; [discriminate|].
  rewrite cmp_rb_zero, (Z.eqb_sym (hwnd e) h).
  destruct (h =? hwnd e) eqn:E.
  - intros [= <-]. apply Z.eqb_eq in E. subst h. f_equal.
    clear IH Hwf. induction rest as [|x rest IH]; simpl; [reflexivity|].
    inversion Hall as [|a l Hx Hrest]; subst a l.
    destruct (hwnd x =? hwnd e) eqn:Ex; [apply Z.eqb_eq in Ex; lia|auto].
  - exact IH.
Qed.

Section Registry.

Context {env : Environment} {ops : SurfaceOps}.

Lemma create_refused st h wr cr vr :
  can_allocate h = false ->
  wayland_win_data_create h wr cr vr st = Done None st [].
Proof.
  unfold can_allocate, wayland_win_data_create.
  destruct (NtUserGetAncestor h =? NULL); [reflexivity|].
  destruct (negb (NtUserGetAncestor h =? NtUserGetDesktopWindow)
            && (NtUserGetAncestor (NtUserGetAncestor h) =? NULL)); [reflexivity|].
  simpl. intros ->. reflexivity.
Qed.

Lemma create_existing st h wr cr vr existing :
  can_allocate h = true ->
  rb_get (win_data_rb st) h = Some existing ->
  wayland_win_data_create h wr cr vr st =
    Done (Some existing) st [EvCalloc h; EvLock win_data_mutex; EvFree h].
Proof.
  unfold can_allocate, wayland_win_data_create. intros Hcan Hget.
  apply Bool.andb_true_iff in Hcan as [Hcan Hcalloc].
  apply Bool.andb_true_iff in Hcan as [Hp Hpp].
  apply Bool.negb_true_iff in Hp, Hpp. rewrite Hp, Hpp, Hcalloc. simpl.
  unfold bind, emit, get_state, pure. rewrite Hget. reflexivity.
Qed.

Lemma create_fresh st h wr cr vr :
  can_allocate h = true ->
  rb_get (win_data_rb st) h = None ->
  wayland_win_data_create h wr cr vr st =
    Done (Some (mkWinData h None None wr cr vr false))
         (set_tree st (fst (rb_put (win_data_rb st) h (mkWinData h None None wr cr vr false))))
         [EvCalloc h; EvLock win_data_mutex].
Proof.
  unfold can_allocate, wayland_win_data_create. intros Hcan Hget.
  apply Bool.andb_true_iff in Hcan as [Hcan Hcalloc].
  apply Bool.andb_true_iff in Hcan as [Hp Hpp].
  apply Bool.negb_true_iff in Hp, Hpp. rewrite Hp, Hpp, Hcalloc. simpl.
  unfold bind, emit, get_state, put_state, pure. rewrite Hget. reflexivity.
Qed.

End Registry.

(** ** Concurrent creation *)

Lemma set_thread_same ts i c0 c :
  nth_error ts i = Some c0 -> nth_error (set_thread ts i c) i = Some c.
Proof.
  revert i. induction ts as [|t ts IH]; intros [|i]; simpl; try discriminate; auto.
Qed.

Lemma set_thread_other ts i j c :
  i <> j -> nth_error (set_thread ts i c) j = nth_error ts j.
Proof.
  revert i j. induction ts as [|t ts IH]; intros [|i] [|j] Hne; simpl; auto.
  congruence.
Qed.

Lemma set_thread_cases ts i c0 c j x :
  nth_error ts i = Some c0 ->
  nth_error (set_thread ts i c) j = Some x ->
  (j = i /\ x = c) \/ (j <> i /\ nth_error ts j = Some x).
Proof.
  intros Hi Hj. destruct (Nat.eq_dec j i) as [->|Hne].
  - rewrite (set_thread_same _ _ _ _ Hi) in Hj. injection Hj as <-. now left.
  - rewrite set_thread_other in Hj by congruence. now right.
Qed.

(** A thread in its critical section owns the mutex. *)
Lemma critical_owner sys i c :
  thread_ok sys i c -> in_critical_section c -> owner sys = Some i.
Proof.
  destruct c as [| | | | ? [?|] |]; simpl; try tauto.
Qed.

(** A state of another thread that is fine while thread [i] owns the mutex is
    outside the critical section. *)
Lemma other_thread_outside sys i j c :
  owner sys = Some i -> j <> i -> thread_ok sys j c -> ~ in_critical_section c.
Proof.
  intros Ho Hne Hok Hcrit. pose proof (critical_owner _ _ _ Hok Hcrit) as Hj.
  rewrite Ho in Hj. injection Hj as ->. contradiction.
Qed.

Section ConcurrentCreation.

Context {env : Environment} {ops : SurfaceOps}.

Lemma initial_invariant tree ts :
  well_formed tree -> Forall is_calling ts -> invariant (mkSystem tree None ts).
Proof.
  intros Hwf Hall. split; [exact Hwf|]. simpl.
  intros i c Hi. apply nth_error_In in Hi.
  rewrite Forall_forall in Hall. specialize (Hall c Hi).
  destruct c; simpl in *; tauto.
Qed.

(** The steps that change neither the registry nor the owner of the mutex
    keep what holds of the other threads. *)
Lemma thread_ok_same_registry t o ts ts' j c :
  thread_ok (mkSystem t o ts) j c -> thread_ok (mkSystem t o ts') j c.
Proof. destruct c as [| | | | ? [?|] |]; simpl; auto. Qed.

Lemma step_invariant s s' : invariant s -> step s s' -> invariant s'.
Proof.
  intros [Hwf Hth] Hstep.
  destruct Hstep as
    [t o ts i h wr cr vr Hi Hcan
    |t o ts i h wr cr vr Hi Hcan
    |t ts i data Hi
    |t o ts i data Hi
    |t o ts i data existing Hi
    |t o ts i data Hi
    |t o ts i h r Hi]; simpl in *.
  - (* refuse *)
    split; [exact Hwf|]. simpl. intros j c Hj.
    destruct (set_thread_cases _ _ _ _ _ _ Hi Hj) as [[-> ->]|[Hne Hold]];
      [exact I|]. apply (thread_ok_same_registry _ _ ts), (Hth j c Hold).
  - (* allocate *)
    split; [exact Hwf|]. simpl. intros j c Hj.
    destruct (set_thread_cases _ _ _ _ _ _ Hi Hj) as [[-> ->]|[Hne Hold]];
      [exact I|]. apply (thread_ok_same_registry _ _ ts), (Hth j c Hold).
  - (* lock: the mutex was free, so no other thread is in its critical section *)
    split; [exact Hwf|]. simpl. intros j c Hj.
    destruct (set_thread_cases _ _ _ _ _ _ Hi Hj) as [[-> ->]|[Hne Hold]];
      [reflexivity|].
    specialize (Hth j c Hold).
    destruct c as [| | | | ? [?|] |]; simpl in *;
      try exact I; try exact Hth; try discriminate;
      destruct Hth; discriminate.
  - (* lookup: the result is what the registry holds now *)
    pose proof (Hth i _ Hi) as Hown. simpl in Hown.
    split; [exact Hwf|]. simpl. intros j c Hj.
    destruct (set_thread_cases _ _ _ _ _ _ Hi Hj) as [[-> ->]|[Hne Hold]];
      [simpl; auto|]. apply (thread_ok_same_registry _ _ ts), (Hth j c Hold).
  - (* found *)
    pose proof (Hth i _ Hi) as [Hown Hget]. simpl in Hown, Hget.
    split; [exact Hwf|]. simpl. intros j c Hj.
    destruct (set_thread_cases _ _ _ _ _ _ Hi Hj) as [[-> ->]|[Hne Hold]];
      [simpl; auto|]. apply (thread_ok_same_registry _ _ ts), (Hth j c Hold).
  - (* insert: the lookup is still valid, as the thread has owned the mutex
       since; no other thread is in its critical section *)
    pose proof (Hth i _ Hi) as [Hown Hget]. simpl in Hown, Hget.
    split; [apply rb_put_well_formed; [reflexivity|exact Hwf]|]. simpl. intros j c Hj.
    destruct (set_thread_cases _ _ _ _ _ _ Hi Hj) as [[-> ->]|[Hne Hold]].
    + simpl. split; [exact Hown|]. apply rb_put_get; [reflexivity|exact Hget].
    + pose proof (Hth j c Hold) as Hok.
      pose proof (other_thread_outside (mkSystem t o ts) i j c Hown Hne Hok) as Hout.
      assert (Hkeep : forall h' d, rb_get t h' = Some d ->
                rb_get (fst (rb_put t (hwnd data) data)) h' = Some d).
      { intros h' d Hd. rewrite rb_put_get_other; [exact Hd|reflexivity|].
        intros ->. congruence. }
      destruct c as [| | | | ? [?|] |]; simpl in *; try exact I;
        try (exfalso; apply Hout; exact I).
      apply Hkeep, Hok.
  - (* release *)
    pose proof (Hth i _ Hi) as [Hown Hrec]. simpl in Hown, Hrec.
    split; [exact Hwf|]. simpl. intros j c Hj.
    destruct (set_thread_cases _ _ _ _ _ _ Hi Hj) as [[-> ->]|[Hne Hold]];
      [exact Hrec|].
    pose proof (Hth j c Hold) as Hok.
    pose proof (other_thread_outside (mkSystem t o ts) i j c Hown Hne Hok) as Hout.
    destruct c as [| | | | ? [?|] |]; simpl in *; try exact I;
      try (exfalso; apply Hout; exact I).
    exact Hok.
Qed.

Lemma steps_invariant s s' : invariant s -> steps s s' -> invariant s'.
Proof.
  intros Hinv Hsteps. induction Hsteps as [s|s1 s2 s3 Hstep _ IH]; [exact Hinv|].
  apply IH. eapply step_invariant; eauto.
Qed.

(** wayland_win_data_create is what a thread does when it runs alone. *)
Lemma create_is_a_solo_run st h wr cr vr r st' tr :
  wayland_win_data_create h wr cr vr st = Done r st' tr ->
  steps (mkSystem (win_data_rb st) None [Calling h wr cr vr])
        (mkSystem (win_data_rb st') (if is_some r then Some 0%nat else None)
                  [Returned h r]).
Proof.
  intros Hrun.
  destruct (can_allocate h) eqn:Hcan.
  - eapply steps_next.
    { apply (step_allocate _ _ [_] 0%nat h wr cr vr eq_refl Hcan). }
    eapply steps_next.
    { apply (step_lock _ [_] 0%nat _ eq_refl). }
    eapply steps_next.
    { apply (step_lookup _ _ [_] 0%nat _ eq_refl). }
    simpl. destruct (rb_get (win_data_rb st) h) as [existing|] eqn:Hget.
    + rewrite (create_existing st h wr cr vr existing Hcan Hget) in Hrun.
      injection Hrun as <- <- _.
      eapply steps_next; [|apply steps_done].
      apply (step_found _ _ [_] 0%nat (mkWinData h None None wr cr vr false) existing eq_refl).
    + rewrite (create_fresh st h wr cr vr Hcan Hget) in Hrun.
      injection Hrun as <- <- _.
      eapply steps_next; [|apply steps_done].
      apply (step_insert _ _ [_] 0%nat (mkWinData h None None wr cr vr false) eq_refl).
  - rewrite (create_refused st h wr cr vr Hcan) in Hrun. injection Hrun as <- <- _.
    eapply steps_next; [|apply steps_done].
    apply (step_refuse _ _ [_] 0%nat h wr cr vr eq_refl Hcan).
Qed.

(** Conversely, the steps of a thread that runs alone are those of
    wayland_win_data_create: a solo run that ends with a result ends with the
    result and the registry of the function. *)
Lemma solo_thread (c c0 : creator) i : nth_error [c0] i = Some c -> i = 0%nat /\ c = c0.
Proof.
  destruct i as [|i]; simpl; [intros [= <-]; auto|].
  destruct i; discriminate.
Qed.

Lemma solo_step t o c sys' :
  step (mkSystem t o [c]) sys' ->
  match c with
  | Calling h wr cr vr =>
      sys' = mkSystem t o [if can_allocate h
                           then Allocated (mkWinData h None None wr cr vr false)
                           else Returned h None]
  | Allocated data => o = None /\ sys' = mkSystem t (Some 0%nat) [Locked data]
  | Locked data => sys' = mkSystem t o [Checked data (rb_get t (hwnd data))]
  | Checked data (Some existing) =>
      sys' = mkSystem t o [Returned (hwnd data) (Some existing)]
  | Checked data None =>
      sys' = mkSystem (fst (rb_put t (hwnd data) data)) o
                      [Returned (hwnd data) (Some data)]
  | Returned h (Some r) => sys' = mkSystem t None [Released h r]
  | Returned h None => False
  | Released h r => False
  end.
Proof.
  intros Hstep.
  inversion Hstep as
    [t0 o0 ts i h wr cr vr Hi Hcan
    |t0 o0 ts i h wr cr vr Hi Hcan
    |t0 ts i data Hi
    |t0 o0 ts i data Hi
    |t0 o0 ts i data existing Hi
    |t0 o0 ts i data Hi
    |t0 o0 ts i h r Hi]; subst;
    apply solo_thread in Hi as [-> <-]; simpl; rewrite ?Hcan; auto.
Qed.

Lemma solo_run_is_create st h wr cr vr t' o' r :
  steps (mkSystem (win_data_rb st) None [Calling h wr cr vr])
        (mkSystem t' o' [Returned h r]) ->
  exists tr, wayland_win_data_create h wr cr vr st = Done r (set_tree st t') tr.
Proof.
  intros H.
  inversion H as [s Hs|s1 s2 s3 Hstep Hrest]; subst.
  apply solo_step in Hstep. subst s2.
  destruct (can_allocate h) eqn:Hcan.
  - inversion Hrest as [s Hs|s1 s2 s3 Hstep Hrest']; subst.
    apply solo_step in Hstep as [_ ->]. clear Hrest.
    inversion Hrest' as [s Hs|s1 s2 s3 Hstep Hrest]; subst.
    apply solo_step in Hstep. subst s2. clear Hrest'. cbn [hwnd] in Hrest.
    destruct (rb_get (win_data_rb st) h) as [existing|] eqn:Hget.
    + inversion Hrest as [s Hs|s1 s2 s3 Hstep Hrest']; subst.
      apply solo_step in Hstep. subst s2. clear Hrest. cbn [hwnd] in Hrest'.
      inversion Hrest' as [s Hs|s1 s2 s3 Hstep Hrest]; subst.
      * rewrite (create_existing st h wr cr vr existing Hcan Hget).
        replace (set_tree st (win_data_rb st)) with st by (destruct st; reflexivity).
        eauto.
      * apply solo_step in Hstep. subst s2.
        inversion Hrest as [s Hs|s1 s2 s3 Hstep Hrest'']; subst.
        apply solo_step in Hstep. contradiction.
    + inversion Hrest as [s Hs|s1 s2 s3 Hstep Hrest']; subst.
      apply solo_step in Hstep. subst s2. clear Hrest. cbn [hwnd] in Hrest'.
      inversion Hrest' as [s Hs|s1 s2 s3 Hstep Hrest]; subst.
      * rewrite (create_fresh st h wr cr vr Hcan Hget). eauto.
      * apply solo_step in Hstep. subst s2.
        inversion Hrest as [s Hs|s1 s2 s3 Hstep Hrest'']; subst.
        apply solo_step in Hstep. contradiction.
  - inversion Hrest as [s Hs|s1 s2 s3 Hstep Hrest']; subst.
    + rewrite (create_refused st h wr cr vr Hcan).
      replace (set_tree st (win_data_rb st)) with st by (destruct st; reflexivity).
      eauto.
    + apply solo_step in Hstep. contradiction.
Qed.

(** C3.  wayland_win_data_create, once it has allocated a record, re-checks
    the registry under the lock: when a record for the handle is there it
    frees its own and returns that record, leaving the registry as it was;
    otherwise it inserts its own.  Either way the registry holds exactly one
    record for the handle.  In any interleaving of threads creating records,
    where the lock, the lookup and the insertion are steps of their own, no
    handle ever has two records; a thread between its lock and the release
    owns the mutex, so what its lookup found is still what the registry holds
    when it acts on it; and all the threads that got a record for a handle
    got the same one, the one in the registry. *)
Theorem one_record_per_handle st h wr cr vr ts sys :
  well_formed (win_data_rb st) ->
  can_allocate h = true ->
  Forall is_calling ts ->
  steps (mkSystem (win_data_rb st) None ts) sys ->
  (exists d st' tr,
     wayland_win_data_create h wr cr vr st = Done (Some d) st' tr /\
     well_formed (win_data_rb st') /\
     records_of (win_data_rb st') h = [d] /\
     match rb_get (win_data_rb st) h with
     | Some existing =>
         d = existing /\ st' = st /\
         tr = [EvCalloc h; EvLock win_data_mutex; EvFree h]
     | None =>
         d = mkWinData h None None wr cr vr false /\
         win_data_rb st' = fst (rb_put (win_data_rb st) h d) /\
         tr = [EvCalloc h; EvLock win_data_mutex]
     end) /\
  (forall h', (List.length (records_of (registry sys) h') <= 1)%nat) /\
  (forall i c,
     nth_error (threads sys) i = Some c -> in_critical_section c ->
     owner sys = Some i) /\
  (forall i data rb_entry,
     nth_error (threads sys) i = Some (Checked data rb_entry) ->
     rb_get (registry sys) (hwnd data) = rb_entry) /\
  (forall i c h' d,
     nth_error (threads sys) i = Some c -> obtained c h' d ->
     records_of (registry sys) h' = [d]) /\
  (forall i j c1 c2 h' d1 d2,
     nth_error (threads sys) i = Some c1 -> obtained c1 h' d1 ->
     nth_error (threads sys) j = Some c2 -> obtained c2 h' d2 ->
     d1 = d2).
Proof.
  intros Hwf Hcan Hcalling Hsteps.
  assert (Hinv : invariant sys).
  { eapply steps_invariant; [|exact Hsteps]. now apply initial_invariant. }
  destruct Hinv as [Hwf' Hth].
  assert (Hgot : forall i c h' d,
             nth_error (threads sys) i = Some c -> obtained c h' d ->
             records_of (registry sys) h' = [d]).
  { intros i c h' d Hi [-> | ->]; specialize (Hth i _ Hi); simpl in Hth.
    - destruct Hth as [_ Hd]. now apply rb_get_records.
    - now apply rb_get_records. }
  split; [|split; [|split; [|split; [|split]]]].
  - destruct (rb_get (win_data_rb st) h) as [existing|] eqn:Hget.
    + exists existing, st, [EvCalloc h; EvLock win_data_mutex; EvFree h].
      split; [now apply create_existing|]. split; [exact Hwf|].
      split; [now apply rb_get_records|]. auto.
    + eexists _, _, _. split; [now apply create_fresh|]. simpl.
      split; [now apply rb_put_well_formed|].
      split; [|auto].
      apply rb_get_records; [now apply rb_put_well_formed|].
      now apply rb_put_get.
  - intros h'. now apply well_formed_records.
  - intros i c Hi Hcrit. exact (critical_owner _ _ _ (Hth i c Hi) Hcrit).
  - intros i data rb_entry Hi. exact (proj2 (Hth i _ Hi)).
  - exact Hgot.
  - intros i j c1 c2 h' d1 d2 Hi H1 Hj H2.
    pose proof (Hgot i c1 h' d1 Hi H1) as E1.
    pose proof (Hgot j c2 h' d2 Hj H2) as E2.
    congruence.
Qed.

End ConcurrentCreation.

Lemma one_record_per_handle_witness :
  well_formed (win_data_rb empty_driver) /\
  @can_allocate sample_environment 10 = true /\
  Forall is_calling racing_threads /\
  @steps sample_environment (mkSystem (win_data_rb empty_driver) None racing_threads)
         after_race /\
  records_of (registry after_race) 10 = [first_record] /\
  (exists st' tr,
     @wayland_win_data_create sample_environment 10 sample_rect sample_rect sample_rect
       empty_driver = Done (Some first_record) st' tr /\
     records_of (win_data_rb st') 10 = [first_record]).
Proof.
  assert (Hwf : well_formed (win_data_rb empty_driver)) by constructor.
  assert (Hcalling : Forall is_calling racing_threads)
    by (repeat constructor).
  assert (Hsteps : @steps sample_environment
                     (mkSystem (win_data_rb empty_driver) None racing_threads) after_race).
  { eapply steps_next.
    { eapply (@step_allocate sample_environment) with (i := 1%nat); reflexivity. }
    eapply steps_next.
    { eapply (@step_allocate sample_environment) with (i := 0%nat); reflexivity. }
    eapply steps_next.
    { eapply (@step_lock sample_environment) with (i := 0%nat); reflexivity. }
    eapply steps_next.
    { eapply (@step_lookup sample_environment) with (i := 0%nat); reflexivity. }
    eapply steps_next.
    { eapply (@step_insert sample_environment) with (i := 0%nat); reflexivity. }
    eapply steps_next.
    { eapply (@step_release sample_environment) with (i := 0%nat); reflexivity. }
    eapply steps_next.
    { eapply (@step_lock sample_environment) with (i := 1%nat); reflexivity. }
    eapply steps_next.
    { eapply (@step_lookup sample_environment) with (i := 1%nat); reflexivity. }
    eapply steps_next.
    { eapply (@step_found sample_environment) with (i := 1%nat); reflexivity. }
    eapply steps_next.
    { eapply (@step_release sample_environment) with (i := 1%nat); reflexivity. }
    apply steps_done. }
  split; [exact Hwf|]. split; [reflexivity|]. split; [exact Hcalling|].
  split; [exact Hsteps|].
  destruct (@one_record_per_handle sample_environment empty_driver 10
              sample_rect sample_rect sample_rect racing_threads after_race
              Hwf eq_refl Hcalling Hsteps)
    as ((d & st' & tr & Hrun & _ & Hrec & Hd & _) & _ & _ & _ & Hgot & _).
  simpl in Hd. subst d.
  split.
  - apply (Hgot 0%nat (Released 10 first_record) 10 first_record eq_refl).
    right. reflexivity.
  - exists st', tr. split; [exact Hrun|exact Hrec].
Defined.

(** ** The surface role manager *)

Lemma role_events_app t1 t2 : role_events (t1 ++ t2) = role_events t1 ++ role_events t2.
Proof.
  induction t1 as [|e t1 IH]; simpl; [reflexivity|].
  destruct (role_effect e); simpl; now rewrite IH.
Qed.

Lemma cleared_before_set_weaken c l :
  cleared_before_set None l = true -> cleared_before_set c l = true.
Proof.
  destruct l as [|[h r] rest]; simpl; [reflexivity|].
  destruct (role_set r); [discriminate|auto].
Qed.

Lemma cleared_before_set_app c l1 l2 :
  cleared_before_set c l1 = true ->
  cleared_before_set None l2 = true ->
  cleared_before_set c (l1 ++ l2) = true.
Proof.
  revert c. induction l1 as [|[h r] rest IH]; simpl; intros c H1 H2.
  - now apply cleared_before_set_weaken.
  - destruct (role_set r).
    + destruct c as [h'|]; [|discriminate].
      apply Bool.andb_true_iff in H1 as [Hh Hrest].
      rewrite Hh. simpl. auto.
    + auto.
Qed.

(** A trace in which every role assignment follows a removal shows only
    admissible role steps, whatever roles the surfaces held before. *)
Lemma cleared_before_set_exclusive tr :
  forall c rs,
    (forall h, c = Some h -> rs h = WAYLAND_SURFACE_ROLE_NONE) ->
    cleared_before_set c (role_events tr) = true ->
    role_exclusive rs tr = true.
Proof.
  induction tr as [|e tr IH]; simpl; intros c rs Hc Hcbs; [reflexivity|].
  destruct (role_effect e) as [[h r]|]; [|eauto].
  simpl in Hcbs. destruct (role_set r) eqn:Hr.
  - destruct c as [h'|]; [|discriminate].
    apply Bool.andb_true_iff in Hcbs as [Hh Hrest].
    apply Z.eqb_eq in Hh. subst h'.
    unfold role_step_ok. rewrite (Hc h eq_refl). simpl.
    apply (IH None); [discriminate|exact Hrest].
  - assert (Hnone : r = WAYLAND_SURFACE_ROLE_NONE) by (destruct r; cbv in Hr; congruence).
    subst r. unfold role_step_ok. simpl. rewrite Bool.orb_true_r. simpl.
    apply (IH (Some h)); [|exact Hcbs].
    intros h0 [= <-]. unfold set_role. now rewrite Z.eqb_refl.
Qed.

Section RoleManager.

Context {env : Environment} {ops : SurfaceOps}.

Lemma top_parent_walk_silent fuel cur st r st' tr :
  top_parent_walk fuel cur st = Done r st' tr -> st' = st /\ tr = [].
Proof.
  revert cur. induction fuel as [|n IH]; simpl; intros cur; [discriminate|].
  destruct (negb (NtUserGetAncestor cur =? NULL)
            && negb (NtUserGetAncestor cur =? NtUserGetDesktopWindow)); [apply IH|].
  intros [= _ <- <-]. auto.
Qed.

Lemma get_top_parent_silent fuel data st r st' tr :
  wayland_win_data_get_top_parent fuel data st = Done r st' tr -> st' = st /\ tr = [].
Proof.
  unfold wayland_win_data_get_top_parent. intros H.
  apply bind_Done in H as (cur & st1 & tr1 & tr2 & Hwalk & Hk & ->).
  apply top_parent_walk_silent in Hwalk as [-> ->].
  destruct (cur =? hwnd data).
  - injection Hk as _ <- <-. auto.
  - unfold wayland_win_data_get_nolock, bind, get_state, pure in Hk.
    injection Hk as _ <- <-. auto.
Qed.

Lemma needs_wayland_surface_silent data parent_data st r st' tr :
  wayland_win_data_needs_wayland_surface data parent_data st = Done r st' tr ->
  st' = st /\ role_events tr = [].
Proof.
  unfold wayland_win_data_needs_wayland_surface.
  unfold bind, emit, pure, deref, crash.
  destruct ((NtUserGetAncestor (hwnd data) =? NULL)
            || (NtUserGetAncestor (hwnd data) =? NtUserGetDesktopWindow)).
  { intros [= _ <- <-]. auto. }
  destruct (wayland_surface_of data) as [s|]; simpl.
  - destruct (is_some (client s)); simpl.
    + intros [= _ <- <-]. auto.
    + destruct parent_data as [pd|]; [|discriminate]. simpl.
      destruct (wayland_surface_of pd); simpl; intros [= _ <- <-]; auto.
  - destruct parent_data as [pd|]; [|discriminate]. simpl.
    destruct (wayland_surface_of pd); simpl; intros [= _ <- <-]; auto.
Qed.

Lemma reapply_cursor_clipping_silent st r st' tr :
  reapply_cursor_clipping st = Done r st' tr -> role_events tr = [].
Proof.
  unfold reapply_cursor_clipping, NtUserSetThreadDpiAwarenessContext, bind, get_state,
    put_state, pure, emit.
  simpl. destruct NtUserGetClipCursor; simpl; intros [= _ _ <-]; reflexivity.
Qed.

Lemma update_wayland_state_silent h st r st' tr :
  wayland_win_data_update_wayland_state h st = Done r st' tr -> role_events tr = [].
Proof.
  unfold wayland_win_data_update_wayland_state, load_data, store_surface, load_data,
    store_data, bind, get_state, put_state, deref, pure, emit, when.
  simpl.
  destruct (rb_get (win_data_rb st) h) as [data|]; simpl; [|discriminate].
  destruct (wayland_surface_of data) as [surface|]; simpl; [|discriminate].
  destruct (wl_subsurface surface); simpl.
  { destruct (rb_get (win_data_rb st) h); simpl; [|discriminate].
    intros [= _ _ <-]. reflexivity. }
  destruct (xdg_toplevel surface); simpl; [|intros [= _ _ <-]; reflexivity].
  destruct (negb (serial (processing surface) =? 0) && negb (processed (processing surface)));
    simpl.
  { destruct (rb_get (win_data_rb st) h); simpl; [|discriminate].
    intros [= _ _ <-]. reflexivity. }
  destruct (negb (test (window_state (window surface)) WAYLAND_SURFACE_CONFIG_STATE_MAXIMIZED)
            && test (state (current surface)) WAYLAND_SURFACE_CONFIG_STATE_MAXIMIZED),
    (negb (test (window_state (window surface)) WAYLAND_SURFACE_CONFIG_STATE_FULLSCREEN)
     && test (state (current surface)) WAYLAND_SURFACE_CONFIG_STATE_FULLSCREEN),
    (test (window_state (window surface)) WAYLAND_SURFACE_CONFIG_STATE_MAXIMIZED
     && negb (test (state (current surface)) WAYLAND_SURFACE_CONFIG_STATE_MAXIMIZED)),
    (test (window_state (window surface)) WAYLAND_SURFACE_CONFIG_STATE_FULLSCREEN
     && negb (test (state (current surface)) WAYLAND_SURFACE_CONFIG_STATE_FULLSCREEN));
    simpl; intros [= _ _ <-]; reflexivity.
Qed.

End RoleManager.

Ltac crunch H :=
  unfold bind, emit, pure, when, crash, deref, detach_window_surface, get_state,
    put_state in H;
  simpl in H;
  repeat (match type of H with
          | context [match ?x with _ => _ end] =>
              lazymatch x with
              | context [match _ with _ => _ end] => fail
              | _ => destruct x eqn:?; simpl in H
              end
          end; try discriminate H).

Section RoleManagerBody.

Context {env : Environment} {ops : SurfaceOps}.

Lemma body_roles fuel data flags st r st' tr :
  update_wayland_surface_body fuel data flags st = Done r st' tr ->
  cleared_before_set None (role_events tr) = true.
Proof.
  unfold update_wayland_surface_body. intros H.
  apply bind_Done in H as (parent_data & st1 & tr1 & tr2 & Htp & H & ->).
  apply get_top_parent_silent in Htp as [-> ->].
  apply bind_Done in H as (needs & st1 & tr1 & tr3 & Hneeds & H & ->).
  apply needs_wayland_surface_silent in Hneeds as [-> Hn].
  rewrite app_nil_l, role_events_app, Hn, app_nil_l. clear Hn tr1.
  crunch H.
  all: injection H as <- <- <-.
  all: repeat match goal with
         | E : reapply_cursor_clipping _ = Done _ _ ?t |- _ =>
             apply reapply_cursor_clipping_silent in E
         end.
  all: rewrite ?role_events_app; simpl; rewrite ?role_events_app; simpl.
  all: repeat match goal with
         | E : role_events _ = [] |- _ => rewrite E; clear E
         end.
  all: simpl; rewrite ?Z.eqb_refl; reflexivity.
Qed.

Lemma destroyed_first_skip h t1 t2 :
  role_events t1 = [] -> destroyed_first h (t1 ++ t2) = destroyed_first h t2.
Proof.
  induction t1 as [|e t1 IH]; simpl; [reflexivity|].
  destruct e; simpl; try discriminate; auto.
Qed.

Lemma destroyed_first_app h t1 t2 :
  destroyed_first h t1 = true -> destroyed_first h (t1 ++ t2) = true.
Proof.
  induction t1 as [|e t1 IH]; simpl; [discriminate|].
  destruct e; simpl; try discriminate; auto.
Qed.

(** When the wanted role conflicts with the established role of the window's
    surface, the first thing that happens to the surface is its destruction. *)
Lemma body_destroys_on_conflict fuel data flags st r st' tr s parent_data :
  update_wayland_surface_body fuel data flags st = Done r st' tr ->
  wayland_surface_of data = Some s ->
  wayland_win_data_get_top_parent fuel data st = Done parent_data st [] ->
  role_conflict (wanted_role (hwnd data) parent_data) s = true ->
  destroyed_first (hwnd data) tr = true.
Proof.
  unfold update_wayland_surface_body, role_conflict. intros H Hs Htop Hconflict.
  apply bind_Done in H as (parent_data' & st1 & tr1 & tr2 & Htp & H & ->).
  rewrite Htop in Htp. injection Htp as <- <- <-.
  apply bind_Done in H as (needs & st1 & tr1 & tr3 & Hneeds & H & ->).
  apply needs_wayland_surface_silent in Hneeds as [-> Hn].
  rewrite app_nil_l, (destroyed_first_skip _ _ _ Hn). clear Hn tr1.
  rewrite Hs, Hconflict in H.
  destruct (negb needs && negb (test flags UWS_FORCE_CREATE)).
  - crunch H; injection H as <- <- <-; simpl; apply Z.eqb_refl.
  - apply bind_Done in H as (sc & st1 & tr1 & tr4 & Hdestroy & _ & ->).
    apply destroyed_first_app.
    crunch Hdestroy; injection Hdestroy as <- <- <-; simpl; apply Z.eqb_refl.
Qed.

Lemma load_data_silent h st d st' tr :
  load_data h st = Done d st' tr ->
  st' = st /\ tr = [] /\ rb_get (win_data_rb st) h = Some d.
Proof.
  unfold load_data, bind, get_state, deref, pure, crash. simpl.
  destruct (rb_get (win_data_rb st) h); [|discriminate].
  intros [= <- <- <-]. auto.
Qed.

Lemma store_data_silent d st r st' tr : store_data d st = Done r st' tr -> tr = [].
Proof.
  unfold store_data, bind, get_state, put_state. simpl. intros [= _ _ <-]. reflexivity.
Qed.

Lemma for_each_roles {A} (l : list A) (body : A -> M unit) :
  (forall x st a st' tr,
     body x st = Done a st' tr -> cleared_before_set None (role_events tr) = true) ->
  forall st a st' tr,
    for_each l body st = Done a st' tr ->
    cleared_before_set None (role_events tr) = true.
Proof.
  intros Hbody. induction l as [|x l IH]; simpl; intros st a st' tr H.
  - injection H as _ _ <-. reflexivity.
  - apply bind_Done in H as (u & st1 & tr1 & tr2 & Hx & Hrest & ->).
    rewrite role_events_app. apply cleared_before_set_app; eauto.
Qed.

Lemma update_wayland_surface_roles fuel :
  forall h flags st st' tr,
    wayland_win_data_update_wayland_surface fuel h flags st = Done tt st' tr ->
    cleared_before_set None (role_events tr) = true.
Proof.
  induction fuel as [|fuel IH]; intros h flags st st' tr H; [discriminate|].
  cbn [wayland_win_data_update_wayland_surface] in H.
  apply bind_Done in H as (data & s1 & t1 & t2 & Hload & H & ->).
  apply load_data_silent in Hload as (-> & -> & _).
  apply bind_Done in H as (r & s2 & t3 & t4 & Hbody & H & ->).
  apply body_roles in Hbody.
  destruct r as [[surface client] surface_changed].
  apply bind_Done in H as (u & s3 & t5 & t6 & Hstore & H & ->).
  apply store_data_silent in Hstore as ->.
  apply bind_Done in H as (u' & s4 & t7 & t8 & Hrel & H & ->).
  assert (Hrel' : role_events t7 = []).
  { destruct client; [injection Hrel as _ _ <-|injection Hrel as _ _ <-]; reflexivity. }
  simpl. rewrite !role_events_app, Hrel'. simpl.
  apply cleared_before_set_app; [exact Hbody|].
  destruct (negb (test flags UWS_NO_UPDATE_CHILDREN)).
  2: { injection H as _ <-. reflexivity. }
  apply bind_Done in H as (s5 & s6 & t9 & t10 & Hget & H & ->).
  injection Hget as <- <- <-. simpl.
  revert H. apply for_each_roles.
  clear - IH.
  intros wh st a st' tr H.
  apply bind_Done in H as (wwd & s1 & t1 & t2 & Hload & H & ->).
  apply load_data_silent in Hload as (-> & -> & _). simpl.
  destruct (is_some (wayland_surface_of wwd) && NtUserIsChild h wh).
  2: { injection H as _ _ <-. reflexivity. }
  apply bind_Done in H as (u & s2 & t3 & t4 & Hrec & H & ->).
  destruct u. apply IH in Hrec.
  apply bind_Done in H as (wwd' & s3 & t5 & t6 & Hload & H & ->).
  apply load_data_silent in Hload as (-> & -> & _). simpl.
  rewrite role_events_app. apply cleared_before_set_app; [exact Hrec|].
  destruct (is_some (wayland_surface_of wwd')); simpl in H.
  - apply update_wayland_state_silent in H. rewrite H. reflexivity.
  - injection H as _ _ <-. reflexivity.
Qed.

(** C1.  Along any run of wayland_win_data_update_wayland_surface (the window
    and the child windows it refreshes), whatever roles the surfaces held
    before, no surface steps from a role to a different role: every role
    assignment comes right after the surface was created or had its role
    cleared.  And when the role wanted for the window conflicts with the
    established role of its surface, the surface is destroyed before
    anything else happens to a role. *)
Theorem role_exclusivity fuel h flags st st' tr :
  wayland_win_data_update_wayland_surface fuel h flags st = Done tt st' tr ->
  (forall rs, role_exclusive rs tr = true) /\
  cleared_before_set None (role_events tr) = true /\
  (forall data s parent_data,
     rb_get (win_data_rb st) h = Some data ->
     wayland_surface_of data = Some s ->
     wayland_win_data_get_top_parent fuel data st = Done parent_data st [] ->
     role_conflict (wanted_role h parent_data) s = true ->
     destroyed_first h tr = true).
Proof.
  intros H.
  pose proof (update_wayland_surface_roles fuel h flags st st' tr H) as Hcbs.
  split; [|split; [exact Hcbs|]].
  - intros rs. apply (cleared_before_set_exclusive tr None rs); [discriminate|exact Hcbs].
  - intros data s parent_data Hget Hs Htop Hconflict.
    destruct fuel as [|fuel]; [discriminate|].
    cbn [wayland_win_data_update_wayland_surface] in H.
    apply bind_Done in H as (data' & s1 & t1 & t2 & Hload & H & ->).
    apply load_data_silent in Hload as (-> & -> & Hget').
    rewrite Hget in Hget'. injection Hget' as <-.
    apply bind_Done in H as (r & s2 & t3 & t4 & Hbody & _ & ->).
    simpl. apply destroyed_first_app.
    rewrite <- (rb_get_hwnd _ _ _ Hget) in *.
    eapply body_destroys_on_conflict; eauto.
Qed.

End RoleManagerBody.

Lemma role_exclusivity_witness :
  rb_get (win_data_rb conflict_driver) 20 = Some child_record /\
  wayland_surface_of child_record = Some child_surface /\
  wayland_win_data_get_top_parent 5 child_record conflict_driver
    = Done (Some (sample_record (Some anchor_surface))) conflict_driver [] /\
  role_conflict (wanted_role 20 (Some (sample_record (Some anchor_surface)))) child_surface
    = true /\
  exists st' tr,
    wayland_win_data_update_wayland_surface 5 20 0 conflict_driver = Done tt st' tr /\
    (forall rs, role_exclusive rs tr = true) /\
    destroyed_first 20 tr = true /\
    role_events tr =
      [(20, WAYLAND_SURFACE_ROLE_NONE); (20, WAYLAND_SURFACE_ROLE_NONE);
       (20, WAYLAND_SURFACE_ROLE_NONE); (20, WAYLAND_SURFACE_ROLE_SUBSURFACE)].
Proof.
  split; [reflexivity|]. split; [reflexivity|]. split; [reflexivity|].
  split; [reflexivity|].
  eexists _, _.
  assert (Hrun : wayland_win_data_update_wayland_surface 5 20 0 conflict_driver
                 = Done tt _ _) by (vm_compute; reflexivity).
  split; [exact Hrun|].
  destruct (@role_exclusivity sample_environment reference_surface_ops
              5%nat 20 0 conflict_driver _ _ Hrun) as (Hex & _ & Hdestroy).
  split; [exact Hex|]. split; [|reflexivity].
  apply (Hdestroy child_record child_surface (Some (sample_record (Some anchor_surface))));
    reflexivity.
Defined.

(** * Further properties of window.c *)

(** ** Registry: creation, lookup and destruction *)

Lemma rb_remove_get tree key :
  well_formed tree -> rb_get (rb_remove tree key) key = None.
Proof.
  induction 1 as [|e rest Hall Hwf IH]; simpl; [reflexivity|].
  rewrite cmp_rb_zero. destruct (key =? hwnd e) eqn:E.
  - apply Z.eqb_eq in E. subst key. clear IH Hwf.
    induction rest as [|x rest IH]; simpl; [reflexivity|].
    inversion Hall as [|a l Hx Hrest]; subst a l.
    rewrite cmp_rb_zero.
    destruct (hwnd e =? hwnd x) eqn:Ex; [apply Z.eqb_eq in Ex; lia|auto].
  - simpl. rewrite cmp_rb_zero, E. exact IH.
Qed.

Lemma rb_remove_get_other tree key key' :
  key' <> key -> rb_get (rb_remove tree key) key' = rb_get tree key'.
Proof.
  intros Hne. induction tree as [|e rest IH]; simpl; [reflexivity|].
  rewrite !cmp_rb_zero. destruct (key =? hwnd e) eqn:E.
  - apply Z.eqb_eq in E. subst key.
    destruct (key' =? hwnd e) eqn:E'; [apply Z.eqb_eq in E'; contradiction|reflexivity].
  - simpl. rewrite cmp_rb_zero. destruct (key' =? hwnd e); [reflexivity|exact IH].
Qed.

Lemma rb_remove_In tree key x : In x (rb_remove tree key) -> In x tree.
Proof.
  induction tree as [|e rest IH]; simpl; [tauto|].
  destruct (wayland_win_data_cmp_rb key e =? 0); simpl; [tauto|].
  intros [<-|H]; auto.
Qed.

Lemma rb_remove_well_formed tree key :
  well_formed tree -> well_formed (rb_remove tree key).
Proof.
  induction 1 as [|e rest Hall Hwf IH]; simpl; [constructor|].
  destruct (wayland_win_data_cmp_rb key e =? 0); [exact Hwf|].
  constructor; [|exact IH].
  rewrite Forall_forall in *. intros x Hx. apply Hall. eapply rb_remove_In; eauto.
Qed.

Lemma rb_put_remove tree key entry :
  hwnd entry = key ->
  rb_get tree key = None ->
  rb_remove (fst (rb_put tree key entry)) key = tree.
Proof.
  intros Hk. induction tree as [|e rest IH]; simpl.
  - intros _. rewrite cmp_rb_zero, Hk, Z.eqb_refl. reflexivity.
  - destruct (wayland_win_data_cmp_rb key e =? 0) eqn:E; [discriminate|].
    intros Hnone.
    destruct (wayland_win_data_cmp_rb key e <? 0); simpl.
    + rewrite cmp_rb_zero, Hk, Z.eqb_refl. reflexivity.
    + destruct (rb_put rest key entry) as [rest' r] eqn:Hput. simpl in *.
      rewrite E, IH by exact Hnone. reflexivity.
Qed.

Section RegistryRoundTrips.

Context {env : Environment} {ops : SurfaceOps}.

(** X1.  A record that wayland_win_data_create returned is the record that
    wayland_win_data_get finds for the handle once the lock is released, and
    the creation leaves the records of all other handles as they were. *)
Theorem create_then_get st h wr cr vr d st1 tr1 :
  wayland_win_data_create h wr cr vr st = Done (Some d) st1 tr1 ->
  hwnd d = h /\
  bind (wayland_win_data_release (Some d)) (fun _ => wayland_win_data_get h) st1
    = Done (Some d) st1 [EvUnlock win_data_mutex; EvLock win_data_mutex] /\
  (forall h', h' <> h -> rb_get (win_data_rb st1) h' = rb_get (win_data_rb st) h').
Proof.
  intros Hrun.
  assert (Hget : rb_get (win_data_rb st1) h = Some d /\
                 forall h', h' <> h -> rb_get (win_data_rb st1) h' = rb_get (win_data_rb st) h').
  { destruct (can_allocate h) eqn:Hcan.
    - destruct (rb_get (win_data_rb st) h) as [existing|] eqn:Hold.
      + rewrite (create_existing st h wr cr vr existing Hcan Hold) in Hrun.
        injection Hrun as <- <- _. auto.
      + rewrite (create_fresh st h wr cr vr Hcan Hold) in Hrun.
        injection Hrun as <- <- _. simpl. split.
        * now apply rb_put_get.
        * intros h' Hne. now apply rb_put_get_other.
    - rewrite (create_refused st h wr cr vr Hcan) in Hrun. discriminate. }
  destruct Hget as [Hget Hother].
  split; [exact (rb_get_hwnd _ _ _ Hget)|]. split; [|exact Hother].
  unfold wayland_win_data_release, wayland_win_data_get, wayland_win_data_get_nolock,
    bind, deref, pure, emit, get_state.
  simpl. rewrite Hget. reflexivity.
Qed.

(** X2.  wayland_win_data_destroy of a record of a well-formed registry
    removes exactly that record: the handle is no longer found, all other
    handles are found as before and the registry stays well formed.  The
    calls it makes come in this order: the release of the registry lock, the
    detach and the release of the window surface, the destruction of the
    Wayland surface, the free of the record. *)
Theorem destroy_removes st h data :
  well_formed (win_data_rb st) ->
  rb_get (win_data_rb st) h = Some data ->
  exists st',
    wayland_win_data_destroy data st =
      Done tt st'
        ([EvUnlock win_data_mutex]
         ++ match window_surface_of data with
            | Some ws => [EvWindowSurfaceUpdate ws None None; EvWindowSurfaceRelease ws]
            | None => []
            end
         ++ (if is_some (wayland_surface_of data) then [EvSurfaceDestroy h] else [])
         ++ [EvFree h]) /\
    rb_get (win_data_rb st') h = None /\
    (forall h', h' <> h -> rb_get (win_data_rb st') h' = rb_get (win_data_rb st) h') /\
    well_formed (win_data_rb st').
Proof.
  intros Hwf Hget. pose proof (rb_get_hwnd _ _ _ Hget) as Hh.
  exists (set_tree st (rb_remove (win_data_rb st) h)).
  split; [|split; [|split]].
  - unfold wayland_win_data_destroy, bind, get_state, put_state, emit, pure, when.
    rewrite Hh. destruct (window_surface_of data), (wayland_surface_of data); reflexivity.
  - simpl. now apply rb_remove_get.
  - intros h' Hne. simpl. now apply rb_remove_get_other.
  - simpl. now apply rb_remove_well_formed.
Qed.

(** X3.  Creating the record of a handle that has none and destroying that
    record again gives back the registry as it was. *)
Theorem create_destroy_round_trip st h wr cr vr :
  can_allocate h = true ->
  rb_get (win_data_rb st) h = None ->
  exists d st1 tr1 st2 tr2,
    wayland_win_data_create h wr cr vr st = Done (Some d) st1 tr1 /\
    wayland_win_data_destroy d st1 = Done tt st2 tr2 /\
    st2 = st.
Proof.
  intros Hcan Hnone.
  eexists _, _, _, _, _. split; [now apply create_fresh|].
  split.
  - unfold wayland_win_data_destroy, bind, get_state, put_state, emit, pure, when.
    simpl. reflexivity.
  - simpl. rewrite rb_put_remove by auto. destruct st; reflexivity.
Qed.

End RegistryRoundTrips.

Lemma create_then_get_witness :
  wayland_win_data_create 10 sample_rect sample_rect sample_rect empty_driver
    = Done (Some first_record) (mkDriver [first_record] sample_wayland 0)
           [EvCalloc 10; EvLock win_data_mutex] /\
  bind (wayland_win_data_release (Some first_record)) (fun _ => wayland_win_data_get 10)
       (mkDriver [first_record] sample_wayland 0)
    = Done (Some first_record) (mkDriver [first_record] sample_wayland 0)
           [EvUnlock win_data_mutex; EvLock win_data_mutex].
Proof.
  split; [reflexivity|].
  apply (@create_then_get sample_environment empty_driver 10 sample_rect sample_rect
           sample_rect first_record _ _ eq_refl).
Defined.

Lemma destroy_removes_witness :
  well_formed (win_data_rb conflict_driver) /\
  rb_get (win_data_rb conflict_driver) 20 = Some child_record /\
  exists st' tr,
    wayland_win_data_destroy child_record conflict_driver = Done tt st' tr /\
    rb_get (win_data_rb st') 20 = None /\
    rb_get (win_data_rb st') 10 = Some (sample_record (Some anchor_surface)).
Proof.
  assert (Hwf : well_formed (win_data_rb conflict_driver)).
  { repeat constructor. }
  split; [exact Hwf|]. split; [reflexivity|].
  destruct (destroy_removes conflict_driver 20 child_record Hwf eq_refl)
    as (st' & Hrun & Hgone & Hother & _).
  eexists st', _. split; [exact Hrun|]. split; [exact Hgone|].
  rewrite Hother by discriminate. reflexivity.
Defined.

Lemma create_destroy_round_trip_witness :
  @can_allocate sample_environment 10 = true /\
  rb_get (win_data_rb empty_driver) 10 = None /\
  exists d st1 tr1 st2 tr2,
    wayland_win_data_create 10 sample_rect sample_rect sample_rect empty_driver
      = Done (Some d) st1 tr1 /\
    wayland_win_data_destroy d st1 = Done tt st2 tr2 /\
    st2 = empty_driver.
Proof.
  split; [reflexivity|]. split; [reflexivity|].
  apply (@create_destroy_round_trip sample_environment empty_driver 10
           sample_rect sample_rect sample_rect); reflexivity.
Defined.

(** ** Lock discipline *)

Lemma lock_discipline_app held t1 t2 :
  lock_discipline held (t1 ++ t2) =
    match lock_discipline held t1 with
    | Some held' => lock_discipline held' t2
    | None => None
    end.
Proof.
  revert held. induction t1 as [|e t1 IH]; intros held; simpl; [reflexivity|].
  destruct e; simpl; auto.
  - destruct (holds held m); [reflexivity|].
    destruct (mutex_eqb m win_data_mutex && existsb is_surface_mutex held); auto.
  - destruct (holds held m); auto.
Qed.

Lemma lock_discipline_compose held t1 t2 held1 held2 :
  lock_discipline held t1 = Some held1 ->
  lock_discipline held1 t2 = Some held2 ->
  lock_discipline held (t1 ++ t2) = Some held2.
Proof. intros H1 H2. now rewrite lock_discipline_app, H1. Qed.

(** Branches in which a test and the value it tests disagree. *)
Ltac absurd_branch :=
  try match goal with
      | H : is_some None = true |- _ => discriminate H
      | H : is_some (Some _) = false |- _ => discriminate H
      end.

Section EntryPointLocks.

Context {env : Environment} {ops : SurfaceOps}.

(** X4.  wayland_configure_window, WAYLAND_SysCommand and
    WAYLAND_SetWindowText, entered with no mutex held, keep the lock
    discipline and return with no mutex held, on every path. *)
Theorem entry_points_release_locks :
  (forall h st st' tr,
     wayland_configure_window h st = Done tt st' tr ->
     lock_discipline [] tr = Some []) /\
  (forall h wparam lparam st r st' tr,
     WAYLAND_SysCommand h wparam lparam st = Done r st' tr ->
     lock_discipline [] tr = Some []) /\
  (forall h text st st' tr,
     WAYLAND_SetWindowText h text st = Done tt st' tr ->
     lock_discipline [] tr = Some []).
Proof.
  split; [|split].
  - intros h st st' tr H.
    destruct (rb_get (win_data_rb st) h) as [data|] eqn:Hget.
    2: { rewrite configure_window_no_surface in H by now left.
         injection H as _ <-. reflexivity. }
    destruct (wayland_surface_of data) as [surface|] eqn:Hs.
    2: { rewrite configure_window_no_surface in H by (right; eauto).
         injection H as _ <-. reflexivity. }
    destruct (xdg_toplevel surface) eqn:Htop.
    2: { rewrite (configure_window_idle st h data surface Hget Hs) in H by now left.
         injection H as _ <-. simpl. rewrite Z.eqb_refl. reflexivity. }
    destruct (Z.eq_dec (serial (requested surface)) 0) as [Hz|Hserial].
    { rewrite (configure_window_idle st h data surface Hget Hs) in H by now right.
      injection H as _ <-. simpl. rewrite Z.eqb_refl. reflexivity. }
    rewrite (configure_window_drains st h data surface Hget Hs Htop Hserial) in H.
    injection H as _ <-. simpl. rewrite Z.eqb_refl. simpl.
    repeat match goal with
           | |- context [if ?c then _ else _] => destruct c; simpl
           end; reflexivity.
  - intros h wparam lparam st r st' tr H.
    unfold WAYLAND_SysCommand, wayland_surface_lock_hwnd, wayland_win_data_get,
      wayland_win_data_get_nolock, wayland_win_data_release in H.
    crunch H; absurd_branch; injection H as <- <- <-; simpl; rewrite ?Z.eqb_refl;
      reflexivity.
  - intros h text st st' tr H.
    unfold WAYLAND_SetWindowText, wayland_surface_lock_hwnd, wayland_win_data_get,
      wayland_win_data_get_nolock, wayland_win_data_release in H.
    crunch H; absurd_branch; injection H as <- <-; simpl; rewrite ?Z.eqb_refl;
      reflexivity.
Qed.

End EntryPointLocks.

Lemma entry_points_release_locks_witness :
  exists st' tr,
    wayland_configure_window 10 maximize_pending = Done tt st' tr /\
    lock_discipline [] tr = Some [].
Proof.
  eexists _, _.
  assert (Hrun : wayland_configure_window 10 maximize_pending = Done tt _ _)
    by (vm_compute; reflexivity).
  split; [exact Hrun|].
  exact (proj1 (@entry_points_release_locks sample_environment reference_surface_ops)
           10 maximize_pending _ _ Hrun).
Defined.

(** ** WAYLAND_WindowPosChanging *)

Section PosChanging.

Context {env : Environment} {ops : SurfaceOps}.

Lemma needs_wayland_surface_locks data parent_data st r st' tr :
  wayland_win_data_needs_wayland_surface data parent_data st = Done r st' tr ->
  lock_discipline [win_data_mutex] tr = Some [win_data_mutex].
Proof.
  unfold wayland_win_data_needs_wayland_surface. intros H.
  crunch H; injection H as <- <- <-; simpl; rewrite ?Z.eqb_refl; reflexivity.
Qed.

(** X5.  For a window that has no record and cannot have one (its parent is
    missing, its parent is a parentless window other than the desktop, or the
    allocation fails), WAYLAND_WindowPosChanging answers FALSE, leaves the
    driver state untouched, and only takes and releases the registry lock. *)
Theorem pos_changing_refuses fuel h swp_flags shaped wr cr vr st :
  rb_get (win_data_rb st) h = None ->
  can_allocate h = false ->
  WAYLAND_WindowPosChanging fuel h swp_flags shaped wr cr vr st
    = Done false st [EvLock win_data_mutex; EvUnlock win_data_mutex].
Proof.
  intros Hnone Hcan. unfold WAYLAND_WindowPosChanging.
  assert (Hget : wayland_win_data_get h st
                 = Done None st [EvLock win_data_mutex; EvUnlock win_data_mutex]).
  { unfold wayland_win_data_get, wayland_win_data_get_nolock, bind, emit, get_state, pure.
    simpl. rewrite Hnone. reflexivity. }
  rewrite (bind_run _ _ _ _ _ _ Hget).
  rewrite (bind_run _ _ _ _ _ _ (create_refused st h wr cr vr Hcan)).
  reflexivity.
Qed.

(** X6.  A call of WAYLAND_WindowPosChanging that completes changes nothing
    but, possibly, the record of its window: the records of all other handles
    are as before, a state in which the window had a record is returned
    unchanged, and a new record carries the rectangles of the call.  When the
    answer is TRUE the window has a record.  The call keeps the lock
    discipline and returns with no mutex held. *)
Theorem pos_changing_frame fuel h swp_flags shaped wr cr vr st r st' tr :
  WAYLAND_WindowPosChanging fuel h swp_flags shaped wr cr vr st = Done r st' tr ->
  (forall h', h' <> h -> rb_get (win_data_rb st') h' = rb_get (win_data_rb st) h') /\
  (forall d, rb_get (win_data_rb st) h = Some d -> st' = st) /\
  (rb_get (win_data_rb st) h = None ->
   st' = st \/ rb_get (win_data_rb st') h = Some (mkWinData h None None wr cr vr false)) /\
  (r = true -> exists d, rb_get (win_data_rb st') h = Some d) /\
  lock_discipline [] tr = Some [].
Proof.
  unfold WAYLAND_WindowPosChanging. intros H.
  apply bind_Done in H as (found & s1 & t1 & t2 & Hget & H & ->).
  apply bind_Done in H as (data & s2 & t3 & t4 & Hdata & H & ->).
  assert (Hfound : s1 = st /\
            ((found = None /\ rb_get (win_data_rb st) h = None /\
              t1 = [EvLock win_data_mutex; EvUnlock win_data_mutex]) \/
             (exists d, found = Some d /\ rb_get (win_data_rb st) h = Some d /\
                        t1 = [EvLock win_data_mutex]))).
  { unfold wayland_win_data_get, wayland_win_data_get_nolock, bind, emit, get_state, pure
      in Hget. simpl in Hget.
    destruct (rb_get (win_data_rb st) h) as [d|]; simpl in Hget;
      injection Hget as <- <- <-; split; eauto 6. }
  destruct Hfound as [-> Hfound].
  assert (Hrec : (data = None /\ s2 = st /\ rb_get (win_data_rb st) h = None /\
                  lock_discipline [] (t1 ++ t3) = Some []) \/
                 (exists d, data = Some d /\ rb_get (win_data_rb s2) h = Some d /\
                    lock_discipline [] (t1 ++ t3) = Some [win_data_mutex] /\
                    (forall h', h' <> h ->
                       rb_get (win_data_rb s2) h' = rb_get (win_data_rb st) h') /\
                    ((rb_get (win_data_rb st) h = Some d /\ s2 = st) \/
                     (rb_get (win_data_rb st) h = None /\
                      d = mkWinData h None None wr cr vr false)))).
  { destruct Hfound as [(-> & Hnone & ->)|(d & -> & Hd & ->)].
    - destruct (can_allocate h) eqn:Hcan.
      + rewrite (create_fresh st h wr cr vr Hcan Hnone) in Hdata.
        injection Hdata as <- <- <-. right. eexists. split; [reflexivity|].
        split; [simpl; now apply rb_put_get|]. split; [reflexivity|].
        split; [intros h' Hne; simpl; now apply rb_put_get_other|].
        right. auto.
      + rewrite (create_refused st h wr cr vr Hcan) in Hdata.
        injection Hdata as <- <- <-. left. auto.
    - injection Hdata as <- <- <-. right. exists d. split; [reflexivity|].
      split; [exact Hd|]. split; [reflexivity|]. split; [reflexivity|]. left. auto. }
  destruct Hrec as [(-> & -> & Hnone & Hlocks)|(d & -> & Hd & Hlocks & Hother & Horigin)].
  - injection H as <- <- <-. rewrite app_nil_r.
    split; [reflexivity|]. split; [congruence|]. split; [auto|].
    split; [discriminate|]. exact Hlocks.
  - apply bind_Done in H as (ret & s3 & t5 & t6 & Hneeds & H & ->).
    assert (Hret : s3 = s2 /\ lock_discipline [win_data_mutex] t5 = Some [win_data_mutex]).
    { destruct (negb (NtUserGetAncestor h =? NULL)
                && negb (NtUserGetAncestor h =? NtUserGetDesktopWindow)).
      - apply bind_Done in Hneeds as (top & s4 & t7 & t8 & Htop & Hneeds & ->).
        apply get_top_parent_silent in Htop as [-> ->].
        pose proof (needs_wayland_surface_locks _ _ _ _ _ _ Hneeds) as Hl.
        apply needs_wayland_surface_silent in Hneeds as [-> _]. auto.
      - injection Hneeds as _ <- <-. auto. }
    destruct Hret as [-> Hret].
    unfold wayland_win_data_release, bind, deref, pure, emit in H. simpl in H.
    injection H as <- <- <-.
    split; [exact Hother|].
    split.
    { intros d0 Hd0. destruct Horigin as [[_ ->]|[Hnone _]]; [reflexivity|congruence]. }
    split.
    { intros Hnone. right. destruct Horigin as [[Hsome _]|[_ ->]]; [congruence|exact Hd]. }
    split; [eauto|].
    rewrite app_assoc.
    eapply lock_discipline_compose; [exact Hlocks|].
    eapply lock_discipline_compose; [exact Hret|]. reflexivity.
Qed.

End PosChanging.

Lemma pos_changing_refuses_witness :
  rb_get (win_data_rb empty_driver) 1 = None /\
  @can_allocate sample_environment 1 = false /\
  WAYLAND_WindowPosChanging 5 1 0 false sample_rect sample_rect sample_rect empty_driver
    = Done false empty_driver [EvLock win_data_mutex; EvUnlock win_data_mutex].
Proof.
  split; [reflexivity|]. split; [reflexivity|].
  apply (@pos_changing_refuses sample_environment 5%nat 1 0 false
           sample_rect sample_rect sample_rect empty_driver); reflexivity.
Defined.

Lemma pos_changing_frame_witness :
  exists st' tr,
    WAYLAND_WindowPosChanging 5 10 0 false sample_rect sample_rect sample_rect empty_driver
      = Done true st' tr /\
    rb_get (win_data_rb st') 10 = Some first_record /\
    lock_discipline [] tr = Some [].
Proof.
  eexists _, _.
  assert (Hrun : WAYLAND_WindowPosChanging 5 10 0 false sample_rect sample_rect sample_rect
                   empty_driver = Done true _ _) by (vm_compute; reflexivity).
  split; [exact Hrun|].
  destruct (@pos_changing_frame sample_environment 5%nat 10 0 false
              sample_rect sample_rect sample_rect empty_driver _ _ _ Hrun)
    as (_ & _ & _ & _ & Hlocks).
  split; [reflexivity|exact Hlocks].
Defined.

(** ** The topology resolver *)

Section TopParent.

Context {env : Environment} {ops : SurfaceOps}.

Lemma nth_ancestor_shift n h :
  nth_ancestor n (NtUserGetAncestor h) = nth_ancestor (S n) h.
Proof. induction n as [|n IH]; simpl; [reflexivity|]. now rewrite IH. Qed.

Lemma is_root_walk parent :
  negb (parent =? NULL) && negb (parent =? NtUserGetDesktopWindow) = negb (is_root parent).
Proof. unfold is_root. now rewrite Bool.negb_orb. Qed.

Lemma top_parent_walk_reaches n : forall fuel cur st,
  (n < fuel)%nat ->
  is_root (NtUserGetAncestor (nth_ancestor n cur)) = true ->
  (forall k, (k < n)%nat -> is_root (NtUserGetAncestor (nth_ancestor k cur)) = false) ->
  top_parent_walk fuel cur st = Done (nth_ancestor n cur) st [].
Proof.
  induction n as [|n IH]; intros fuel cur st Hfuel Hroot Hbelow.
  - destruct fuel as [|fuel]; [lia|]. simpl in *.
    rewrite is_root_walk, Hroot. reflexivity.
  - destruct fuel as [|fuel]; [lia|].
    cbn [top_parent_walk]. rewrite is_root_walk.
    pose proof (Hbelow 0%nat ltac:(lia)) as H0. cbn [nth_ancestor] in H0.
    rewrite H0. cbn [negb].
    rewrite (IH fuel (NtUserGetAncestor cur) st).
    + now rewrite nth_ancestor_shift.
    + lia.
    + now rewrite nth_ancestor_shift.
    + intros k Hk. rewrite nth_ancestor_shift. apply Hbelow. lia.
Qed.

(** X7.  wayland_win_data_get_top_parent walks up to the first window whose
    parent is missing or is the desktop.  When that window is [n] steps above
    the window of the record and the walk has room for [n] steps, the result
    is NULL for [n = 0] (the window is itself at the top) and otherwise what
    the registry holds for that ancestor, which is another window.  The
    driver state is not changed, no mutex is taken and no request or command
    is issued: the walk only asks the window system for parents and for the
    desktop window. *)
Theorem top_parent_is_first_root_ancestor fuel data st n :
  (n < fuel)%nat ->
  is_root (NtUserGetAncestor (nth_ancestor n (hwnd data))) = true ->
  (forall k, (k < n)%nat ->
     is_root (NtUserGetAncestor (nth_ancestor k (hwnd data))) = false) ->
  wayland_win_data_get_top_parent fuel data st =
    Done (match n with
          | O => None
          | S _ => rb_get (win_data_rb st) (nth_ancestor n (hwnd data))
          end) st [] /\
  (n <> O -> nth_ancestor n (hwnd data) <> hwnd data).
Proof.
  intros Hfuel Hroot Hbelow.
  assert (Hne : n <> O -> nth_ancestor n (hwnd data) <> hwnd data).
  { intros Hn Heq. rewrite Heq in Hroot.
    specialize (Hbelow 0%nat). simpl in Hbelow. rewrite Hbelow in Hroot by lia.
    discriminate. }
  split; [|exact Hne].
  unfold wayland_win_data_get_top_parent.
  rewrite (bind_run _ _ _ _ _ _
             (top_parent_walk_reaches n fuel (hwnd data) st Hfuel Hroot Hbelow)).
  destruct n as [|n].
  - simpl. rewrite Z.eqb_refl. reflexivity.
  - destruct (nth_ancestor (S n) (hwnd data) =? hwnd data) eqn:E.
    + apply Z.eqb_eq in E. exfalso. apply Hne; [discriminate|exact E].
    + reflexivity.
Qed.

(** The record wayland_win_data_get_top_parent returns is never the record
    it was asked about. *)
Lemma top_parent_is_another fuel data st pd st' tr :
  wayland_win_data_get_top_parent fuel data st = Done (Some pd) st' tr ->
  (hwnd pd =? hwnd data) = false /\
  rb_get (win_data_rb st) (hwnd pd) = Some pd.
Proof.
  unfold wayland_win_data_get_top_parent. intros H.
  apply bind_Done in H as (cur & s1 & t1 & t2 & Hwalk & H & ->).
  apply top_parent_walk_silent in Hwalk as [-> ->].
  destruct (cur =? hwnd data) eqn:E; [discriminate|].
  unfold wayland_win_data_get_nolock, bind, get_state, pure in H. simpl in H.
  injection H as Hget _ _.
  pose proof (rb_get_hwnd _ _ _ Hget) as Hh. rewrite Hh. auto.
Qed.

End TopParent.

Lemma top_parent_is_first_root_ancestor_witness :
  (1 < 5)%nat /\
  @is_root sample_environment
    (NtUserGetAncestor (@nth_ancestor sample_environment 1 (hwnd child_record))) = true /\
  wayland_win_data_get_top_parent 5 child_record conflict_driver
    = Done (Some (sample_record (Some anchor_surface))) conflict_driver [] /\
  @nth_ancestor sample_environment 1 (hwnd child_record) <> hwnd child_record.
Proof.
  split; [lia|]. split; [reflexivity|].
  destruct (@top_parent_is_first_root_ancestor sample_environment 5%nat child_record
              conflict_driver 1%nat) as [Hrun Hne].
  - lia.
  - reflexivity.
  - intros k Hk. assert (k = 0%nat) as -> by lia. reflexivity.
  - split; [exact Hrun|]. apply Hne. discriminate.
Defined.

(** ** The surface role manager, continued *)

Lemma titles_follow_toplevel_weaken prev tr :
  titles_follow_toplevel None tr = true -> titles_follow_toplevel prev tr = true.
Proof. destruct tr as [|e tr]; simpl; [reflexivity|]. destruct e; auto; discriminate. Qed.

Lemma titles_follow_toplevel_app prev t1 t2 :
  titles_follow_toplevel prev t1 = true ->
  titles_follow_toplevel None t2 = true ->
  titles_follow_toplevel prev (t1 ++ t2) = true.
Proof.
  revert prev. induction t1 as [|e t1 IH]; simpl; intros prev H1 H2.
  - now apply titles_follow_toplevel_weaken.
  - destruct e; auto.
    destruct prev as [h'|]; [|discriminate].
    apply Bool.andb_true_iff in H1 as [Hh Hrest]. rewrite Hh. simpl. auto.
Qed.

Section RoleManagerTraces.

Context {env : Environment} {ops : SurfaceOps}.

(** A property of traces that holds of the pieces of
    wayland_win_data_update_wayland_surface and is kept by concatenation
    holds of every completed run. *)
Lemma update_wayland_surface_traces (P : list event -> Prop) :
  P [] ->
  (forall a b, P a -> P b -> P (a ++ b)) ->
  (forall c, P [EvClientRelease c]) ->
  (forall fuel data flags st r st' tr,
     update_wayland_surface_body fuel data flags st = Done r st' tr -> P tr) ->
  (forall h st r st' tr,
     wayland_win_data_update_wayland_state h st = Done r st' tr -> P tr) ->
  forall fuel h flags st st' tr,
    wayland_win_data_update_wayland_surface fuel h flags st = Done tt st' tr -> P tr.
Proof.
  intros Hnil Happ Hrelease Hbody Hstate.
  induction fuel as [|fuel IH]; intros h flags st st' tr H; [discriminate|].
  cbn [wayland_win_data_update_wayland_surface] in H.
  apply bind_Done in H as (data & s1 & t1 & t2 & Hload & H & ->).
  apply load_data_silent in Hload as (-> & -> & _).
  apply bind_Done in H as (r & s2 & t3 & t4 & Hb & H & ->).
  apply Hbody in Hb.
  destruct r as [[surface client] surface_changed].
  apply bind_Done in H as (u & s3 & t5 & t6 & Hstore & H & ->).
  apply store_data_silent in Hstore as ->.
  apply bind_Done in H as (u' & s4 & t7 & t8 & Hrel & H & ->).
  assert (Hrel' : P t7).
  { destruct client; injection Hrel as _ _ <-; auto. }
  simpl. apply Happ; [exact Hb|]. apply Happ; [exact Hrel'|].
  destruct (negb (test flags UWS_NO_UPDATE_CHILDREN)).
  2: { injection H as _ <-. exact Hnil. }
  apply bind_Done in H as (s5 & s6 & t9 & t10 & Hget & H & ->).
  injection Hget as <- <- <-. simpl.
  revert H. generalize (handles (win_data_rb s4)) as l. generalize s4 as s.
  clear - IH Hnil Happ Hstate.
  intros s l. revert s st' t10.
  induction l as [|wh l IHl]; simpl; intros s st' tr H.
  - injection H as _ <-. exact Hnil.
  - apply bind_Done in H as (u & s1 & t1 & t2 & Hx & Hrest & ->).
    apply Happ; [|eapply IHl; exact Hrest].
    apply bind_Done in Hx as (wwd & s2 & t3 & t4 & Hload & Hx & ->).
    apply load_data_silent in Hload as (-> & -> & _). simpl.
    destruct (is_some (wayland_surface_of wwd) && NtUserIsChild h wh).
    2: { injection Hx as _ _ <-. exact Hnil. }
    apply bind_Done in Hx as (u2 & s3 & t5 & t6 & Hrec & Hx & ->).
    destruct u2. apply IH in Hrec.
    apply bind_Done in Hx as (wwd' & s4 & t7 & t8 & Hload & Hx & ->).
    apply load_data_silent in Hload as (-> & -> & _). simpl.
    apply Happ; [exact Hrec|].
    destruct (is_some (wayland_surface_of wwd')); simpl in Hx.
    + eapply Hstate; exact Hx.
    + injection Hx as _ _ <-. exact Hnil.
Qed.

Lemma top_parent_walk_root fuel : forall cur st r st' tr,
  top_parent_walk fuel cur st = Done r st' tr ->
  is_root (NtUserGetAncestor r) = true.
Proof.
  induction fuel as [|n IH]; simpl; intros cur st r st' tr; [discriminate|].
  rewrite is_root_walk.
  destruct (is_root (NtUserGetAncestor cur)) eqn:E; simpl; [|apply IH].
  intros [= <- _ _]. exact E.
Qed.

Lemma top_parent_is_root fuel data st pd st' tr :
  wayland_win_data_get_top_parent fuel data st = Done (Some pd) st' tr ->
  is_root (NtUserGetAncestor (hwnd pd)) = true.
Proof.
  unfold wayland_win_data_get_top_parent. intros H.
  apply bind_Done in H as (cur & s1 & t1 & t2 & Hwalk & H & ->).
  pose proof (top_parent_walk_root _ _ _ _ _ _ Hwalk) as Hroot.
  apply top_parent_walk_silent in Hwalk as [-> ->].
  destruct (cur =? hwnd data) eqn:E; [discriminate|].
  unfold wayland_win_data_get_nolock, bind, get_state, pure in H. simpl in H.
  injection H as Hget _ _.
  now rewrite (rb_get_hwnd _ _ _ Hget).
Qed.

Lemma reapply_cursor_clipping_quiet st r st' tr :
  reapply_cursor_clipping st = Done r st' tr ->
  (forall held, lock_discipline held tr = Some held) /\
  forallb role_target_ok tr = true /\
  titles_follow_toplevel None tr = true /\
  st' = st.
Proof.
  unfold reapply_cursor_clipping, NtUserSetThreadDpiAwarenessContext, bind, get_state,
    put_state, pure, emit.
  simpl. destruct NtUserGetClipCursor; simpl; intros [= _ <- <-];
    (repeat split; [destruct st; reflexivity]).
Qed.

Lemma wanted_role_visible h parent_data :
  role_set (wanted_role h parent_data) = true -> NtUserIsWindowVisible h = true.
Proof. unfold wanted_role. destruct (NtUserIsWindowVisible h); [reflexivity|discriminate]. Qed.

Lemma body_locks fuel data flags st r st' tr :
  update_wayland_surface_body fuel data flags st = Done r st' tr ->
  lock_discipline [win_data_mutex] tr = Some [win_data_mutex].
Proof.
  unfold update_wayland_surface_body. intros H.
  apply bind_Done in H as (parent_data & s1 & t1 & t2 & Htp & H & ->).
  pose proof Htp as Htp'. apply get_top_parent_silent in Htp' as [-> ->].
  apply bind_Done in H as (needs & s2 & t3 & t4 & Hneeds & H & ->).
  pose proof (needs_wayland_surface_locks _ _ _ _ _ _ Hneeds) as Hl.
  apply needs_wayland_surface_silent in Hneeds as [-> _].
  rewrite app_nil_l, lock_discipline_app, Hl. clear Hl t3.
  crunch H.
  all: injection H as <- <- <-.
  all: try (apply top_parent_is_another in Htp as [Hne _]).
  all: repeat match goal with
         | E : reapply_cursor_clipping _ = Done _ _ ?t |- _ =>
             apply reapply_cursor_clipping_quiet in E as (E & _)
         end.
  all: simpl; rewrite ?Z.eqb_refl; simpl; rewrite ?Hne; simpl;
    rewrite ?lock_discipline_app;
    repeat match goal with
           | E : forall held, lock_discipline held ?t = Some held |- _ => rewrite E; clear E
           end;
    simpl; rewrite ?Z.eqb_refl; reflexivity.
Qed.

Lemma body_role_targets fuel data flags st r st' tr :
  update_wayland_surface_body fuel data flags st = Done r st' tr ->
  forallb role_target_ok tr = true.
Proof.
  unfold update_wayland_surface_body. intros H.
  apply bind_Done in H as (parent_data & s1 & t1 & t2 & Htp & H & ->).
  pose proof Htp as Htp'. apply get_top_parent_silent in Htp' as [-> ->].
  apply bind_Done in H as (needs & s2 & t3 & t4 & Hneeds & H & ->).
  assert (Hn : forallb role_target_ok t3 = true).
  { clear H. unfold wayland_win_data_needs_wayland_surface in Hneeds.
    crunch Hneeds; injection Hneeds as <- <- <-; reflexivity. }
  apply needs_wayland_surface_silent in Hneeds as [-> _].
  rewrite app_nil_l, forallb_app, Hn. clear Hn t3. simpl.
  crunch H.
  all: injection H as <- <- <-.
  all: repeat match goal with
         | E : reapply_cursor_clipping _ = Done _ _ ?t |- _ =>
             apply reapply_cursor_clipping_quiet in E as (_ & E & _)
         | E : wanted_role ?h ?p = WAYLAND_SURFACE_ROLE_TOPLEVEL |- _ =>
             let V := fresh "Hvis" in
             assert (V := wanted_role_visible h p);
             rewrite E in V; specialize (V eq_refl); clear E
         | E : wanted_role ?h ?p = WAYLAND_SURFACE_ROLE_SUBSURFACE |- _ =>
             let V := fresh "Hvis" in
             assert (V := wanted_role_visible h p);
             rewrite E in V; specialize (V eq_refl); clear E
         end.
  all: try (pose proof (top_parent_is_root _ _ _ _ _ _ Htp) as Hroot;
            apply top_parent_is_another in Htp as [Hne _]).
  all: simpl; rewrite ?forallb_app; simpl;
    repeat match goal with
           | E : forallb role_target_ok ?t = true |- _ => rewrite E; clear E
           end;
    simpl; rewrite ?Hvis, ?Hne, ?Hroot; reflexivity.
Qed.

Lemma body_titles fuel data flags st r st' tr :
  update_wayland_surface_body fuel data flags st = Done r st' tr ->
  titles_follow_toplevel None tr = true.
Proof.
  unfold update_wayland_surface_body. intros H.
  apply bind_Done in H as (parent_data & s1 & t1 & t2 & Htp & H & ->).
  apply get_top_parent_silent in Htp as [-> ->].
  apply bind_Done in H as (needs & s2 & t3 & t4 & Hneeds & H & ->).
  assert (Hn : titles_follow_toplevel None t3 = true).
  { clear H. unfold wayland_win_data_needs_wayland_surface in Hneeds.
    crunch Hneeds; injection Hneeds as <- <- <-; reflexivity. }
  apply needs_wayland_surface_silent in Hneeds as [-> _].
  rewrite app_nil_l. apply titles_follow_toplevel_app; [exact Hn|]. clear Hn t3.
  crunch H.
  all: injection H as <- <- <-.
  all: repeat match goal with
         | E : reapply_cursor_clipping _ = Done _ _ ?t |- _ =>
             apply reapply_cursor_clipping_quiet in E as (_ & _ & E & _)
         end.
  all: simpl; rewrite ?Z.eqb_refl; simpl;
    repeat match goal with
           | E : titles_follow_toplevel None ?t = true |- _ =>
               rewrite (titles_follow_toplevel_app None t [] E eq_refl); clear E
           end;
    reflexivity.
Qed.

Lemma update_wayland_state_quiet h st r st' tr :
  wayland_win_data_update_wayland_state h st = Done r st' tr ->
  lock_discipline [win_data_mutex] tr = Some [win_data_mutex] /\
  forallb role_target_ok tr = true /\
  titles_follow_toplevel None tr = true.
Proof.
  unfold wayland_win_data_update_wayland_state, store_surface, load_data, store_data.
  intros H. crunch H; injection H as <- <- <-; simpl; rewrite ?Z.eqb_refl; auto.
Qed.

(** X8.  wayland_win_data_update_wayland_surface, which runs with the
    registry lock held, keeps the lock discipline over the whole refresh of
    the window and of its children: it never locks a mutex it holds (the
    registry lock among them; the anchor's mutex it takes inside the window's
    own is that of another window), it unlocks only what it holds, and it
    returns holding the registry lock alone. *)
Theorem role_manager_lock_discipline fuel h flags st st' tr :
  wayland_win_data_update_wayland_surface fuel h flags st = Done tt st' tr ->
  lock_discipline [win_data_mutex] tr = Some [win_data_mutex].
Proof.
  apply (update_wayland_surface_traces
           (fun tr => lock_discipline [win_data_mutex] tr = Some [win_data_mutex])).
  - reflexivity.
  - intros a b Ha Hb. eapply lock_discipline_compose; eauto.
  - reflexivity.
  - apply body_locks.
  - intros h0 s r s' t H. apply (update_wayland_state_quiet _ _ _ _ _ H).
Qed.

(** X9.  Every role that wayland_win_data_update_wayland_surface gives goes
    to a visible window, and every sub-surface is put under another window,
    one whose parent is missing or is the desktop. *)
Theorem roles_go_to_visible_windows fuel h flags st st' tr :
  wayland_win_data_update_wayland_surface fuel h flags st = Done tt st' tr ->
  forallb role_target_ok tr = true.
Proof.
  apply (update_wayland_surface_traces (fun tr => forallb role_target_ok tr = true)).
  - reflexivity.
  - intros a b Ha Hb. now rewrite forallb_app, Ha, Hb.
  - reflexivity.
  - apply body_role_targets.
  - intros h0 s r s' t H. apply (update_wayland_state_quiet _ _ _ _ _ H).
Qed.

(** X10.  wayland_win_data_update_wayland_surface sets a title only right
    after it gave the toplevel role to the same window. *)
Theorem titles_only_on_toplevels fuel h flags st st' tr :
  wayland_win_data_update_wayland_surface fuel h flags st = Done tt st' tr ->
  titles_follow_toplevel None tr = true.
Proof.
  apply (update_wayland_surface_traces (fun tr => titles_follow_toplevel None tr = true)).
  - reflexivity.
  - intros a b. apply titles_follow_toplevel_app.
  - reflexivity.
  - apply body_titles.
  - intros h0 s r s' t H. apply (update_wayland_state_quiet _ _ _ _ _ H).
Qed.

End RoleManagerTraces.

Lemma role_manager_lock_discipline_witness :
  exists st' tr,
    wayland_win_data_update_wayland_surface 5 20 0 conflict_driver = Done tt st' tr /\
    lock_discipline [win_data_mutex] tr = Some [win_data_mutex].
Proof.
  eexists _, _.
  assert (Hrun : wayland_win_data_update_wayland_surface 5 20 0 conflict_driver
                 = Done tt _ _) by (vm_compute; reflexivity).
  split; [exact Hrun|].
  exact (@role_manager_lock_discipline sample_environment reference_surface_ops
           5%nat 20 0 conflict_driver _ _ Hrun).
Defined.

Lemma roles_go_to_visible_windows_witness :
  exists st' tr,
    wayland_win_data_update_wayland_surface 5 20 0 conflict_driver = Done tt st' tr /\
    In (EvMakeSubsurface 20 10) tr /\
    forallb (@role_target_ok sample_environment) tr = true.
Proof.
  eexists _, _.
  assert (Hrun : wayland_win_data_update_wayland_surface 5 20 0 conflict_driver
                 = Done tt _ _) by (vm_compute; reflexivity).
  split; [exact Hrun|]. split; [do 11 right; left; reflexivity|].
  exact (@roles_go_to_visible_windows sample_environment reference_surface_ops
           5%nat 20 0 conflict_driver _ _ Hrun).
Defined.

Lemma titles_only_on_toplevels_witness :
  exists st' tr,
    wayland_win_data_update_wayland_surface 5 10 0 bare_driver = Done tt st' tr /\
    In (EvSetTitle 10 "window") tr /\
    titles_follow_toplevel None tr = true.
Proof.
  eexists _, _.
  assert (Hrun : wayland_win_data_update_wayland_surface 5 10 0 bare_driver
                 = Done tt _ _) by (vm_compute; reflexivity).
  split; [exact Hrun|]. split; [do 3 right; left; reflexivity|].
  exact (@titles_only_on_toplevels sample_environment reference_surface_ops
           5%nat 10 0 bare_driver _ _ Hrun).
Defined.

(** ** What the role manager leaves alone *)

Lemma same_windows_refl st : same_windows st st.
Proof. repeat split. Qed.

Lemma same_windows_trans st1 st2 st3 :
  same_windows st1 st2 -> same_windows st2 st3 -> same_windows st1 st3.
Proof. intros (A & B & C) (D & E & F). repeat split; congruence. Qed.

Lemma strip_store tree d d0 :
  rb_get tree (hwnd d) = Some d0 ->
  strip d = strip d0 ->
  map strip (rb_store tree d) = map strip tree.
Proof.
  intros Hget Hstrip. induction tree as [|e rest IH]; simpl in *; [reflexivity|].
  destruct (wayland_win_data_cmp_rb (hwnd d) e =? 0); simpl.
  - injection Hget as ->. now rewrite Hstrip.
  - now rewrite IH.
Qed.

Lemma handles_strip tree : handles tree = map hwnd (map strip tree).
Proof. unfold handles. rewrite map_map. reflexivity. Qed.

Lemma well_formed_handles tree : forall tree',
  handles tree' = handles tree -> well_formed tree -> well_formed tree'.
Proof.
  unfold handles.
  induction tree as [|e rest IH]; intros [|e' rest'] Heq Hwf; simpl in *;
    try discriminate; [constructor|].
  injection Heq as He Hrest.
  inversion Hwf as [|a l Hall Hwf']; subst a l.
  constructor; [|now apply IH].
  assert (Hz : Forall (fun z => hwnd e < z) (map hwnd rest)).
  { rewrite Forall_map. exact Hall. }
  rewrite <- Hrest, Forall_map, <- He in Hz. exact Hz.
Qed.

Section RoleManagerFrame.

Context {env : Environment} {ops : SurfaceOps}.

Lemma store_data_same st data s r st' tr :
  rb_get (win_data_rb st) (hwnd data) = Some data ->
  store_data (set_wayland_surface data s) st = Done r st' tr ->
  same_windows st st'.
Proof.
  unfold store_data, bind, get_state, put_state. simpl. intros Hget [= _ <- _].
  split; [|split; reflexivity]. simpl.
  apply (strip_store _ _ data); [exact Hget|reflexivity].
Qed.

Lemma body_state fuel data flags st r st' tr :
  update_wayland_surface_body fuel data flags st = Done r st' tr -> st' = st.
Proof.
  unfold update_wayland_surface_body. intros H.
  apply bind_Done in H as (parent_data & s1 & t1 & t2 & Htp & H & ->).
  apply get_top_parent_silent in Htp as [-> ->].
  apply bind_Done in H as (needs & s2 & t3 & t4 & Hneeds & H & ->).
  apply needs_wayland_surface_silent in Hneeds as [-> _].
  crunch H.
  all: injection H as <- <- <-.
  all: repeat match goal with
         | E : reapply_cursor_clipping _ = Done _ _ ?t |- _ =>
             apply reapply_cursor_clipping_quiet in E as (_ & _ & _ & E)
         end.
  all: congruence.
Qed.

Lemma update_wayland_state_same h st r st' tr :
  wayland_win_data_update_wayland_state h st = Done r st' tr -> same_windows st st'.
Proof.
  unfold wayland_win_data_update_wayland_state. intros H.
  apply bind_Done in H as (data & s1 & t1 & t2 & Hload & H & ->).
  apply load_data_silent in Hload as (-> & -> & Hget).
  pose proof (rb_get_hwnd _ _ _ Hget) as Hh.
  assert (Hstore : forall s u s' t,
             store_surface h s st = Done u s' t -> same_windows st s').
  { intros s u s' t Hs. unfold store_surface in Hs.
    apply bind_Done in Hs as (d & s2 & t3 & t4 & Hload & Hs & ->).
    apply load_data_silent in Hload as (-> & -> & Hget').
    rewrite Hget in Hget'. injection Hget' as <-.
    eapply store_data_same; [|exact Hs]. now rewrite Hh. }
  apply bind_Done in H as (surface & s2 & t3 & t4 & Hd & H & ->).
  assert (s2 = st) as ->
      by (unfold deref in Hd; destruct (wayland_surface_of data);
          [unfold pure in Hd; congruence|discriminate]).
  apply bind_Done in H as (u1 & s3 & t5 & t6 & Hl & H & ->).
  assert (s3 = st) as -> by (unfold emit in Hl; congruence).
  apply bind_Done in H as (u2 & s4 & t7 & t8 & Hmid & H & ->).
  apply bind_Done in H as (u3 & s5 & t9 & t10 & Hu & H & ->).
  assert (s5 = s4) as -> by (unfold emit in Hu; congruence).
  assert (st' = s4) as -> by (unfold emit in H; congruence).
  clear - Hmid Hstore.
  destruct (wl_subsurface surface); [eapply Hstore; exact Hmid|].
  destruct (negb (xdg_toplevel surface)).
  { assert (s4 = st) as -> by (unfold pure in Hmid; congruence).
    apply same_windows_refl. }
  cbv zeta in Hmid.
  destruct (negb (negb (serial (processing surface) =? 0)
                  && negb (processed (processing surface))));
    [|eapply Hstore; exact Hmid].
  crunch Hmid; injection Hmid as _ <- _; apply same_windows_refl.
Qed.

Lemma update_wayland_surface_same fuel :
  forall h flags st st' tr,
    wayland_win_data_update_wayland_surface fuel h flags st = Done tt st' tr ->
    same_windows st st'.
Proof.
  induction fuel as [|fuel IH]; intros h flags st st' tr H; [discriminate|].
  cbn [wayland_win_data_update_wayland_surface] in H.
  apply bind_Done in H as (data & s1 & t1 & t2 & Hload & H & ->).
  apply load_data_silent in Hload as (-> & -> & Hget).
  apply bind_Done in H as (r & s2 & t3 & t4 & Hb & H & ->).
  apply body_state in Hb as ->.
  destruct r as [[surface client] surface_changed].
  apply bind_Done in H as (u & s3 & t5 & t6 & Hstore & H & ->).
  apply store_data_same in Hstore; [|now rewrite (rb_get_hwnd _ _ _ Hget)].
  apply (same_windows_trans _ _ _ Hstore). clear Hstore Hget.
  apply bind_Done in H as (u' & s4 & t7 & t8 & Hrel & H & ->).
  assert (s4 = s3) as -> by (destruct client; unfold emit, pure in Hrel; congruence).
  destruct (negb (test flags UWS_NO_UPDATE_CHILDREN)).
  2: { assert (st' = s3) as -> by (unfold pure in H; congruence).
       apply same_windows_refl. }
  cbv zeta in H.
  apply bind_Done in H as (s5 & s6 & t9 & t10 & Hgs & H & ->).
  assert (s6 = s3) as -> by (unfold get_state in Hgs; congruence).
  revert H. generalize (handles (win_data_rb s5)) as l.
  clear - IH. intros l. revert s3 st' t10.
  induction l as [|wh l IHl]; cbn [for_each]; intros s st' tr H.
  - assert (st' = s) as -> by (unfold pure in H; congruence).
    apply same_windows_refl.
  - apply bind_Done in H as (u & s1 & t1 & t2 & Hx & Hrest & ->).
    apply (same_windows_trans _ s1); [|eapply IHl; exact Hrest].
    apply bind_Done in Hx as (wwd & s2 & t3 & t4 & Hload & Hx & ->).
    apply load_data_silent in Hload as (-> & -> & _).
    destruct (is_some (wayland_surface_of wwd) && NtUserIsChild h wh).
    2: { assert (s1 = s) as -> by (unfold pure in Hx; congruence).
         apply same_windows_refl. }
    apply bind_Done in Hx as (u2 & s3 & t5 & t6 & Hrec & Hx & ->).
    destruct u2. apply IH in Hrec.
    apply (same_windows_trans _ _ _ Hrec).
    apply bind_Done in Hx as (wwd' & s4 & t7 & t8 & Hload & Hx & ->).
    apply load_data_silent in Hload as (-> & -> & _).
    unfold when in Hx. destruct (is_some (wayland_surface_of wwd')).
    + eapply update_wayland_state_same; exact Hx.
    + assert (s1 = s3) as -> by (unfold pure in Hx; congruence).
      apply same_windows_refl.
Qed.

(** X11.  wayland_win_data_update_wayland_surface changes nothing but the
    surfaces of the records: it adds, removes and reorders no record, leaves
    the rectangles, the managed flag and the window surface of every record
    and the pointer and seat state as they were, and keeps a well-formed
    registry well formed. *)
Theorem role_manager_frame fuel h flags st st' tr :
  wayland_win_data_update_wayland_surface fuel h flags st = Done tt st' tr ->
  same_windows st st' /\
  handles (win_data_rb st') = handles (win_data_rb st) /\
  (well_formed (win_data_rb st) -> well_formed (win_data_rb st')).
Proof.
  intros H. apply update_wayland_surface_same in H.
  assert (Hh : handles (win_data_rb st') = handles (win_data_rb st)).
  { rewrite (handles_strip (win_data_rb st')), (handles_strip (win_data_rb st)).
    destruct H as [-> _]. reflexivity. }
  split; [exact H|]. split; [exact Hh|].
  apply well_formed_handles. exact Hh.
Qed.

End RoleManagerFrame.

Lemma role_manager_frame_witness :
  exists st' tr,
    wayland_win_data_update_wayland_surface 5 20 0 conflict_driver = Done tt st' tr /\
    same_windows conflict_driver st' /\
    handles (win_data_rb st') = [10; 20].
Proof.
  eexists _, _.
  assert (Hrun : wayland_win_data_update_wayland_surface 5 20 0 conflict_driver
                 = Done tt _ _) by (vm_compute; reflexivity).
  split; [exact Hrun|].
  destruct (@role_manager_frame sample_environment reference_surface_ops
              5%nat 20 0 conflict_driver _ _ Hrun) as (Hsame & Hh & _).
  split; [exact Hsame|exact Hh].
Defined.

(** ** Requests are made under the mutex of their surface *)

Lemma guarded_app held t1 t2 held1 :
  lock_discipline held t1 = Some held1 ->
  guarded held (t1 ++ t2) = guarded held t1 && guarded held1 t2.
Proof.
  revert held. induction t1 as [|e t1 IH]; intros held H; simpl in H.
  - injection H as <-. reflexivity.
  - destruct e; cbn [app guarded];
      try (rewrite (IH _ H), Bool.andb_assoc; reflexivity).
    + destruct (holds held m); [discriminate|].
      destruct (mutex_eqb m win_data_mutex && existsb is_surface_mutex held);
        [discriminate|].
      apply IH. exact H.
    + destruct (holds held m); [|discriminate]. apply IH. exact H.
Qed.

Section GuardedRequests.

Context {env : Environment} {ops : SurfaceOps}.

Lemma reapply_cursor_clipping_trace st r st' tr :
  reapply_cursor_clipping st = Done r st' tr ->
  tr = [] \/ exists rect, tr = [EvClipCursor rect].
Proof.
  unfold reapply_cursor_clipping, NtUserSetThreadDpiAwarenessContext, bind, get_state,
    put_state, pure, emit.
  simpl. destruct NtUserGetClipCursor; simpl; intros [= _ _ <-]; eauto.
Qed.

Lemma body_guarded fuel data flags st r st' tr :
  update_wayland_surface_body fuel data flags st = Done r st' tr ->
  guarded [win_data_mutex] tr = true.
Proof.
  unfold update_wayland_surface_body. intros H.
  apply bind_Done in H as (parent_data & s1 & t1 & t2 & Htp & H & ->).
  apply get_top_parent_silent in Htp as [-> ->].
  apply bind_Done in H as (needs & s2 & t3 & t4 & Hneeds & H & ->).
  pose proof (needs_wayland_surface_locks _ _ _ _ _ _ Hneeds) as Hl.
  assert (Hn : guarded [win_data_mutex] t3 = true).
  { clear H Hl. unfold wayland_win_data_needs_wayland_surface in Hneeds.
    crunch Hneeds; injection Hneeds as <- <- <-; reflexivity. }
  apply needs_wayland_surface_silent in Hneeds as [-> _].
  rewrite app_nil_l, (guarded_app _ _ _ _ Hl), Hn. clear Hl Hn t3.
  crunch H.
  all: injection H as <- <- <-.
  all: repeat match goal with
         | E : reapply_cursor_clipping _ = Done _ _ ?t |- _ =>
             apply reapply_cursor_clipping_trace in E as [-> | [? ->]]
         end.
  all: repeat (simpl; rewrite ?Z.eqb_refl, ?Bool.orb_true_r); reflexivity.
Qed.

Lemma update_wayland_state_guarded h st r st' tr :
  wayland_win_data_update_wayland_state h st = Done r st' tr ->
  guarded [win_data_mutex] tr = true.
Proof.
  unfold wayland_win_data_update_wayland_state, store_surface, load_data, store_data.
  intros H.
  crunch H; injection H as <- <- <-; repeat (simpl; rewrite ?Z.eqb_refl); reflexivity.
Qed.

(** X12.  Requests on a surface are made under its mutex.  In a completed run
    of wayland_win_data_update_wayland_surface (window and children), of
    wayland_win_data_update_wayland_state, of WAYLAND_SysCommand and of
    WAYLAND_SetWindowText, every role, title, client and state request names a
    surface whose mutex the thread holds at that moment; a sub-surface is
    made with the mutex of its anchor held too, and a move or resize with the
    seat mutex held too. *)
Theorem surface_requests_hold_the_mutex :
  (forall fuel h flags st st' tr,
     wayland_win_data_update_wayland_surface fuel h flags st = Done tt st' tr ->
     guarded [win_data_mutex] tr = true) /\
  (forall h st st' tr,
     wayland_win_data_update_wayland_state h st = Done tt st' tr ->
     guarded [win_data_mutex] tr = true) /\
  (forall h wparam lparam st r st' tr,
     WAYLAND_SysCommand h wparam lparam st = Done r st' tr ->
     guarded [] tr = true) /\
  (forall h text st st' tr,
     WAYLAND_SetWindowText h text st = Done tt st' tr ->
     guarded [] tr = true).
Proof.
  split; [|split; [|split]].
  - intros fuel h flags st st' tr H.
    apply (update_wayland_surface_traces
             (fun tr => lock_discipline [win_data_mutex] tr = Some [win_data_mutex] /\
                        guarded [win_data_mutex] tr = true)) in H; [apply H|..].
    + split; reflexivity.
    + intros a b [La Ga] [Lb Gb]. split.
      * eapply lock_discipline_compose; eauto.
      * now rewrite (guarded_app _ _ _ _ La), Ga, Gb.
    + split; reflexivity.
    + intros fuel0 data flags0 s r s' t Hb. split.
      * eapply body_locks; exact Hb.
      * eapply body_guarded; exact Hb.
    + intros h0 s r s' t Hs. split.
      * apply (update_wayland_state_quiet _ _ _ _ _ Hs).
      * eapply update_wayland_state_guarded; exact Hs.
  - intros h st st' tr H. eapply update_wayland_state_guarded; exact H.
  - intros h wparam lparam st r st' tr H.
    unfold WAYLAND_SysCommand, wayland_surface_lock_hwnd, wayland_win_data_get,
      wayland_win_data_get_nolock, wayland_win_data_release in H.
    crunch H; absurd_branch; injection H as <- <- <-;
      repeat (simpl; rewrite ?Z.eqb_refl, ?Bool.orb_true_r); reflexivity.
  - intros h text st st' tr H.
    unfold WAYLAND_SetWindowText, wayland_surface_lock_hwnd, wayland_win_data_get,
      wayland_win_data_get_nolock, wayland_win_data_release in H.
    crunch H; absurd_branch; injection H as <- <-;
      repeat (simpl; rewrite ?Z.eqb_refl, ?Bool.orb_true_r); reflexivity.
Qed.

End GuardedRequests.

Lemma surface_requests_hold_the_mutex_witness :
  exists st' tr,
    wayland_win_data_update_wayland_surface 5 20 0 conflict_driver = Done tt st' tr /\
    In (EvMakeSubsurface 20 10) tr /\
    guarded [win_data_mutex] tr = true.
Proof.
  eexists _, _.
  assert (Hrun : wayland_win_data_update_wayland_surface 5 20 0 conflict_driver
                 = Done tt _ _) by (vm_compute; reflexivity).
  split; [exact Hrun|]. split; [do 11 right; left; reflexivity|].
  exact (proj1 (@surface_requests_hold_the_mutex sample_environment reference_surface_ops)
           5%nat 20 0 conflict_driver _ _ Hrun).
Defined.

(** ** WAYLAND_SysCommand, WAYLAND_SetWindowText, wayland_surface_lock_hwnd *)

Lemma is_move_or_size_test wparam :
  is_move_or_size wparam <->
  (Z.land wparam 0xfff0 =? SC_MOVE) || (Z.land wparam 0xfff0 =? SC_SIZE) = true.
Proof.
  unfold is_move_or_size. rewrite Bool.orb_true_iff, !Z.eqb_eq. reflexivity.
Qed.

Lemma has_surface_at st h : has_surface st h <-> surface_at st h <> None.
Proof.
  unfold has_surface, surface_at. split.
  - intros (d & s & -> & ->). discriminate.
  - destruct (rb_get (win_data_rb st) h) as [d|]; [|congruence].
    destruct (wayland_surface_of d) as [s|] eqn:E; [|congruence].
    intros _. eauto.
Qed.

Lemma syscommand_other st h wparam lparam :
  ~ is_move_or_size wparam ->
  WAYLAND_SysCommand h wparam lparam st =
    Done (-1) st [EvLock pointer_mutex; EvUnlock pointer_mutex; EvDisplayFlush].
Proof.
  intros Hcmd. rewrite is_move_or_size_test in Hcmd.
  apply Bool.not_true_is_false in Hcmd.
  unfold WAYLAND_SysCommand, bind, emit, get_state, pure. simpl in *.
  rewrite Hcmd. reflexivity.
Qed.

Lemma syscommand_no_surface st h wparam lparam :
  is_move_or_size wparam ->
  surface_at st h = None ->
  WAYLAND_SysCommand h wparam lparam st =
    Done (-1) st [EvLock pointer_mutex; EvUnlock pointer_mutex;
                  EvLock win_data_mutex; EvUnlock win_data_mutex; EvDisplayFlush].
Proof.
  intros Hcmd Hnone. rewrite is_move_or_size_test in Hcmd.
  unfold WAYLAND_SysCommand.
  unfold bind at 1. unfold emit at 1. unfold bind at 1. unfold get_state at 1.
  unfold bind at 1. unfold emit at 1. unfold bind at 1.
  simpl in Hcmd. rewrite Hcmd.
  unfold surface_at in Hnone.
  destruct (rb_get (win_data_rb st) h) as [data|] eqn:Hget.
  - rewrite (bind_run _ _ _ _ _ _ (lock_hwnd_no_surface st h data Hget Hnone)).
    reflexivity.
  - rewrite (bind_run _ _ _ _ _ _ (lock_hwnd_no_record st h Hget)). reflexivity.
Qed.

Lemma syscommand_surface st h wparam lparam surface :
  is_move_or_size wparam ->
  surface_at st h = Some surface ->
  WAYLAND_SysCommand h wparam lparam st =
    Done 0 st
      ([EvLock pointer_mutex; EvUnlock pointer_mutex]
       ++ lock_events h ++ [EvLock seat_mutex]
       ++ match seat_wl_seat (process_wayland st) with
          | Some seat =>
              if xdg_toplevel surface && negb (effective_button_serial st h =? 0)
              then [move_resize_request h wparam seat (effective_button_serial st h)]
              else []
          | None => []
          end
       ++ [EvUnlock seat_mutex; EvUnlock (surface_mutex h); EvDisplayFlush]).
Proof.
  intros Hcmd Hsome. pose proof Hcmd as Hc. rewrite is_move_or_size_test in Hc.
  unfold WAYLAND_SysCommand.
  unfold bind at 1. unfold emit at 1. unfold bind at 1. unfold get_state at 1.
  unfold bind at 1. unfold emit at 1. unfold bind at 1.
  simpl in Hc. rewrite Hc.
  unfold surface_at in Hsome.
  destruct (rb_get (win_data_rb st) h) as [data|] eqn:Hget; [|discriminate].
  rewrite (bind_run _ _ _ _ _ _ (lock_hwnd_surface st h data surface Hget Hsome)).
  unfold effective_button_serial, move_resize_request, bind, emit, get_state, pure.
  simpl.
  destruct (seat_wl_seat (process_wayland st)) as [seat|]; simpl; [|reflexivity].
  destruct (xdg_toplevel surface
            && negb ((if focused_hwnd (pointer (process_wayland st)) =? h
                      then button_serial (pointer (process_wayland st)) else 0) =? 0));
    simpl; [|reflexivity].
  destruct (Z.land wparam 65520 =? SC_MOVE) eqn:Em; simpl; [reflexivity|].
  destruct Hcmd as [Hm|Hsz].
  - exfalso. apply Z.eqb_neq in Em. apply Em. exact Hm.
  - rewrite Hsz. reflexivity.
Qed.

(** X13.  A move or size command for a window with a top-level surface,
    while the pointer is on the window with a button serial and a seat is
    known, is answered 0 and makes exactly one request: the interactive move
    for SC_MOVE, otherwise the interactive resize with the edge decoded from
    the low four bits of the command, each with the seat and the serial of
    the button press.  Nothing in the driver state changes. *)
Theorem syscommand_with_serial st h wparam lparam surface seat :
  is_move_or_size wparam ->
  effective_button_serial st h <> 0 ->
  surface_at st h = Some surface ->
  xdg_toplevel surface = true ->
  seat_wl_seat (process_wayland st) = Some seat ->
  exists tr,
    WAYLAND_SysCommand h wparam lparam st = Done 0 st tr /\
    filter is_move_resize tr =
      [if Z.land wparam 0xfff0 =? SC_MOVE
       then EvMove h seat (effective_button_serial st h)
       else EvResize h seat (effective_button_serial st h)
                     (hittest_to_resize_edge (Z.land wparam 0x0f))].
Proof.
  intros Hcmd Hserial Hs Htop Hseat.
  eexists. split; [apply (syscommand_surface st h wparam lparam surface Hcmd Hs)|].
  rewrite Hseat, Htop.
  apply Z.eqb_neq in Hserial. rewrite Hserial. simpl.
  unfold move_resize_request.
  destruct (Z.land wparam 65520 =? SC_MOVE); reflexivity.
Qed.

(** X14.  WAYLAND_SysCommand always completes, leaves the driver state as it
    was and ends by flushing the display.  Its answer is 0 exactly for a move
    or size command on a window that has a surface, and -1 otherwise; for any
    other command it does not even look the window up. *)
Theorem syscommand_result st h wparam lparam :
  exists r tr pre,
    WAYLAND_SysCommand h wparam lparam st = Done r st tr /\
    tr = pre ++ [EvDisplayFlush] /\
    (r = 0 \/ r = -1) /\
    (r = 0 <-> is_move_or_size wparam /\ has_surface st h) /\
    (~ is_move_or_size wparam -> pre = [EvLock pointer_mutex; EvUnlock pointer_mutex]).
Proof.
  destruct (Bool.bool_dec
              ((Z.land wparam 0xfff0 =? SC_MOVE) || (Z.land wparam 0xfff0 =? SC_SIZE)) true)
    as [Hc|Hc]; rewrite <- is_move_or_size_test in Hc.
  - destruct (surface_at st h) as [surface|] eqn:Hs.
    + rewrite (syscommand_surface st h wparam lparam surface Hc Hs).
      eexists 0, _, _. split; [reflexivity|]. split.
      { change [EvUnlock seat_mutex; EvUnlock (surface_mutex h); EvDisplayFlush]
          with ([EvUnlock seat_mutex; EvUnlock (surface_mutex h)] ++ [EvDisplayFlush]).
        rewrite !app_assoc. reflexivity. }
      split; [now left|]. split; [|intros Hn; contradiction].
      split; [intros _|reflexivity]. split; [exact Hc|].
      apply has_surface_at. congruence.
    + rewrite (syscommand_no_surface st h wparam lparam Hc Hs).
      eexists (-1), _, [_; _; _; _]. split; [reflexivity|]. split; [reflexivity|].
      split; [now right|]. split; [|intros Hn; contradiction].
      split; [discriminate|]. intros [_ Hhas]. apply has_surface_at in Hhas. contradiction.
  - rewrite (syscommand_other st h wparam lparam Hc).
    eexists (-1), _, [_; _]. split; [reflexivity|]. split; [reflexivity|].
    split; [now right|]. split; [|reflexivity].
    split; [discriminate|]. intros [Hcmd _]. contradiction.
Qed.

Section TextAndLock.

Context {env : Environment} {ops : SurfaceOps}.

(** X15.  WAYLAND_SetWindowText always completes and leaves the driver state
    as it was.  It passes the text on as the title exactly when the window
    has a surface with the top-level role object, and it makes no other
    call. *)
Theorem set_window_text_sets_title st h text :
  exists tr,
    WAYLAND_SetWindowText h text st = Done tt st tr /\
    (In (EvSetTitle h text) tr <->
     exists surface, surface_at st h = Some surface /\ xdg_toplevel surface = true) /\
    (forall e, In e (calls tr) -> e = EvSetTitle h text).
Proof.
  unfold WAYLAND_SetWindowText.
  destruct (surface_at st h) as [surface|] eqn:Hat.
  - unfold surface_at in Hat.
    destruct (rb_get (win_data_rb st) h) as [data|] eqn:Hget; [|discriminate].
    rewrite (bind_run _ _ _ _ _ _ (lock_hwnd_surface st h data surface Hget Hat)).
    unfold bind, emit, when, pure. destruct (xdg_toplevel surface) eqn:Htop; simpl.
    + eexists. split; [reflexivity|]. split.
      * split; [intros _; eauto|]. intros _. simpl. tauto.
      * intros e [<-|[]]. reflexivity.
    + eexists. split; [reflexivity|]. split.
      * split.
        -- simpl. intros [H|[H|[H|[H|[]]]]]; discriminate H.
        -- intros (s & [= <-] & Hs). congruence.
      * intros e [].
  - assert (Hrun : wayland_surface_lock_hwnd h st =
                   Done None st [EvLock win_data_mutex; EvUnlock win_data_mutex]).
    { unfold surface_at in Hat.
      destruct (rb_get (win_data_rb st) h) as [data|] eqn:Hget.
      - apply (lock_hwnd_no_surface st h data Hget Hat).
      - apply (lock_hwnd_no_record st h Hget). }
    rewrite (bind_run _ _ _ _ _ _ Hrun).
    eexists. split; [reflexivity|]. split.
    + split.
      * simpl. intros [H|[H|[]]]; discriminate H.
      * intros (s & Hs & _). discriminate Hs.
    + intros e [].
Qed.

(** X16.  wayland_surface_lock_hwnd always completes and changes nothing.  It
    returns the surface the registry has for the window, makes no call, and
    it returns holding the mutex of that surface and no other mutex; when it
    returns NULL it holds none. *)
Theorem lock_hwnd_returns_locked st h :
  exists tr,
    wayland_surface_lock_hwnd h st = Done (surface_at st h) st tr /\
    calls tr = [] /\
    lock_discipline [] tr = Some (held_for h (surface_at st h)).
Proof.
  unfold surface_at.
  destruct (rb_get (win_data_rb st) h) as [data|] eqn:Hget.
  - destruct (wayland_surface_of data) as [surface|] eqn:Hs.
    + rewrite (lock_hwnd_surface st h data surface Hget Hs).
      eexists. split; [reflexivity|]. split; [reflexivity|].
      simpl. reflexivity.
    + rewrite (lock_hwnd_no_surface st h data Hget Hs).
      eexists. split; [reflexivity|]. split; reflexivity.
  - rewrite (lock_hwnd_no_record st h Hget).
    eexists. split; [reflexivity|]. split; reflexivity.
Qed.

End TextAndLock.

Lemma syscommand_with_serial_witness :
  exists tr,
    WAYLAND_SysCommand 10 (SC_SIZE + WMSZ_BOTTOMRIGHT) 0 pressed_driver
      = Done 0 pressed_driver tr /\
    filter is_move_resize tr = [EvResize 10 1%nat 7 XDG_TOPLEVEL_RESIZE_EDGE_BOTTOM_RIGHT].
Proof.
  apply (syscommand_with_serial pressed_driver 10 (SC_SIZE + WMSZ_BOTTOMRIGHT) 0
           (sample_surface zero_config 0) 1%nat).
  - right. reflexivity.
  - discriminate.
  - reflexivity.
  - reflexivity.
  - reflexivity.
Defined.

(** ** wayland_surface_lock_accel_hwnd *)

Section LockAccel.

Context {env : Environment} {ops : SurfaceOps}.

Lemma role_manager_run_locks fuel h flags st st' tr :
  wayland_win_data_update_wayland_surface fuel h flags st = Done tt st' tr ->
  lock_discipline [win_data_mutex] tr = Some [win_data_mutex] /\
  guarded [win_data_mutex] tr = true.
Proof.
  apply (update_wayland_surface_traces
           (fun tr => lock_discipline [win_data_mutex] tr = Some [win_data_mutex] /\
                      guarded [win_data_mutex] tr = true)).
  - split; reflexivity.
  - intros a b [La Ga] [Lb Gb]. split.
    + eapply lock_discipline_compose; eauto.
    + now rewrite (guarded_app _ _ _ _ La), Ga, Gb.
  - split; reflexivity.
  - intros fuel0 data flags0 s r s' t Hb. split.
    + eapply body_locks; exact Hb.
    + eapply body_guarded; exact Hb.
  - intros h0 s r s' t Hs. split.
    + apply (update_wayland_state_quiet _ _ _ _ _ Hs).
    + eapply update_wayland_state_guarded; exact Hs.
Qed.

(** X17.  For a window that is unknown to the driver, that already has a
    surface, or that is at the top of the window tree,
    wayland_surface_lock_accel_hwnd is wayland_surface_lock_hwnd: same
    result, same state, same trace. *)
Theorem lock_accel_hwnd_is_lock_hwnd fuel h st :
  rb_get (win_data_rb st) h = None \/
  surface_at st h <> None \/
  ((0 < fuel)%nat /\ is_root (NtUserGetAncestor h) = true) ->
  wayland_surface_lock_accel_hwnd fuel h st = wayland_surface_lock_hwnd h st.
Proof.
  intros Hcase. unfold wayland_surface_lock_accel_hwnd.
  destruct (rb_get (win_data_rb st) h) as [data|] eqn:Hget.
  2: { rewrite (lock_hwnd_no_record st h Hget).
       assert (Hg : wayland_win_data_get h st =
                    Done None st [EvLock win_data_mutex; EvUnlock win_data_mutex]).
       { unfold wayland_win_data_get, wayland_win_data_get_nolock, bind, emit,
           get_state, pure. simpl. rewrite Hget. reflexivity. }
       rewrite (bind_run _ _ _ _ _ _ Hg). reflexivity. }
  assert (Hg : wayland_win_data_get h st = Done (Some data) st [EvLock win_data_mutex]).
  { unfold wayland_win_data_get, wayland_win_data_get_nolock, bind, emit,
      get_state, pure. simpl. rewrite Hget. reflexivity. }
  rewrite (bind_run _ _ _ _ _ _ Hg). clear Hg.
  assert (Ha : (if is_some (wayland_surface_of data) then pure false
                else top <- wayland_win_data_get_top_parent fuel data ;;
                     pure (is_some top)) st = Done false st []).
  { destruct (wayland_surface_of data) as [surface|] eqn:Hs; [reflexivity|]. simpl.
    destruct Hcase as [Hnone|[Hsome|[Hfuel Hroot]]].
    - congruence.
    - unfold surface_at in Hsome. rewrite Hget in Hsome. congruence.
    - unfold wayland_win_data_get_top_parent, bind.
      destruct fuel as [|fuel]; [lia|]. cbn [top_parent_walk].
      rewrite (rb_get_hwnd _ _ _ Hget), is_root_walk, Hroot. simpl.
      rewrite Z.eqb_refl. reflexivity. }
  rewrite (bind_run _ _ _ _ _ _ Ha). clear Ha.
  unfold load_data, when, wayland_win_data_release.
  unfold bind, pure, get_state, deref, emit, crash.
  simpl. rewrite Hget. simpl.
  destruct (wayland_surface_of data) as [surface|] eqn:Hs.
  - rewrite (lock_hwnd_surface st h data surface Hget Hs). reflexivity.
  - rewrite (lock_hwnd_no_surface st h data Hget Hs). reflexivity.
Qed.

(** X18.  A completed wayland_surface_lock_accel_hwnd returns the surface the
    registry then has for the window, holding the mutex of that surface and
    no other mutex (none when the result is NULL).  On the way it keeps the
    lock discipline, makes every role, title, client and state request on a
    surface under the mutex of that surface, and changes nothing in the
    driver state but surfaces. *)
Theorem lock_accel_hwnd_returns_locked fuel h st r st' tr :
  wayland_surface_lock_accel_hwnd fuel h st = Done r st' tr ->
  r = surface_at st' h /\
  lock_discipline [] tr = Some (held_for h r) /\
  guarded [] tr = true /\
  same_windows st st'.
Proof.
  unfold wayland_surface_lock_accel_hwnd. intros H.
  apply bind_Done in H as (found & s1 & t1 & t2 & Hget & H & ->).
  unfold wayland_win_data_get, wayland_win_data_get_nolock, bind, emit, get_state, pure
    in Hget. simpl in Hget.
  destruct (rb_get (win_data_rb st) h) as [data|] eqn:Hrb; simpl in Hget;
    injection Hget as <- <- <-.
  2: { injection H as <- <- <-. unfold surface_at. rewrite Hrb.
       repeat split; reflexivity. }
  apply bind_Done in H as (anchored & s2 & t3 & t4 & Ha & H & ->).
  assert (s2 = st /\ t3 = []) as [-> ->].
  { destruct (is_some (wayland_surface_of data)).
    - injection Ha as _ <- <-. auto.
    - apply bind_Done in Ha as (top & s3 & t5 & t6 & Htp & Ha & ->).
      apply get_top_parent_silent in Htp as [-> ->].
      injection Ha as _ <- <-. auto. }
  clear Ha.
  apply bind_Done in H as (u & s3 & t5 & t6 & Hup & H & ->).
  assert (Hmid : lock_discipline [win_data_mutex] t5 = Some [win_data_mutex] /\
                 guarded [win_data_mutex] t5 = true /\ same_windows st s3).
  { destruct anchored.
    - apply bind_Done in Hup as (u1 & s4 & t7 & t8 & Hrun & Hup & ->).
      destruct u1.
      pose proof (role_manager_run_locks _ _ _ _ _ _ Hrun) as [L1 G1].
      apply update_wayland_surface_same in Hrun.
      apply bind_Done in Hup as (d1 & s5 & t9 & t10 & Hload & Hup & ->).
      apply load_data_silent in Hload as (-> & -> & _).
      unfold when in Hup.
      destruct (is_some (wayland_surface_of d1)).
      + pose proof (update_wayland_state_quiet _ _ _ _ _ Hup) as (L2 & _).
        pose proof (update_wayland_state_guarded _ _ _ _ _ Hup) as G2.
        apply update_wayland_state_same in Hup. cbn [app].
        split; [eapply lock_discipline_compose; eauto|].
        split; [now rewrite (guarded_app _ _ _ _ L1), G1, G2|].
        eapply same_windows_trans; eauto.
      + injection Hup as _ <- <-. rewrite !app_nil_r. auto.
    - injection Hup as _ <- <-. repeat split; reflexivity. }
  destruct Hmid as (L & G & Hsame). clear Hup.
  apply bind_Done in H as (d2 & s4 & t7 & t8 & Hload & H & ->).
  apply load_data_silent in Hload as (-> & -> & Hget2).
  unfold when, wayland_win_data_release, bind, emit, pure, deref in H. simpl in H.
  assert (Hat : surface_at s3 h = wayland_surface_of d2).
  { unfold surface_at. now rewrite Hget2. }
  destruct (wayland_surface_of d2) as [surface|] eqn:Hs; simpl in H;
    injection H as <- <- <-.
  - split; [now rewrite Hat|].
    change ([EvLock win_data_mutex] ++ [] ++ t5 ++ [] ++
            [EvLock (surface_mutex h); EvUnlock win_data_mutex])
      with (EvLock win_data_mutex :: t5 ++ [EvLock (surface_mutex h); EvUnlock win_data_mutex]).
    split; [|split; [|exact Hsame]].
    + simpl. rewrite lock_discipline_app, L. simpl. reflexivity.
    + simpl. rewrite (guarded_app _ _ _ _ L), G. reflexivity.
  - split; [now rewrite Hat|].
    change ([EvLock win_data_mutex] ++ [] ++ t5 ++ [] ++ [EvUnlock win_data_mutex])
      with (EvLock win_data_mutex :: t5 ++ [EvUnlock win_data_mutex]).
    split; [|split; [|exact Hsame]].
    + simpl. rewrite lock_discipline_app, L. simpl. reflexivity.
    + simpl. rewrite (guarded_app _ _ _ _ L), G. reflexivity.
Qed.

End LockAccel.

Lemma lock_accel_hwnd_is_lock_hwnd_witness :
  surface_at idle_driver 10 <> None /\
  wayland_surface_lock_accel_hwnd 0 10 idle_driver = wayland_surface_lock_hwnd 10 idle_driver.
Proof.
  split; [discriminate|].
  apply (@lock_accel_hwnd_is_lock_hwnd sample_environment reference_surface_ops
           0%nat 10 idle_driver).
  right. left. discriminate.
Defined.

Lemma lock_accel_hwnd_returns_locked_witness :
  exists r st' tr,
    wayland_surface_lock_accel_hwnd 5 20 accel_driver = Done (Some r) st' tr /\
    surface_at accel_driver 20 = None /\
    In (EvMakeSubsurface 20 10) tr /\
    Some r = surface_at st' 20 /\
    lock_discipline [] tr = Some [surface_mutex 20] /\
    guarded [] tr = true /\
    same_windows accel_driver st'.
Proof.
  eexists _, _, _.
  assert (Hrun : wayland_surface_lock_accel_hwnd 5 20 accel_driver = Done (Some _) _ _)
    by (vm_compute; reflexivity).
  split; [exact Hrun|]. split; [reflexivity|].
  split; [repeat (first [left; reflexivity | right])|].
  exact (@lock_accel_hwnd_returns_locked sample_environment reference_surface_ops
           5%nat 20 accel_driver _ _ _ Hrun).
Defined.

(** ** What the configuration state machine leaves alone *)

Lemma set_processing_same s : set_processing s (processing s) = s.
Proof. destruct s; reflexivity. Qed.

Lemma set_wayland_surface_same d s :
  wayland_surface_of d = Some s -> set_wayland_surface d (Some s) = d.
Proof. destruct d; simpl; intros ->; reflexivity. Qed.

Lemma set_tree_same st : set_tree st (win_data_rb st) = st.
Proof. destruct st; reflexivity. Qed.

(** Writing back the record that is there changes nothing. *)
Lemma rb_store_same tree d : rb_get tree (hwnd d) = Some d -> rb_store tree d = tree.
Proof.
  induction tree as [|e rest IH]; simpl; [reflexivity|].
  destruct (wayland_win_data_cmp_rb (hwnd d) e =? 0).
  - intros [= ->]. reflexivity.
  - intros H. now rewrite IH.
Qed.

Lemma store_surface_frame st h data (s s' : wayland_surface) :
  rb_get (win_data_rb st) h = Some data ->
  let st' := set_tree st (rb_store (win_data_rb st) (set_wayland_surface data (Some s'))) in
  same_windows st st' /\
  (forall h', h' <> h -> rb_get (win_data_rb st') h' = rb_get (win_data_rb st) h') /\
  surface_at st' h = Some s'.
Proof.
  intros Hget st'. pose proof (rb_get_hwnd _ _ _ Hget) as Hh.
  split; [|split].
  - split; [|split; reflexivity]. simpl.
    apply (strip_store _ _ data); [simpl; now rewrite Hh|reflexivity].
  - intros h' Hne. simpl. apply rb_get_store_other. simpl. congruence.
  - unfold surface_at. simpl.
    replace h with (hwnd (set_wayland_surface data (Some s'))) by exact Hh.
    erewrite rb_get_store; [reflexivity|]. simpl. rewrite Hh. exact Hget.
Qed.

Section StateMachineFrames.

Context {env : Environment} {ops : SurfaceOps}.

(** X19.  wayland_configure_window always completes.  It adds and removes no
    record, changes no record of another window, and in the surface of the
    window it leaves the current snapshot, the window configuration, the role
    and its objects, the anchor and the client surface as they were; the
    thread's DPI awareness context is restored. *)
Theorem configure_window_frame st h :
  exists st' tr,
    wayland_configure_window h st = Done tt st' tr /\
    same_windows st st' /\
    (forall h', h' <> h -> rb_get (win_data_rb st') h' = rb_get (win_data_rb st) h') /\
    (forall s', surface_at st' h = Some s' ->
       exists s, surface_at st h = Some s /\
         current s' = current s /\ window s' = window s /\ role s' = role s /\
         xdg_toplevel s' = xdg_toplevel s /\ wl_subsurface s' = wl_subsurface s /\
         parent_weak_ref s' = parent_weak_ref s /\ client s' = client s).
Proof.
  assert (Hsame : forall tr, wayland_configure_window h st = Done tt st tr ->
            exists st' tr,
              wayland_configure_window h st = Done tt st' tr /\
              same_windows st st' /\
              (forall h', h' <> h ->
                 rb_get (win_data_rb st') h' = rb_get (win_data_rb st) h') /\
              (forall s', surface_at st' h = Some s' ->
                 exists s, surface_at st h = Some s /\
                   current s' = current s /\ window s' = window s /\ role s' = role s /\
                   xdg_toplevel s' = xdg_toplevel s /\ wl_subsurface s' = wl_subsurface s /\
                   parent_weak_ref s' = parent_weak_ref s /\ client s' = client s)).
  { intros tr Hrun. exists st, tr. split; [exact Hrun|].
    split; [apply same_windows_refl|]. split; [reflexivity|].
    intros s' Hs'. exists s'. repeat split; auto. }
  destruct (rb_get (win_data_rb st) h) as [data|] eqn:Hget.
  2: { eapply Hsame. apply configure_window_no_surface. now left. }
  destruct (wayland_surface_of data) as [surface|] eqn:Hs.
  2: { eapply Hsame. apply configure_window_no_surface. right. eauto. }
  destruct (xdg_toplevel surface) eqn:Htop.
  2: { eapply Hsame. apply (configure_window_idle st h data surface Hget Hs). now left. }
  destruct (Z.eq_dec (serial (requested surface)) 0) as [Hz|Hserial].
  { eapply Hsame. apply (configure_window_idle st h data surface Hget Hs). now right. }
  clear Hsame.
  pose proof (configure_window_drains st h data surface Hget Hs Htop Hserial) as Hrun.
  cbv zeta in Hrun.
  destruct (store_surface_frame st h data surface (drained surface) Hget)
    as (Hsw & Hother & Hat).
  eexists _, _. split; [exact Hrun|]. split; [exact Hsw|]. split; [exact Hother|].
  intros s' Hs'. rewrite Hat in Hs'. injection Hs' as <-.
  exists surface. split.
  { unfold surface_at. now rewrite Hget. }
  destruct surface; repeat split; reflexivity.
Qed.

(** X20.  While a snapshot of the compositor is being processed on a
    top-level surface, wayland_win_data_update_wayland_state sends no state
    request: it only marks the snapshot as processed.  The requests are not
    lost: the next pass sends exactly those the window state and the current
    compositor state call for, and changes nothing more. *)
Theorem state_requests_wait_for_processing st h data surface :
  rb_get (win_data_rb st) h = Some data ->
  wayland_surface_of data = Some surface ->
  wl_subsurface surface = false ->
  xdg_toplevel surface = true ->
  pending (processing surface) = true ->
  exists st1 tr1 tr2,
    wayland_win_data_update_wayland_state h st = Done tt st1 tr1 /\
    calls tr1 = [EvDisplayFlush] /\
    surface_at st1 h =
      Some (set_processing surface (set_processed (processing surface) true)) /\
    wayland_win_data_update_wayland_state h st1 = Done tt st1 tr2 /\
    state_calls tr2 = state_requests h surface.
Proof.
  intros Hget Hs Hsub Htop Hpending.
  set (s1 := set_processing surface (set_processed (processing surface) true)).
  destruct (store_surface_frame st h data surface s1 Hget) as (_ & _ & Hat).
  set (st1 := set_tree st (rb_store (win_data_rb st) (set_wayland_surface data (Some s1))))
    in *.
  assert (Hrun1 : wayland_win_data_update_wayland_state h st =
                  Done tt st1 [EvLock (surface_mutex h); EvUnlock (surface_mutex h);
                               EvDisplayFlush]).
  { unfold wayland_win_data_update_wayland_state, store_surface, load_data, store_data,
      bind, get_state, put_state, deref, pure, emit.
    unfold pending in Hpending.
    simpl. rewrite Hget. simpl. rewrite Hs, Hsub, Htop. simpl. rewrite Hpending. simpl.
    rewrite Hget. reflexivity. }
  assert (Hget1 : rb_get (win_data_rb st1) h = Some (set_wayland_surface data (Some s1))).
  { pose proof (rb_get_hwnd _ _ _ Hget) as Hh.
    pose proof (rb_get_store (win_data_rb st) (set_wayland_surface data (Some s1)) data)
      as R.
    cbn [hwnd set_wayland_surface] in R. rewrite Hh in R. exact (R Hget). }
  pose proof (update_wayland_state_toplevel st1 h _ s1 Hget1 eq_refl) as Hrun2.
  assert (Hsub1 : wl_subsurface s1 = false) by (destruct surface; exact Hsub).
  assert (Htop1 : xdg_toplevel s1 = true) by (destruct surface; exact Htop).
  assert (Hidle1 : serial (processing s1) = 0 \/ processed (processing s1) = true).
  { right. destruct surface. reflexivity. }
  specialize (Hrun2 Hsub1 Htop1 Hidle1).
  eexists st1, _, _. split; [exact Hrun1|]. split; [reflexivity|].
  split; [exact Hat|]. split; [exact Hrun2|].
  unfold state_requests.
  assert (Hl : forall bit, leaves bit s1 = leaves bit surface)
    by (intros bit; destruct surface; reflexivity).
  assert (He : forall bit, enters bit s1 = enters bit surface)
    by (intros bit; destruct surface; reflexivity).
  rewrite !Hl, !He.
  destruct (leaves WAYLAND_SURFACE_CONFIG_STATE_MAXIMIZED surface),
    (leaves WAYLAND_SURFACE_CONFIG_STATE_FULLSCREEN surface),
    (enters WAYLAND_SURFACE_CONFIG_STATE_MAXIMIZED surface),
    (enters WAYLAND_SURFACE_CONFIG_STATE_FULLSCREEN surface); reflexivity.
Qed.

(** X21.  A completed wayland_win_data_update_wayland_state changes nothing
    but the processing snapshot of the window's surface: the driver state it
    returns is the one it was given with that one snapshot replaced, so every
    other field of the surface, every other field of the record and every
    record of another window is as before.  When the surface has a role
    object, no snapshot is left waiting to be acknowledged. *)
Theorem update_wayland_state_settles st h surface st' tr :
  surface_at st h = Some surface ->
  wayland_win_data_update_wayland_state h st = Done tt st' tr ->
  exists data snapshot,
    rb_get (win_data_rb st) h = Some data /\
    st' = set_tree st
            (rb_store (win_data_rb st)
               (set_wayland_surface data (Some (set_processing surface snapshot)))) /\
    surface_at st' h = Some (set_processing surface snapshot) /\
    same_windows st st' /\
    (forall h', h' <> h -> rb_get (win_data_rb st') h' = rb_get (win_data_rb st) h') /\
    (xdg_toplevel surface || wl_subsurface surface = true -> pending snapshot = false).
Proof.
  intros Hat Hrun. unfold surface_at in Hat.
  destruct (rb_get (win_data_rb st) h) as [data|] eqn:Hget; [|discriminate].
  exists data.
  assert (Hstored : forall snapshot,
            (xdg_toplevel surface || wl_subsurface surface = true ->
             pending snapshot = false) ->
            st' = set_tree st
                    (rb_store (win_data_rb st)
                       (set_wayland_surface data (Some (set_processing surface snapshot)))) ->
            exists snapshot,
              Some data = Some data /\
              st' = set_tree st
                      (rb_store (win_data_rb st)
                         (set_wayland_surface data
                            (Some (set_processing surface snapshot)))) /\
              surface_at st' h = Some (set_processing surface snapshot) /\
              same_windows st st' /\
              (forall h', h' <> h ->
                 rb_get (win_data_rb st') h' = rb_get (win_data_rb st) h') /\
              (xdg_toplevel surface || wl_subsurface surface = true ->
               pending snapshot = false)).
  { intros snapshot Hp ->.
    destruct (store_surface_frame st h data surface (set_processing surface snapshot) Hget)
      as (A & B & C).
    exists snapshot. repeat split; auto; apply A. }
  assert (Hkept : (xdg_toplevel surface || wl_subsurface surface = true ->
                   pending (processing surface) = false) ->
                  st' = st ->
                  exists snapshot,
                    Some data = Some data /\
                    st' = set_tree st
                            (rb_store (win_data_rb st)
                               (set_wayland_surface data
                                  (Some (set_processing surface snapshot)))) /\
                    surface_at st' h = Some (set_processing surface snapshot) /\
                    same_windows st st' /\
                    (forall h', h' <> h ->
                       rb_get (win_data_rb st') h' = rb_get (win_data_rb st) h') /\
                    (xdg_toplevel surface || wl_subsurface surface = true ->
                     pending snapshot = false)).
  { intros Hp Hst. apply (Hstored (processing surface) Hp).
    rewrite Hst, set_processing_same, (set_wayland_surface_same _ _ Hat).
    rewrite rb_store_same by exact (eq_trans (f_equal _ (rb_get_hwnd _ _ _ Hget)) Hget).
    symmetry. apply set_tree_same. }
  revert Hrun.
  unfold wayland_win_data_update_wayland_state, load_data, store_surface, load_data,
    store_data, bind, get_state, put_state, deref, pure, emit, when.
  simpl. rewrite Hget. simpl. rewrite Hat. simpl.
  destruct (wl_subsurface surface) eqn:Hsub; simpl.
  { rewrite Hget. simpl. intros [= Hst _]. symmetry in Hst.
    eapply Hstored; [|exact Hst]. reflexivity. }
  destruct (xdg_toplevel surface) eqn:Htop; simpl.
  2: { intros [= <- _]. apply Hkept; [discriminate|reflexivity]. }
  destruct (negb (serial (processing surface) =? 0) && negb (processed (processing surface)))
    eqn:Hp; simpl.
  { rewrite Hget. simpl. intros [= Hst _]. symmetry in Hst.
    eapply Hstored; [|exact Hst].
    intros _. unfold pending. simpl. apply Bool.andb_false_r. }
  intros Hrun. apply Hkept; [intros _; exact Hp|].
  destruct (negb (test (window_state (window surface)) WAYLAND_SURFACE_CONFIG_STATE_MAXIMIZED)
            && test (state (current surface)) WAYLAND_SURFACE_CONFIG_STATE_MAXIMIZED),
    (negb (test (window_state (window surface)) WAYLAND_SURFACE_CONFIG_STATE_FULLSCREEN)
     && test (state (current surface)) WAYLAND_SURFACE_CONFIG_STATE_FULLSCREEN),
    (test (window_state (window surface)) WAYLAND_SURFACE_CONFIG_STATE_MAXIMIZED
     && negb (test (state (current surface)) WAYLAND_SURFACE_CONFIG_STATE_MAXIMIZED)),
    (test (window_state (window surface)) WAYLAND_SURFACE_CONFIG_STATE_FULLSCREEN
     && negb (test (state (current surface)) WAYLAND_SURFACE_CONFIG_STATE_FULLSCREEN));
    simpl in Hrun; injection Hrun as <- _; reflexivity.
Qed.

End StateMachineFrames.

Lemma state_requests_wait_for_processing_witness :
  pending (processing processing_surface) = true /\
  exists st1 tr1 tr2,
    wayland_win_data_update_wayland_state 10 (sample_driver (Some processing_surface))
      = Done tt st1 tr1 /\
    calls tr1 = [EvDisplayFlush] /\
    wayland_win_data_update_wayland_state 10 st1 = Done tt st1 tr2 /\
    state_calls tr2 = [EvSetMaximized 10].
Proof.
  split; [reflexivity|].
  destruct (state_requests_wait_for_processing
              (sample_driver (Some processing_surface)) 10
              (sample_record (Some processing_surface)) processing_surface
              eq_refl eq_refl eq_refl eq_refl eq_refl)
    as (st1 & tr1 & tr2 & H1 & H2 & _ & H3 & H4).
  exists st1, tr1, tr2. split; [exact H1|]. split; [exact H2|]. split; [exact H3|exact H4].
Defined.

Lemma update_wayland_state_settles_witness :
  exists st' tr snapshot,
    wayland_win_data_update_wayland_state 10 (sample_driver (Some processing_surface))
      = Done tt st' tr /\
    surface_at st' 10 = Some (set_processing processing_surface snapshot) /\
    snapshot <> processing processing_surface /\
    pending snapshot = false.
Proof.
  eexists _, _.
  assert (Hrun : wayland_win_data_update_wayland_state 10
                   (sample_driver (Some processing_surface)) = Done tt _ _)
    by (vm_compute; reflexivity).
  destruct (@update_wayland_state_settles
              (sample_driver (Some processing_surface)) 10 processing_surface _ _
              eq_refl Hrun) as (data & snapshot & _ & _ & Hat & _ & _ & Hp).
  exists snapshot. split; [exact Hrun|]. split; [exact Hat|].
  specialize (Hp eq_refl). split; [|exact Hp].
  intros ->. discriminate Hp.
Defined.

(** * Properties of the entry points of window.c *)

Lemma ebind_Completed {A B} (m : Entry A) (k : A -> Entry B) st b st2 tr :
  ebind m k st = Completed b st2 tr ->
  exists a st1 tr1 tr2,
    m st = Completed a st1 tr1 /\ k a st1 = Completed b st2 tr2 /\ tr = tr1 ++ tr2.
Proof.
  unfold ebind. destruct (m st) as [a st1 tr1|f]; [|discriminate].
  destruct (k a st1) as [b' st2' tr2|f] eqn:Hk; [|discriminate].
  intros [= -> -> <-]. exists a, st1, tr1, tr2. auto.
Qed.

Lemma ebind_run {A B} (m : Entry A) (k : A -> Entry B) st a st1 tr1 :
  m st = Completed a st1 tr1 ->
  ebind m k st =
    match k a st1 with
    | Completed b st2 tr2 => Completed b st2 (tr1 ++ tr2)
    | Aborted f => Aborted f
    end.
Proof. unfold ebind. intros ->. reflexivity. Qed.

Lemma lift_Completed {A} (m : M A) st a st' tr :
  lift m st = Completed a st' tr ->
  exists tr0, m st = Done a st' tr0 /\ tr = map Within tr0.
Proof.
  unfold lift. destruct (m st) as [a0 st0 tr0|f]; [|discriminate].
  intros [= -> -> <-]. eauto.
Qed.

Lemma lift_run {A} (m : M A) st a st' tr :
  m st = Done a st' tr -> lift m st = Completed a st' (map Within tr).
Proof. unfold lift. intros ->. reflexivity. Qed.

Lemma events_of_app t1 t2 : events_of (t1 ++ t2) = events_of t1 ++ events_of t2.
Proof.
  induction t1 as [|c t1 IH]; simpl; [reflexivity|].
  destruct c; simpl; rewrite IH; reflexivity.
Qed.

Lemma events_of_within tr : events_of (map Within tr) = tr.
Proof. induction tr as [|e tr IH]; simpl; [reflexivity|]. now rewrite IH. Qed.

Lemma outstanding_app n t1 t2 :
  outstanding n (t1 ++ t2) =
    match outstanding n t1 with
    | Some k => outstanding k t2
    | None => None
    end.
Proof.
  revert n. induction t1 as [|c t1 IH]; intros n; simpl; [reflexivity|].
  destruct c; simpl; auto.
  - destruct ok; auto.
  - destruct n; auto.
Qed.

Lemma outstanding_within n tr : outstanding n (map Within tr) = Some n.
Proof. induction tr as [|e tr IH]; simpl; [reflexivity|exact IH]. Qed.

Lemma calls_app t1 t2 : calls (t1 ++ t2) = calls t1 ++ calls t2.
Proof. apply filter_app. Qed.

(** ** The managed-window test *)

Section ManagedWindows.

Context {env : Environment} {ops : SurfaceOps} {win : WindowSystem}.

(** The managed flag the registry has for a window. *)
Lemma is_managed_run st h :
  is_managed h st =
    Done (match rb_get (win_data_rb st) h with
          | Some d => data_managed d
          | None => false
          end) st [EvLock win_data_mutex; EvUnlock win_data_mutex].
Proof.
  unfold is_managed, wayland_win_data_get, wayland_win_data_get_nolock,
    wayland_win_data_release, bind, emit, get_state, pure, deref.
  simpl. destruct (rb_get (win_data_rb st) h); reflexivity.
Qed.

Lemma build_hwnd_list_from_run fuel : forall count st r st' tr,
  build_hwnd_list_from fuel count st = Completed r st' tr ->
  st' = st /\ events_of tr = [] /\
  (forall n, outstanding n tr = Some (match r with Some _ => S n | None => n end)) /\
  (forall l, r = Some l ->
     exists count0 count', NtUserBuildHwndList count0 = (0, l, count')).
Proof.
  induction fuel as [|fuel IH]; intros count st r st' tr H; [discriminate|].
  cbn [build_hwnd_list_from] in H.
  destruct (malloc_hwnd_list count); cbn [negb] in H.
  2: { injection H as <- <- <-. repeat split; try reflexivity. discriminate. }
  apply ebind_Completed in H as (u & s1 & t1 & t2 & Hm & H & ->).
  injection Hm as _ <- <-.
  destruct (NtUserBuildHwndList count) as [[status list] count'] eqn:Hq.
  destruct (status =? 0) eqn:Es.
  { injection H as <- <- <-. apply Z.eqb_eq in Es. subst status.
    repeat split; try reflexivity. intros l [= <-]. eauto. }
  apply ebind_Completed in H as (u' & s2 & t3 & t4 & Hf & H & ->).
  injection Hf as _ <- <-.
  destruct (negb (status =? STATUS_BUFFER_TOO_SMALL)).
  { injection H as <- <- <-. repeat split; try reflexivity. discriminate. }
  apply IH in H as (-> & Hev & Hout & Hl).
  split; [reflexivity|]. split; [exact Hev|]. split; [|exact Hl].
  intros n. simpl. apply Hout.
Qed.

Lemma owned_popup_scan_run h : forall list st r st' tr,
  owned_popup_scan h list st = Completed r st' tr ->
  st' = st /\
  forallb quiet tr = true /\
  (forall n, outstanding n tr = Some n) /\
  lock_discipline [] (events_of tr) = Some [] /\
  (r = true ->
   exists above w below d,
     list = above ++ w :: below /\
     ~ In h above /\ ~ In HWND_BOTTOM above /\
     w <> h /\ w <> HWND_BOTTOM /\
     NtUserGetWindowRelative_owner w = h /\
     rb_get (win_data_rb st) w = Some d /\ data_managed d = true).
Proof.
  induction list as [|w rest IH]; intros st r st' tr H; [discriminate|].
  cbn [owned_popup_scan] in H.
  destruct (w =? HWND_BOTTOM) eqn:Eb.
  { injection H as <- <- <-. repeat split; try reflexivity. discriminate. }
  destruct (w =? h) eqn:Eh.
  { injection H as <- <- <-. repeat split; try reflexivity. discriminate. }
  apply Z.eqb_neq in Eb, Eh.
  assert (Hnext : forall r st' tr,
            owned_popup_scan h rest st = Completed r st' tr ->
            st' = st /\
            forallb quiet tr = true /\
            (forall n, outstanding n tr = Some n) /\
            lock_discipline [] (events_of tr) = Some [] /\
            (r = true ->
             exists above w0 below d,
               w :: rest = above ++ w0 :: below /\
               ~ In h above /\ ~ In HWND_BOTTOM above /\
               w0 <> h /\ w0 <> HWND_BOTTOM /\
               NtUserGetWindowRelative_owner w0 = h /\
               rb_get (win_data_rb st) w0 = Some d /\ data_managed d = true)).
  { intros r0 st0 tr0 H0. apply IH in H0 as (-> & Hq & Ho & Hl & Hr).
    repeat split; auto.
    intros Ht. destruct (Hr Ht) as (above & w0 & below & d & -> & Hh & Hb & Hrest).
    exists (w :: above), w0, below, d. split; [reflexivity|].
    split; [intros [E|E]; [congruence|contradiction]|].
    split; [intros [E|E]; [congruence|contradiction]|]. exact Hrest. }
  destruct (negb (NtUserGetWindowRelative_owner w =? h)) eqn:Eo.
  { apply Hnext. exact H. }
  apply Bool.negb_false_iff, Z.eqb_eq in Eo.
  rewrite (ebind_run _ _ _ _ _ _ (lift_run _ _ _ _ _ (is_managed_run st w))) in H.
  destruct (rb_get (win_data_rb st) w) as [d|] eqn:Hget.
  - destruct (data_managed d) eqn:Hm.
    + injection H as <- <- <-.
      repeat split; try reflexivity.
      intros _. exists [], w, rest, d. repeat split; auto.
    + destruct (owned_popup_scan h rest st) as [r0 st0 tr0|f] eqn:Hrest; [|discriminate].
      injection H as <- <- <-.
      destruct (Hnext _ _ _ eq_refl) as (-> & Hq & Ho & Hl & Hr).
      repeat split; auto.
  - destruct (owned_popup_scan h rest st) as [r0 st0 tr0|f] eqn:Hrest; [|discriminate].
    injection H as <- <- <-.
    destruct (Hnext _ _ _ eq_refl) as (-> & Hq & Ho & Hl & Hr).
    repeat split; auto.
Qed.

Lemma build_hwnd_list_from_quiet fuel : forall count st r st' tr,
  build_hwnd_list_from fuel count st = Completed r st' tr -> forallb quiet tr = true.
Proof.
  induction fuel as [|fuel IH]; intros count st r st' tr H; [discriminate|].
  cbn [build_hwnd_list_from] in H.
  destruct (malloc_hwnd_list count); cbn [negb] in H.
  2: { injection H as _ _ <-. reflexivity. }
  apply ebind_Completed in H as (u & s1 & t1 & t2 & Hm & H & ->).
  injection Hm as _ <- <-.
  destruct (NtUserBuildHwndList count) as [[status list] count'].
  destruct (status =? 0).
  { injection H as _ _ <-. reflexivity. }
  apply ebind_Completed in H as (u' & s2 & t3 & t4 & Hf & H & ->).
  injection Hf as _ <- <-.
  destruct (negb (status =? STATUS_BUFFER_TOO_SMALL)).
  { injection H as _ _ <-. reflexivity. }
  simpl. eapply IH. exact H.
Qed.

Lemma has_owned_popups_run fuel h st r st' tr :
  has_owned_popups fuel h st = Completed r st' tr ->
  st' = st /\
  forallb quiet tr = true /\
  outstanding 0 tr = Some 0%nat /\
  lock_discipline [] (events_of tr) = Some [] /\
  (r = true ->
   exists count count' above w below d,
     NtUserBuildHwndList count = (0, above ++ w :: below, count') /\
     ~ In h above /\ ~ In HWND_BOTTOM above /\ w <> h /\
     NtUserGetWindowRelative_owner w = h /\
     rb_get (win_data_rb st) w = Some d /\ data_managed d = true).
Proof.
  unfold has_owned_popups, build_hwnd_list. intros H.
  apply ebind_Completed in H as (list & s1 & t1 & t2 & Hb & H & ->).
  pose proof (build_hwnd_list_from_quiet _ _ _ _ _ _ Hb) as Hq1.
  apply build_hwnd_list_from_run in Hb as (-> & Hev & Hout & Hlist).
  destruct list as [l|].
  2: { injection H as <- <- <-. rewrite app_nil_r, Hev.
       split; [reflexivity|]. split; [exact Hq1|]. split; [apply Hout|].
       split; [reflexivity|discriminate]. }
  apply ebind_Completed in H as (ret & s2 & t3 & t4 & Hscan & H & ->).
  apply owned_popup_scan_run in Hscan as (-> & Hq & Ho & Hl & Hr).
  injection H as <- <- <-.
  split; [reflexivity|].
  split. { rewrite !forallb_app, Hq1, Hq. reflexivity. }
  split. { rewrite outstanding_app, Hout, outstanding_app, Ho. reflexivity. }
  split. { rewrite !events_of_app, Hev. simpl. rewrite app_nil_r. exact Hl. }
  intros Ht. destruct (Hr Ht) as (above & w & below & d & -> & H1 & H2 & H3 & _ & H4 & H5 & H6).
  destruct (Hlist _ eq_refl) as (count & count' & Hq0).
  exists count, count', above, w, below, d. repeat split; auto.
Qed.

Lemma quiet_calls tr : forallb quiet tr = true -> calls (events_of tr) = [].
Proof.
  induction tr as [|c tr IH]; simpl; [reflexivity|].
  intros H. apply Bool.andb_true_iff in H as [Hc Htr].
  destruct c; simpl; auto.
  destruct e; try discriminate; simpl; auto.
Qed.

(** A quiet trace that keeps the lock discipline from no lock held cannot be
    run with the registry lock held, unless it takes no lock at all. *)
Lemma quiet_relocks tr :
  forallb quiet tr = true ->
  lock_discipline [] (events_of tr) <> None ->
  events_of tr <> [] ->
  lock_discipline [win_data_mutex] (events_of tr) = None.
Proof.
  induction tr as [|c tr IH]; simpl; [congruence|].
  intros H Hl Hne. apply Bool.andb_true_iff in H as [Hc Htr].
  destruct c; simpl in *; auto.
  destruct e; try discriminate.
  - destruct m; try discriminate. reflexivity.
  - destruct m; try discriminate. simpl in Hl. congruence.
Qed.

(** X22.  has_owned_popups answers TRUE only for a window that owns a
    managed window: some window of the window list, listed before the window
    itself and before the end mark, has the window as its owner and a record
    with the managed flag in the registry.  Whatever the answer, the driver
    state is unchanged and the trace holds nothing but allocations and frees
    of window lists and locks and unlocks of the registry mutex: besides its
    read-only queries to the window system the function issues no request
    or command and touches no surface.  The lock discipline is kept with no
    mutex held on return, and every window list that was allocated has been
    freed on return. *)
Theorem has_owned_popups_finds_managed_popup fuel h st r st' tr :
  has_owned_popups fuel h st = Completed r st' tr ->
  st' = st /\
  forallb quiet tr = true /\
  calls (events_of tr) = [] /\
  outstanding 0 tr = Some 0%nat /\
  lock_discipline [] (events_of tr) = Some [] /\
  (r = true ->
   exists count count' above w below d,
     NtUserBuildHwndList count = (0, above ++ w :: below, count') /\
     ~ In h above /\ ~ In HWND_BOTTOM above /\ w <> h /\
     NtUserGetWindowRelative_owner w = h /\
     rb_get (win_data_rb st) w = Some d /\ data_managed d = true).
Proof.
  intros H. apply has_owned_popups_run in H as (Hst & Hq & Ho & Hl & Hr).
  split; [exact Hst|]. split; [exact Hq|].
  split; [apply quiet_calls; exact Hq|].
  split; [exact Ho|]. split; [exact Hl|exact Hr].
Qed.

Lemma is_window_managed_run fuel h swp_flags window_rect st r st' tr :
  is_window_managed fuel h swp_flags window_rect st = Completed r st' tr ->
  st' = st /\
  forallb quiet tr = true /\
  outstanding 0 tr = Some 0%nat /\
  lock_discipline [] (events_of tr) = Some [].
Proof.
  unfold is_window_managed. cbv zeta. intros H.
  repeat lazymatch type of H with
         | (if ?c then _ else _) _ = _ =>
             destruct c;
             [injection H as <- <- <-; repeat split; reflexivity|]
         end.
  apply ebind_Completed in H as (owns & s1 & t1 & t2 & Ho & H & ->).
  apply has_owned_popups_run in Ho as (-> & Hq & Hout & Hl & _).
  destruct owns; injection H as <- <- <-; rewrite app_nil_r; auto.
Qed.

(** X23.  is_window_managed changes nothing in the driver state, and its
    trace holds nothing but allocations and frees of window lists and locks
    and unlocks of the registry mutex: besides its read-only queries to the
    window system it issues no request or command and touches no surface.
    It returns with no mutex held and no window list left allocated.  When
    it takes the registry lock at all, entering it with that lock held would
    break the lock discipline: it has to be entered with the registry
    unlocked. *)
Theorem is_window_managed_frame fuel h swp_flags window_rect st r st' tr :
  is_window_managed fuel h swp_flags window_rect st = Completed r st' tr ->
  st' = st /\
  forallb quiet tr = true /\
  calls (events_of tr) = [] /\
  outstanding 0 tr = Some 0%nat /\
  lock_discipline [] (events_of tr) = Some [] /\
  (events_of tr <> [] -> lock_discipline [win_data_mutex] (events_of tr) = None).
Proof.
  intros H. apply is_window_managed_run in H as (Hst & Hq & Ho & Hl).
  split; [exact Hst|]. split; [exact Hq|].
  split; [apply quiet_calls; exact Hq|].
  split; [exact Ho|]. split; [exact Hl|].
  apply quiet_relocks; [exact Hq|congruence].
Qed.

(** X24.  is_window_managed takes a window as managed only if it is not a
    plain child window (WS_CHILD without WS_POPUP) and one of these holds:
    the window is being activated (neither SWP_NOACTIVATE nor SWP_HIDEWINDOW),
    it is the active window, it has a caption or a thick frame, it is a popup
    with a system menu or one that covers the work area of its monitor, it is
    an application window, or it owns a window with a managed record. *)
Theorem managed_windows_have_a_reason fuel h swp_flags window_rect st st' tr :
  is_window_managed fuel h swp_flags window_rect st = Completed true st' tr ->
  Z.land (NtUserGetWindowLongW h) (Z.lor WS_CHILD WS_POPUP) <> WS_CHILD /\
  (managed_by_itself h swp_flags window_rect \/
   exists w d,
     w <> h /\ NtUserGetWindowRelative_owner w = h /\
     rb_get (win_data_rb st) w = Some d /\ data_managed d = true).
Proof.
  unfold is_window_managed, managed_by_itself, test. cbv zeta. intros H.
  destruct (Z.land (NtUserGetWindowLongW h) (Z.lor WS_CHILD WS_POPUP) =? WS_CHILD) eqn:E0;
    [discriminate|].
  apply Z.eqb_neq in E0. split; [exact E0|].
  destruct (Z.land swp_flags (Z.lor SWP_NOACTIVATE SWP_HIDEWINDOW) =? 0) eqn:E1;
    cbn [negb] in H.
  { left. left. now apply Z.eqb_eq. }
  destruct (h =? get_active_window) eqn:E2.
  { left. right. left. now apply Z.eqb_eq. }
  destruct (Z.land (NtUserGetWindowLongW h) WS_CAPTION =? WS_CAPTION) eqn:E3.
  { left. do 2 right. left. now apply Z.eqb_eq. }
  destruct (Z.land (NtUserGetWindowLongW h) WS_THICKFRAME =? 0) eqn:E4; cbn [negb] in H.
  2: { left. do 3 right. left. now apply Z.eqb_neq. }
  destruct (Z.land (NtUserGetWindowLongW h) WS_POPUP =? 0) eqn:E5; cbn [negb andb] in H.
  - destruct (Z.land (NtUserGetWindowLongW_exstyle h) WS_EX_APPWINDOW =? 0) eqn:E6;
      cbn [negb] in H.
    2: { left. do 5 right. now apply Z.eqb_neq. }
    apply ebind_Completed in H as (owns & s1 & t1 & t2 & Ho & H & ->).
    destruct owns; [|discriminate].
    apply has_owned_popups_run in Ho as (-> & _ & _ & _ & Hr).
    destruct (Hr eq_refl) as (c & c' & above & w & below & d & _ & _ & _ & Hw & Hown & Hget & Hm).
    right. exists w, d. auto.
  - apply Z.eqb_neq in E5.
    destruct (Z.land (NtUserGetWindowLongW h) WS_SYSMENU =? 0) eqn:E7; cbn [negb] in H.
    2: { left. do 4 right. left. split; [exact E5|]. left. now apply Z.eqb_neq. }
    destruct ((left window_rect <=? left (NtUserGetMonitorInfo_work h))
              && (right (NtUserGetMonitorInfo_work h) <=? right window_rect)
              && (top window_rect <=? top (NtUserGetMonitorInfo_work h))
              && (bottom (NtUserGetMonitorInfo_work h) <=? bottom window_rect)) eqn:E8.
    { left. do 4 right. left. split; [exact E5|]. right.
      rewrite !Bool.andb_true_iff, !Z.leb_le in E8. tauto. }
    destruct (Z.land (NtUserGetWindowLongW_exstyle h) WS_EX_APPWINDOW =? 0) eqn:E6;
      cbn [negb] in H.
    2: { left. do 5 right. now apply Z.eqb_neq. }
    apply ebind_Completed in H as (owns & s1 & t1 & t2 & Ho & H & ->).
    destruct owns; [|discriminate].
    apply has_owned_popups_run in Ho as (-> & _ & _ & _ & Hr).
    destruct (Hr eq_refl) as (c & c' & above & w & below & d & _ & _ & _ & Hw & Hown & Hget & Hm).
    right. exists w, d. auto.
Qed.

End ManagedWindows.

Lemma has_owned_popups_finds_managed_popup_witness :
  exists tr,
    has_owned_popups 3 30 idle_driver = Completed true idle_driver tr /\
    outstanding 0 tr = Some 0%nat /\
    lock_discipline [] (events_of tr) = Some [] /\
    exists w d,
      NtUserGetWindowRelative_owner w = 30 /\
      rb_get (win_data_rb idle_driver) w = Some d /\ data_managed d = true.
Proof.
  eexists.
  assert (Hrun : has_owned_popups 3 30 idle_driver = Completed true idle_driver _)
    by (vm_compute; reflexivity).
  split; [exact Hrun|].
  destruct (has_owned_popups_finds_managed_popup
              3%nat 30 idle_driver true _ _ Hrun) as (_ & _ & _ & Ho & Hl & Hr).
  split; [exact Ho|]. split; [exact Hl|].
  destruct (Hr eq_refl) as (c & c' & above & w & below & d & _ & _ & _ & _ & Hown & Hget & Hm).
  exists w, d. auto.
Defined.

Lemma is_window_managed_frame_witness :
  exists tr,
    is_window_managed 3 30 SWP_NOACTIVATE sample_rect idle_driver
      = Completed true idle_driver tr /\
    outstanding 0 tr = Some 0%nat /\
    lock_discipline [] (events_of tr) = Some [] /\
    lock_discipline [win_data_mutex] (events_of tr) = None.
Proof.
  eexists.
  assert (Hrun : is_window_managed 3 30 SWP_NOACTIVATE sample_rect idle_driver
                 = Completed true idle_driver _) by (vm_compute; reflexivity).
  split; [exact Hrun|].
  destruct (is_window_managed_frame
              3%nat 30 SWP_NOACTIVATE sample_rect idle_driver true _ _ Hrun)
    as (_ & _ & _ & Ho & Hl & Hre).
  split; [exact Ho|]. split; [exact Hl|]. apply Hre. discriminate.
Defined.

Lemma managed_windows_have_a_reason_witness :
  exists tr,
    is_window_managed 3 30 SWP_NOACTIVATE sample_rect idle_driver
      = Completed true idle_driver tr /\
    exists w d,
      w <> 30 /\ NtUserGetWindowRelative_owner w = 30 /\
      rb_get (win_data_rb idle_driver) w = Some d /\ data_managed d = true.
Proof.
  eexists.
  assert (Hrun : is_window_managed 3 30 SWP_NOACTIVATE sample_rect idle_driver
                 = Completed true idle_driver _) by (vm_compute; reflexivity).
  split; [exact Hrun|].
  destruct (managed_windows_have_a_reason
              3%nat 30 SWP_NOACTIVATE sample_rect idle_driver _ _ Hrun)
    as (_ & [Hself | Hpopup]).
  - exfalso. unfold managed_by_itself in Hself. cbn in Hself.
    destruct Hself as [H|[H|[H|[H|[[H _]|H]]]]];
      try discriminate H; apply H; reflexivity.
  - exact Hpopup.
Defined.

(** ** WAYLAND_WindowPosChanged *)

Lemma strip_get tree : forall tree' key,
  map strip tree' = map strip tree ->
  option_map strip (rb_get tree' key) = option_map strip (rb_get tree key).
Proof.
  induction tree as [|e rest IH]; intros [|e' rest'] key H; cbn [map rb_get] in *;
    try discriminate; [reflexivity|].
  pose proof (f_equal (@List.tl _) H) as Hrest. cbn [tl] in Hrest.
  assert (He : strip e' = strip e).
  { pose proof (f_equal (@List.hd_error _) H) as He. cbn [hd_error] in He.
    congruence. }
  assert (Hh : hwnd e' = hwnd e) by (apply (f_equal hwnd) in He; exact He).
  rewrite !cmp_rb_zero, Hh.
  destruct (key =? hwnd e); cbn [option_map]; [now rewrite He|].
  apply IH. exact Hrest.
Qed.

Lemma entry_guarded_within t : forall held held1 rest,
  lock_discipline held t = Some held1 ->
  entry_guarded held (map Within t ++ rest) = entry_guarded held1 rest.
Proof.
  induction t as [|e t IH]; intros held held1 rest H; simpl in H.
  - injection H as <-. reflexivity.
  - destruct e; cbn [map app entry_guarded]; try (apply IH; exact H).
    + destruct (holds held m); [discriminate|].
      destruct (mutex_eqb m win_data_mutex && existsb is_surface_mutex held);
        [discriminate|].
      apply IH. exact H.
    + destruct (holds held m); [|discriminate]. apply IH. exact H.
Qed.

Lemma entry_guarded_quiet t : forall held held1 rest,
  forallb quiet t = true ->
  lock_discipline held (events_of t) = Some held1 ->
  entry_guarded held (t ++ rest) = entry_guarded held1 rest.
Proof.
  induction t as [|c t IH]; intros held held1 rest Hq H; simpl in *.
  - injection H as <-. reflexivity.
  - apply Bool.andb_true_iff in Hq as [Hc Hq].
    destruct c; try discriminate; simpl in *; try (apply IH; assumption).
    destruct e; try discriminate; simpl in *.
    + destruct (holds held m); [discriminate|].
      destruct (mutex_eqb m win_data_mutex && existsb is_surface_mutex held);
        [discriminate|].
      apply IH; assumption.
    + destruct (holds held m); [|discriminate]. apply IH; assumption.
Qed.

Lemma window_surface_refs_app t1 t2 :
  window_surface_refs (t1 ++ t2) = window_surface_refs t1 ++ window_surface_refs t2.
Proof. apply filter_app. Qed.

Lemma refs_quiet t : forallb quiet t = true -> window_surface_refs t = [].
Proof.
  induction t as [|c t IH]; simpl; [reflexivity|].
  intros Hq. apply Bool.andb_true_iff in Hq as [Hc Hq].
  destruct c; try discriminate; simpl; auto.
  destruct e; try discriminate; simpl; auto.
Qed.

Lemma refs_within t :
  filter is_window_surface_release t = [] -> window_surface_refs (map Within t) = [].
Proof.
  induction t as [|e t IH]; simpl; [reflexivity|].
  destruct (is_window_surface_release e); [discriminate|exact IH].
Qed.

Section PosChanged.

Context {env : Environment} {ops : SurfaceOps} {win : WindowSystem}.

(** The role manager releases no window surface. *)
Lemma body_no_release fuel data flags st r st' tr :
  update_wayland_surface_body fuel data flags st = Done r st' tr ->
  filter is_window_surface_release tr = [].
Proof.
  unfold update_wayland_surface_body. intros H.
  apply bind_Done in H as (parent_data & s1 & t1 & t2 & Htp & H & ->).
  apply get_top_parent_silent in Htp as [-> ->].
  apply bind_Done in H as (needs & s2 & t3 & t4 & Hneeds & H & ->).
  assert (Hn : filter is_window_surface_release t3 = []).
  { clear H. unfold wayland_win_data_needs_wayland_surface in Hneeds.
    crunch Hneeds; injection Hneeds as <- <- <-; reflexivity. }
  apply needs_wayland_surface_silent in Hneeds as [-> _].
  rewrite app_nil_l, filter_app, Hn. clear Hn t3.
  crunch H.
  all: injection H as <- <- <-.
  all: repeat match goal with
         | E : reapply_cursor_clipping _ = Done _ _ ?t |- _ =>
             apply reapply_cursor_clipping_trace in E as [-> | [? ->]]
         end.
  all: reflexivity.
Qed.

Lemma update_wayland_state_no_release h st r st' tr :
  wayland_win_data_update_wayland_state h st = Done r st' tr ->
  filter is_window_surface_release tr = [].
Proof.
  unfold wayland_win_data_update_wayland_state, store_surface, load_data, store_data.
  intros H. crunch H; injection H as <- <- <-; reflexivity.
Qed.

Lemma role_manager_no_release fuel h flags st st' tr :
  wayland_win_data_update_wayland_surface fuel h flags st = Done tt st' tr ->
  filter is_window_surface_release tr = [].
Proof.
  apply (update_wayland_surface_traces
           (fun tr => filter is_window_surface_release tr = [])).
  - reflexivity.
  - intros a b Ha Hb. now rewrite filter_app, Ha, Hb.
  - reflexivity.
  - apply body_no_release.
  - apply update_wayland_state_no_release.
Qed.

(** The refresh of the surfaces at the end of WAYLAND_WindowPosChanged. *)
Lemma refresh_run fuel h st s1 t1 d s2 t2 t3 :
  wayland_win_data_update_wayland_surface fuel h 0 st = Done tt s1 t1 ->
  load_data h s1 = Done d s2 t2 ->
  forall st',
  when (is_some (wayland_surface_of d)) (wayland_win_data_update_wayland_state h) s2
    = Done tt st' t3 ->
  lock_discipline [win_data_mutex] (t1 ++ t2 ++ t3) = Some [win_data_mutex] /\
  guarded [win_data_mutex] (t1 ++ t2 ++ t3) = true /\
  filter is_window_surface_release (t1 ++ t2 ++ t3) = [] /\
  same_windows st st'.
Proof.
  intros Hrun Hload st' Hup.
  pose proof (role_manager_run_locks _ _ _ _ _ _ Hrun) as [L1 G1].
  pose proof (role_manager_no_release _ _ _ _ _ _ Hrun) as R1.
  apply update_wayland_surface_same in Hrun.
  apply load_data_silent in Hload as (-> & -> & _). cbn [app].
  unfold when in Hup.
  destruct (is_some (wayland_surface_of d)).
  - pose proof (update_wayland_state_quiet _ _ _ _ _ Hup) as (L2 & _).
    pose proof (update_wayland_state_guarded _ _ _ _ _ Hup) as G2.
    pose proof (update_wayland_state_no_release _ _ _ _ _ Hup) as R2.
    apply update_wayland_state_same in Hup.
    split; [eapply lock_discipline_compose; eauto|].
    split; [now rewrite (guarded_app _ _ _ _ L1), G1, G2|].
    split; [now rewrite filter_app, R1, R2|].
    eapply same_windows_trans; eauto.
  - injection Hup as <- <-. rewrite app_nil_r. auto.
Qed.

Lemma pos_changed_known fuel h insert_after swp_flags wr cr vr valid surface st data st' tr :
  rb_get (win_data_rb st) h = Some data ->
  WAYLAND_WindowPosChanged fuel h insert_after swp_flags wr cr vr valid surface st
    = Completed tt st' tr ->
  let d1 := mkWinData (hwnd data) (wayland_surface_of data) (window_surface_of data)
                      wr cr vr in
  let d2 := mkWinData (hwnd data) (wayland_surface_of data) surface wr cr vr in
  exists managed tr0 t,
    is_window_managed fuel h swp_flags wr st = Completed managed st tr0 /\
    tr = tr0 ++ Within (EvLock win_data_mutex)
             :: match surface with Some ws => [AddRef ws] | None => [] end
             ++ match window_surface_of data with
                | Some old => [Within (EvWindowSurfaceRelease old)]
                | None => []
                end
             ++ map Within t ++ [Within (EvUnlock win_data_mutex)] /\
    lock_discipline [win_data_mutex] t = Some [win_data_mutex] /\
    guarded [win_data_mutex] t = true /\
    filter is_window_surface_release t = [] /\
    same_windows
      (set_tree st (rb_store (rb_store (win_data_rb st) (d1 managed)) (d2 managed))) st'.
Proof.
  intros Hget H. cbv zeta. unfold WAYLAND_WindowPosChanged in H.
  apply ebind_Completed in H as (managed & s0 & tr0 & tr1 & Hm & H & ->).
  pose proof (is_window_managed_run _ _ _ _ _ _ _ _ Hm) as (-> & _).
  assert (Hg : wayland_win_data_get h st = Done (Some data) st [EvLock win_data_mutex]).
  { unfold wayland_win_data_get, wayland_win_data_get_nolock, bind, emit,
      get_state, pure. simpl. rewrite Hget. reflexivity. }
  rewrite (ebind_run _ _ _ _ _ _ (lift_run _ _ _ _ _ Hg)) in H. clear Hg.
  match type of H with
  | match ?x with _ => _ end = _ => destruct x as [u s1 t1|f] eqn:Hrest; [|discriminate]
  end.
  injection H as -> <- <-.
  exists managed, tr0.
  apply ebind_Completed in Hrest as (u1 & s2 & t2 & t3 & Hs1 & Hrest & ->).
  apply lift_Completed in Hs1 as (e1 & Hs1 & ->).
  unfold store_data, bind, get_state, put_state in Hs1. injection Hs1 as _ <- <-.
  apply ebind_Completed in Hrest as (u2 & s3 & t4 & t5 & Href & Hrest & ->).
  assert (s3 = set_tree st
                 (rb_store (win_data_rb st)
                    (mkWinData (hwnd data) (wayland_surface_of data)
                               (window_surface_of data) wr cr vr managed)) /\
          t4 = match surface with Some ws => [AddRef ws] | None => [] end) as [-> ->].
  { destruct surface; injection Href as _ <- <-; auto. }
  clear Href.
  apply ebind_Completed in Hrest as (u3 & s4 & t6 & t7 & Hrel & Hrest & ->).
  assert (s4 = set_tree st
                 (rb_store (win_data_rb st)
                    (mkWinData (hwnd data) (wayland_surface_of data)
                               (window_surface_of data) wr cr vr managed)) /\
          t6 = match window_surface_of data with
               | Some old => [Within (EvWindowSurfaceRelease old)]
               | None => []
               end) as [-> ->].
  { destruct (window_surface_of data); injection Hrel as _ <- <-; auto. }
  clear Hrel.
  apply ebind_Completed in Hrest as (u4 & s5 & t8 & t9 & Hs2 & Hrest & ->).
  apply lift_Completed in Hs2 as (e2 & Hs2 & ->).
  unfold store_data, bind, get_state, put_state in Hs2. injection Hs2 as _ <- <-.
  apply ebind_Completed in Hrest as (u5 & s6 & t10 & t11 & Hrm & Hrest & ->).
  apply lift_Completed in Hrm as (e3 & Hrm & ->). destruct u5.
  apply ebind_Completed in Hrest as (d & s7 & t12 & t13 & Hload & Hrest & ->).
  apply lift_Completed in Hload as (e4 & Hload & ->).
  apply ebind_Completed in Hrest as (u6 & s8 & t14 & t15 & Hup & Hrest & ->).
  apply lift_Completed in Hup as (e5 & Hup & ->). destruct u6.
  apply lift_Completed in Hrest as (e6 & Hrest & ->).
  unfold wayland_win_data_release, bind, deref, pure, emit in Hrest. simpl in Hrest.
  injection Hrest as <- <-.
  destruct (refresh_run _ _ _ _ _ _ _ _ _ Hrm Hload _ Hup) as (L & G & R & Hsame).
  exists (e3 ++ e4 ++ e5).
  split; [exact Hm|]. split.
  { simpl. rewrite !map_app, <- !app_assoc. reflexivity. }
  split; [exact L|]. split; [exact G|]. split; [exact R|]. exact Hsame.
Qed.

Lemma pos_changed_unknown fuel h insert_after swp_flags wr cr vr valid surface st st' tr :
  rb_get (win_data_rb st) h = None ->
  WAYLAND_WindowPosChanged fuel h insert_after swp_flags wr cr vr valid surface st
    = Completed tt st' tr ->
  st' = st /\
  exists managed tr0,
    is_window_managed fuel h swp_flags wr st = Completed managed st tr0 /\
    tr = tr0 ++ [Within (EvLock win_data_mutex); Within (EvUnlock win_data_mutex)].
Proof.
  intros Hget H. unfold WAYLAND_WindowPosChanged in H.
  apply ebind_Completed in H as (managed & s0 & tr0 & tr1 & Hm & H & ->).
  pose proof (is_window_managed_run _ _ _ _ _ _ _ _ Hm) as (-> & _).
  assert (Hg : wayland_win_data_get h st =
               Done None st [EvLock win_data_mutex; EvUnlock win_data_mutex]).
  { unfold wayland_win_data_get, wayland_win_data_get_nolock, bind, emit,
      get_state, pure. simpl. rewrite Hget. reflexivity. }
  rewrite (ebind_run _ _ _ _ _ _ (lift_run _ _ _ _ _ Hg)) in H.
  injection H as <- <-.
  split; [reflexivity|]. exists managed, tr0. split; [exact Hm|].
  simpl. reflexivity.
Qed.

(** X25.  WAYLAND_WindowPosChanged for a window the driver has no record of
    changes nothing, and its trace holds nothing but allocations and frees of
    window lists and locks and unlocks of the registry mutex: besides the
    read-only queries of the managed-window test it issues no request or
    command and touches no surface.  It ends by looking the window up and
    releasing the registry lock; the window surface it was given is not
    referenced and no window surface is released. *)
Theorem pos_changed_unknown_window fuel h insert_after swp_flags wr cr vr valid surface
    st st' tr :
  rb_get (win_data_rb st) h = None ->
  WAYLAND_WindowPosChanged fuel h insert_after swp_flags wr cr vr valid surface st
    = Completed tt st' tr ->
  st' = st /\
  forallb quiet tr = true /\
  window_surface_refs tr = [] /\
  (forall ws, ~ In (AddRef ws) tr /\ ~ In (Within (EvWindowSurfaceRelease ws)) tr) /\
  exists tr0,
    tr = tr0 ++ [Within (EvLock win_data_mutex); Within (EvUnlock win_data_mutex)].
Proof.
  intros Hget H.
  destruct (pos_changed_unknown _ _ _ _ _ _ _ _ _ _ _ _ Hget H)
    as (-> & managed & tr0 & Hm & ->).
  apply is_window_managed_run in Hm as (_ & Hq & _ & _).
  assert (Hq' : forallb quiet
                  (tr0 ++ [Within (EvLock win_data_mutex); Within (EvUnlock win_data_mutex)])
                = true) by (rewrite forallb_app, Hq; reflexivity).
  split; [reflexivity|]. split; [exact Hq'|].
  split; [apply refs_quiet; exact Hq'|].
  split; [|eauto].
  intros ws. rewrite forallb_forall in Hq'.
  split; intros Hin; apply Hq' in Hin; discriminate Hin.
Qed.

(** X26.  After a completed WAYLAND_WindowPosChanged for a window with a
    record, the record holds the three rectangles and the window surface
    that were passed in and the managed flag that is_window_managed computed
    before the registry was locked; the refresh of the surfaces that follows
    does not change them.  No record is added or removed, and the records of
    the other windows are as before but for their surfaces. *)
Theorem pos_changed_stores fuel h insert_after swp_flags wr cr vr valid surface
    st data st' tr :
  rb_get (win_data_rb st) h = Some data ->
  WAYLAND_WindowPosChanged fuel h insert_after swp_flags wr cr vr valid surface st
    = Completed tt st' tr ->
  exists managed tr0 data',
    is_window_managed fuel h swp_flags wr st = Completed managed st tr0 /\
    rb_get (win_data_rb st') h = Some data' /\
    window_rect data' = wr /\ data_client_rect data' = cr /\ visible_rect data' = vr /\
    data_managed data' = managed /\ window_surface_of data' = surface /\
    handles (win_data_rb st') = handles (win_data_rb st) /\
    (forall h', h' <> h -> stripped_at st' h' = stripped_at st h').
Proof.
  intros Hget H.
  destruct (pos_changed_known _ _ _ _ _ _ _ _ _ _ _ _ _ Hget H)
    as (managed & tr0 & t & Hm & _ & _ & _ & _ & Hsame).
  pose proof (rb_get_hwnd _ _ _ Hget) as Hh.
  set (d1 := mkWinData (hwnd data) (wayland_surface_of data) (window_surface_of data)
                       wr cr vr managed) in *.
  set (d2 := mkWinData (hwnd data) (wayland_surface_of data) surface wr cr vr managed) in *.
  destruct Hsame as (Hmap & _ & _). cbn [win_data_rb set_tree] in Hmap.
  assert (Hget1 : rb_get (rb_store (win_data_rb st) d1) h = Some d1).
  { pose proof (rb_get_store (win_data_rb st) d1 data) as R.
    cbn [hwnd d1] in R. rewrite Hh in R. exact (R Hget). }
  assert (Hget2 : rb_get (rb_store (rb_store (win_data_rb st) d1) d2) h = Some d2).
  { pose proof (rb_get_store (rb_store (win_data_rb st) d1) d2 d1) as R.
    cbn [hwnd d2] in R. rewrite Hh in R. exact (R Hget1). }
  pose proof (strip_get _ _ h Hmap) as Hstrip. rewrite Hget2 in Hstrip.
  destruct (rb_get (win_data_rb st') h) as [data'|] eqn:Hget'; [|discriminate].
  simpl in Hstrip. injection Hstrip as E1 E2 E3 E4 E5 E6.
  exists managed, tr0, data'. split; [exact Hm|]. split; [reflexivity|].
  repeat (split; [assumption|]).
  split.
  - rewrite (handles_strip (win_data_rb st')), Hmap, <- handles_strip.
    rewrite !handles_store. reflexivity.
  - intros h' Hne. unfold stripped_at.
    rewrite (strip_get _ _ h' Hmap).
    rewrite !rb_get_store_other; [reflexivity| |]; cbn [hwnd d1 d2]; congruence.
Qed.

(** X27.  A completed WAYLAND_WindowPosChanged, entered with no mutex held,
    keeps the lock discipline and returns with no mutex held; every role,
    title, client and state request on a Wayland surface is made under the
    mutex of that surface, and the window surface passed in is referenced
    under the registry lock.  The reference-count calls on window surfaces
    of the whole run are, in this order, the reference of the surface passed
    in, if one is passed, and the release of the one the record had, if it
    had one, and no other: a surface that is passed in again is referenced
    before it is released.  No window list is left allocated. *)
Theorem pos_changed_discipline fuel h insert_after swp_flags wr cr vr valid surface
    st st' tr :
  WAYLAND_WindowPosChanged fuel h insert_after swp_flags wr cr vr valid surface st
    = Completed tt st' tr ->
  lock_discipline [] (events_of tr) = Some [] /\
  guarded [] (events_of tr) = true /\
  entry_guarded [] tr = true /\
  window_surface_refs tr =
    match rb_get (win_data_rb st) h with
    | Some data =>
        match surface with
        | Some ws => [AddRef ws]
        | None => []
        end
        ++ match window_surface_of data with
           | Some old => [Within (EvWindowSurfaceRelease old)]
           | None => []
           end
    | None => []
    end /\
  outstanding 0 tr = Some 0%nat.
Proof.
  intros H.
  destruct (rb_get (win_data_rb st) h) as [data|] eqn:Hget.
  - destruct (pos_changed_known _ _ _ _ _ _ _ _ _ _ _ _ _ Hget H)
      as (managed & tr0 & t & Hm & -> & L & G & R & _).
    apply is_window_managed_run in Hm as (_ & Hq & Ho & Hl).
    pose proof (quiet_calls _ Hq) as Hc.
    assert (Hg0 : guarded [] (events_of tr0) = true).
    { clear - Hq. revert Hq. generalize (@nil mutex).
      induction tr0 as [|c tr0 IH]; intros held Hq; [reflexivity|].
      simpl in Hq. apply Bool.andb_true_iff in Hq as [Hc Hq].
      destruct c; try discriminate; simpl; auto.
      destruct e; try discriminate; destruct m; try discriminate; simpl; auto. }
    set (ref := match surface with Some ws => [AddRef ws] | None => [] end).
    set (rel := match window_surface_of data with
                | Some old => [Within (EvWindowSurfaceRelease old)]
                | None => []
                end).
    assert (Hev : events_of (Within (EvLock win_data_mutex)
                             :: ref ++ rel ++ map Within t
                             ++ [Within (EvUnlock win_data_mutex)])
                  = EvLock win_data_mutex
                    :: events_of rel ++ t ++ [EvUnlock win_data_mutex]).
    { simpl. rewrite !events_of_app, events_of_within.
      unfold ref. destruct surface; reflexivity. }
    assert (Lrel : lock_discipline [win_data_mutex] (events_of rel)
                   = Some [win_data_mutex])
      by (unfold rel; destruct (window_surface_of data); reflexivity).
    assert (Grel : guarded [win_data_mutex] (events_of rel) = true)
      by (unfold rel; destruct (window_surface_of data); reflexivity).
    split; [|split; [|split; [|split]]].
    + rewrite events_of_app, lock_discipline_app, Hl, Hev.
      change (lock_discipline [win_data_mutex]
                (events_of rel ++ t ++ [EvUnlock win_data_mutex]) = Some []).
      eapply lock_discipline_compose; [exact Lrel|].
      eapply lock_discipline_compose; [exact L|]. reflexivity.
    + rewrite events_of_app, (guarded_app _ _ _ _ Hl), Hg0, Hev.
      change (guarded [win_data_mutex]
                (events_of rel ++ t ++ [EvUnlock win_data_mutex]) = true).
      rewrite (guarded_app _ _ _ _ Lrel), Grel, (guarded_app _ _ _ _ L), G.
      reflexivity.
    + rewrite (entry_guarded_quiet _ _ _ _ Hq Hl). simpl.
      assert (Hrest : entry_guarded [win_data_mutex]
                        (rel ++ map Within t ++ [Within (EvUnlock win_data_mutex)]) = true).
      { unfold rel. destruct (window_surface_of data); simpl;
          rewrite (entry_guarded_within _ _ _ _ L); reflexivity. }
      unfold ref. destruct surface; simpl; exact Hrest.
    + rewrite window_surface_refs_app, (refs_quiet _ Hq).
      change (Within (EvLock win_data_mutex)
              :: ref ++ rel ++ map Within t ++ [Within (EvUnlock win_data_mutex)])
        with ([Within (EvLock win_data_mutex)]
              ++ ref ++ rel ++ map Within t ++ [Within (EvUnlock win_data_mutex)]).
      rewrite !window_surface_refs_app, (refs_within _ R).
      unfold ref, rel. destruct surface, (window_surface_of data); reflexivity.
    + rewrite outstanding_app, Ho. simpl.
      unfold ref, rel. destruct surface, (window_surface_of data); simpl;
        rewrite ?outstanding_app, outstanding_within; reflexivity.
  - destruct (pos_changed_unknown _ _ _ _ _ _ _ _ _ _ _ _ Hget H)
      as (_ & managed & tr0 & Hm & ->).
    apply is_window_managed_run in Hm as (_ & Hq & Ho & Hl).
    split; [|split; [|split; [|split]]].
    + rewrite events_of_app, lock_discipline_app, Hl. reflexivity.
    + rewrite events_of_app, (guarded_app _ _ _ _ Hl). simpl.
      rewrite Bool.andb_true_r.
      clear - Hq. revert Hq. generalize (@nil mutex).
      induction tr0 as [|c tr0 IH]; intros held Hq; [reflexivity|].
      simpl in Hq. apply Bool.andb_true_iff in Hq as [Hc Hq].
      destruct c; try discriminate; simpl; auto.
      destruct e; try discriminate; destruct m; try discriminate; simpl; auto.
    + rewrite (entry_guarded_quiet _ _ _ _ Hq Hl). reflexivity.
    + rewrite window_surface_refs_app, (refs_quiet _ Hq). reflexivity.
    + rewrite outstanding_app, Ho. reflexivity.
Qed.

End PosChanged.
Lemma pos_changed_unknown_window_witness :
  exists tr,
    WAYLAND_WindowPosChanged 3 40 0 SWP_NOACTIVATE sample_rect sample_rect sample_rect []
                             (Some 4%nat) idle_driver
      = Completed tt idle_driver tr /\
    rb_get (win_data_rb idle_driver) 40 = None /\
    forallb quiet tr = true /\
    ~ In (AddRef 4%nat) tr.
Proof.
  eexists.
  assert (Hrun : WAYLAND_WindowPosChanged 3 40 0 SWP_NOACTIVATE sample_rect sample_rect
                   sample_rect [] (Some 4%nat) idle_driver = Completed tt idle_driver _)
    by (vm_compute; reflexivity).
  split; [exact Hrun|]. split; [reflexivity|].
  destruct (pos_changed_unknown_window 3%nat 40 0 SWP_NOACTIVATE sample_rect sample_rect
              sample_rect [] (Some 4%nat) idle_driver _ _ eq_refl Hrun)
    as (_ & Hc & _ & Hws & _).
  split; [exact Hc|]. apply (Hws 4%nat).
Defined.

Lemma pos_changed_stores_witness :
  exists st' tr data',
    WAYLAND_WindowPosChanged 5 10 0 0 empty_rect sample_rect sample_rect []
                             (Some 4%nat) painted_driver
      = Completed tt st' tr /\
    rb_get (win_data_rb st') 10 = Some data' /\
    window_rect data' = empty_rect /\
    data_managed data' = true /\
    window_surface_of data' = Some 4%nat /\
    handles (win_data_rb st') = [10].
Proof.
  eexists _, _.
  assert (Hrun : WAYLAND_WindowPosChanged 5 10 0 0 empty_rect sample_rect sample_rect []
                   (Some 4%nat) painted_driver = Completed tt _ _)
    by (vm_compute; reflexivity).
  destruct (pos_changed_stores 5%nat 10 0 0 empty_rect sample_rect sample_rect []
              (Some 4%nat) painted_driver _ _ _ eq_refl Hrun)
    as (managed & tr0 & data' & Hm & Hget & Hwr & _ & _ & Hmg & Hws & Hh & _).
  exists data'. split; [exact Hrun|]. split; [exact Hget|]. split; [exact Hwr|].
  split; [|split; [exact Hws|exact Hh]].
  rewrite Hmg. vm_compute in Hm. congruence.
Defined.

Lemma pos_changed_discipline_witness :
  exists st' tr,
    WAYLAND_WindowPosChanged 5 10 0 0 empty_rect sample_rect sample_rect []
                             (Some 4%nat) painted_driver
      = Completed tt st' tr /\
    In (AddRef 4%nat) tr /\
    In (Within (EvWindowSurfaceRelease 3%nat)) tr /\
    In (Within (EvMakeToplevel 10)) tr /\
    lock_discipline [] (events_of tr) = Some [] /\
    guarded [] (events_of tr) = true /\
    entry_guarded [] tr = true /\
    window_surface_refs tr = [AddRef 4%nat; Within (EvWindowSurfaceRelease 3%nat)] /\
    outstanding 0 tr = Some 0%nat.
Proof.
  eexists _, _.
  assert (Hrun : WAYLAND_WindowPosChanged 5 10 0 0 empty_rect sample_rect sample_rect []
                   (Some 4%nat) painted_driver = Completed tt _ _)
    by (vm_compute; reflexivity).
  split; [exact Hrun|].
  split; [repeat (first [left; reflexivity | right])|].
  split; [repeat (first [left; reflexivity | right])|].
  split; [repeat (first [left; reflexivity | right])|].
  exact (pos_changed_discipline 5%nat 10 0 0 empty_rect sample_rect sample_rect []
           (Some 4%nat) painted_driver _ _ Hrun).
Defined.

(** ** WAYLAND_DestroyWindow and wayland_window_flush *)

Section DestroyAndFlush.

Context {env : Environment} {ops : SurfaceOps} {win : WindowSystem}.

Lemma win_data_destroy_run st data :
  wayland_win_data_destroy data st =
    Done tt (set_tree st (rb_remove (win_data_rb st) (hwnd data)))
      (EvUnlock win_data_mutex
       :: match window_surface_of data with
          | Some ws => [EvWindowSurfaceUpdate ws None None; EvWindowSurfaceRelease ws]
          | None => []
          end
       ++ (if is_some (wayland_surface_of data) then [EvSurfaceDestroy (hwnd data)] else [])
       ++ [EvFree (hwnd data)]).
Proof.
  unfold wayland_win_data_destroy, bind, get_state, put_state, emit, when, pure.
  destruct (window_surface_of data), (wayland_surface_of data); reflexivity.
Qed.

(** X28.  WAYLAND_DestroyWindow always completes.  For a window without a
    record it changes and destroys nothing.  For a window with a record the
    record is removed, the records of the other windows are untouched, and
    the GL drawable of the window is destroyed last: right after the record
    has been freed, after the registry lock has been released and with no
    mutex held. *)
Theorem destroy_window_forgets st h :
  well_formed (win_data_rb st) ->
  exists st' tr,
    WAYLAND_DestroyWindow h st = Completed tt st' tr /\
    rb_get (win_data_rb st') h = None /\
    (forall h', h' <> h -> rb_get (win_data_rb st') h' = rb_get (win_data_rb st) h') /\
    lock_discipline [] (events_of tr) = Some [] /\
    entry_guarded [] tr = true /\
    (rb_get (win_data_rb st) h = None ->
     st' = st /\ calls (events_of tr) = [] /\ ~ In (DestroyGlDrawable h) tr) /\
    (rb_get (win_data_rb st) h <> None ->
     exists before, tr = before ++ [Within (EvFree h); DestroyGlDrawable h]).
Proof.
  intros Hwf. unfold WAYLAND_DestroyWindow.
  destruct (rb_get (win_data_rb st) h) as [data|] eqn:Hget.
  - assert (Hg : wayland_win_data_get h st = Done (Some data) st [EvLock win_data_mutex]).
    { unfold wayland_win_data_get, wayland_win_data_get_nolock, bind, emit,
        get_state, pure. simpl. rewrite Hget. reflexivity. }
    rewrite (ebind_run _ _ _ _ _ _ (lift_run _ _ _ _ _ Hg)).
    rewrite (ebind_run _ _ _ _ _ _ (lift_run _ _ _ _ _ (win_data_destroy_run st data))).
    pose proof (rb_get_hwnd _ _ _ Hget) as Hh. rewrite Hh.
    eexists _, _. split; [reflexivity|].
    split; [apply rb_remove_get; exact Hwf|].
    split; [intros h' Hne; apply rb_remove_get_other; exact Hne|].
    split; [|split; [|split]].
    + destruct (window_surface_of data), (wayland_surface_of data); reflexivity.
    + destruct (window_surface_of data), (wayland_surface_of data); reflexivity.
    + discriminate.
    + intros _.
      destruct (window_surface_of data), (wayland_surface_of data); simpl.
      * exists [Within (EvLock win_data_mutex); Within (EvUnlock win_data_mutex);
                Within (EvWindowSurfaceUpdate w None None);
                Within (EvWindowSurfaceRelease w); Within (EvSurfaceDestroy h)].
        reflexivity.
      * exists [Within (EvLock win_data_mutex); Within (EvUnlock win_data_mutex);
                Within (EvWindowSurfaceUpdate w None None);
                Within (EvWindowSurfaceRelease w)].
        reflexivity.
      * exists [Within (EvLock win_data_mutex); Within (EvUnlock win_data_mutex);
                Within (EvSurfaceDestroy h)].
        reflexivity.
      * exists [Within (EvLock win_data_mutex); Within (EvUnlock win_data_mutex)].
        reflexivity.
  - assert (Hg : wayland_win_data_get h st =
                 Done None st [EvLock win_data_mutex; EvUnlock win_data_mutex]).
    { unfold wayland_win_data_get, wayland_win_data_get_nolock, bind, emit,
        get_state, pure. simpl. rewrite Hget. reflexivity. }
    rewrite (ebind_run _ _ _ _ _ _ (lift_run _ _ _ _ _ Hg)).
    eexists _, _. split; [reflexivity|].
    split; [exact Hget|]. split; [reflexivity|].
    split; [reflexivity|]. split; [reflexivity|]. split; [|congruence].
    intros _. split; [reflexivity|]. split; [reflexivity|].
    simpl. intros [H|[H|[]]]; discriminate H.
Qed.

(** X29.  wayland_window_flush always completes and changes nothing.  It
    flushes the window surface of the record of the window, when the window
    has a record and the record a window surface, and no other; the flush is
    made under the registry lock, which is released on return. *)
Theorem window_flush_under_lock st h :
  exists tr,
    wayland_window_flush h st = Completed tt st tr /\
    lock_discipline [] (events_of tr) = Some [] /\
    entry_guarded [] tr = true /\
    calls (events_of tr) = [] /\
    (forall ws, In (Flush ws) tr <->
       exists data, rb_get (win_data_rb st) h = Some data /\
                    window_surface_of data = Some ws).
Proof.
  unfold wayland_window_flush.
  destruct (rb_get (win_data_rb st) h) as [data|] eqn:Hget.
  - assert (Hg : wayland_win_data_get h st = Done (Some data) st [EvLock win_data_mutex]).
    { unfold wayland_win_data_get, wayland_win_data_get_nolock, bind, emit,
        get_state, pure. simpl. rewrite Hget. reflexivity. }
    rewrite (ebind_run _ _ _ _ _ _ (lift_run _ _ _ _ _ Hg)).
    destruct (window_surface_of data) as [ws0|] eqn:Hws.
    + eexists. split; [reflexivity|]. repeat (split; [reflexivity|]).
      intros ws. simpl. split.
      * intros [H|[H|[H|[]]]]; try discriminate H. injection H as <-. eauto.
      * intros (d & [= <-] & Hd). rewrite Hws in Hd. injection Hd as <-. auto.
    + eexists. split; [reflexivity|]. repeat (split; [reflexivity|]).
      intros ws. simpl. split.
      * intros [H|[H|[]]]; discriminate H.
      * intros (d & [= <-] & Hd). congruence.
  - assert (Hg : wayland_win_data_get h st =
                 Done None st [EvLock win_data_mutex; EvUnlock win_data_mutex]).
    { unfold wayland_win_data_get, wayland_win_data_get_nolock, bind, emit,
        get_state, pure. simpl. rewrite Hget. reflexivity. }
    rewrite (ebind_run _ _ _ _ _ _ (lift_run _ _ _ _ _ Hg)).
    eexists. split; [reflexivity|]. repeat (split; [reflexivity|]).
    intros ws. simpl. split.
    + intros [H|[H|[]]]; discriminate H.
    + intros (d & Hd & _). discriminate Hd.
Qed.

End DestroyAndFlush.

Lemma destroy_window_forgets_witness :
  well_formed (win_data_rb painted_driver) /\
  exists st' tr before,
    WAYLAND_DestroyWindow 10 painted_driver = Completed tt st' tr /\
    rb_get (win_data_rb st') 10 = None /\
    entry_guarded [] tr = true /\
    tr = before ++ [Within (EvFree 10); DestroyGlDrawable 10].
Proof.
  assert (Hwf : well_formed (win_data_rb painted_driver)).
  { repeat constructor. }
  split; [exact Hwf|].
  destruct (destroy_window_forgets painted_driver 10 Hwf)
    as (st' & tr & Hrun & Hgone & _ & _ & Hg & _ & Hlast).
  destruct (Hlast ltac:(discriminate)) as (before & Htr).
  exists st', tr, before. auto.
Defined.

(** ** wayland_win_data_get_config *)

Lemma state_requests_sets h s :
  (In (EvSetMaximized h) (state_requests h s) ->
   enters WAYLAND_SURFACE_CONFIG_STATE_MAXIMIZED s = true) /\
  (In (EvSetFullscreen h) (state_requests h s) ->
   enters WAYLAND_SURFACE_CONFIG_STATE_FULLSCREEN s = true).
Proof.
  unfold state_requests.
  destruct (leaves WAYLAND_SURFACE_CONFIG_STATE_MAXIMIZED s),
    (leaves WAYLAND_SURFACE_CONFIG_STATE_FULLSCREEN s),
    (enters WAYLAND_SURFACE_CONFIG_STATE_MAXIMIZED s),
    (enters WAYLAND_SURFACE_CONFIG_STATE_FULLSCREEN s); simpl;
    split; intros H; try reflexivity;
    repeat (destruct H as [H|H]; [discriminate H|]); destruct H.
Qed.

Section WindowConfig.

Context {env : Environment}.

(** X30.  The window state wayland_win_data_get_config reports is none,
    Maximized or Fullscreen, never both and never another bit: Fullscreen
    only for a window whose rectangle fills the monitor and that is not
    minimized, Maximized only for a window with the WS_MAXIMIZE style, and
    always for such a window whose rectangle does not fill the monitor.  The
    rectangles and the managed flag are those of the record.  Hence a
    reconciliation pass on a surface with such a configuration never asks
    the compositor for Maximized and Fullscreen together. *)
Theorem get_config_state data :
  let config := wayland_win_data_get_config data in
  let style := NtUserGetWindowLongW (hwnd data) in
  let fills := NtUserIsWindowRectFullScreen (window_rect data)
                 (get_win_monitor_dpi (hwnd data)) in
  (window_state config = 0 \/
   window_state config = WAYLAND_SURFACE_CONFIG_STATE_MAXIMIZED \/
   window_state config = WAYLAND_SURFACE_CONFIG_STATE_FULLSCREEN) /\
  (window_state config = WAYLAND_SURFACE_CONFIG_STATE_FULLSCREEN ->
   fills = true /\ test style WS_MINIMIZE = false) /\
  (window_state config = WAYLAND_SURFACE_CONFIG_STATE_MAXIMIZED ->
   test style WS_MAXIMIZE = true) /\
  (test style WS_MAXIMIZE = true -> fills = false ->
   window_state config = WAYLAND_SURFACE_CONFIG_STATE_MAXIMIZED) /\
  rect config = window_rect data /\
  client_rect config = data_client_rect data /\
  managed config = data_managed data /\
  (forall h (s : wayland_surface),
     window s = config ->
     ~ (In (EvSetMaximized h) (state_requests h s) /\
        In (EvSetFullscreen h) (state_requests h s))).
Proof.
  cbv zeta.
  assert (Hcases :
    (window_state (wayland_win_data_get_config data) = 0 \/
     window_state (wayland_win_data_get_config data) = WAYLAND_SURFACE_CONFIG_STATE_MAXIMIZED \/
     window_state (wayland_win_data_get_config data) = WAYLAND_SURFACE_CONFIG_STATE_FULLSCREEN) /\
    (window_state (wayland_win_data_get_config data) = WAYLAND_SURFACE_CONFIG_STATE_FULLSCREEN ->
     NtUserIsWindowRectFullScreen (window_rect data) (get_win_monitor_dpi (hwnd data)) = true /\
     test (NtUserGetWindowLongW (hwnd data)) WS_MINIMIZE = false) /\
    (window_state (wayland_win_data_get_config data) = WAYLAND_SURFACE_CONFIG_STATE_MAXIMIZED ->
     test (NtUserGetWindowLongW (hwnd data)) WS_MAXIMIZE = true) /\
    (test (NtUserGetWindowLongW (hwnd data)) WS_MAXIMIZE = true ->
     NtUserIsWindowRectFullScreen (window_rect data) (get_win_monitor_dpi (hwnd data)) = false ->
     window_state (wayland_win_data_get_config data) = WAYLAND_SURFACE_CONFIG_STATE_MAXIMIZED)).
  { unfold wayland_win_data_get_config. cbn [window_state].
    generalize (NtUserIsWindowRectFullScreen (window_rect data)
                  (get_win_monitor_dpi (hwnd data))) as fills.
    generalize (test (NtUserGetWindowLongW (hwnd data)) WS_MAXIMIZE) as maximize.
    generalize (test (NtUserGetWindowLongW (hwnd data)) WS_MINIMIZE) as minimize.
    generalize (Z.land (NtUserGetWindowLongW (hwnd data)) WS_CAPTION =? WS_CAPTION)
      as caption.
    intros [|] [|] [|] [|]; cbn [andb negb];
      unfold WAYLAND_SURFACE_CONFIG_STATE_MAXIMIZED, WAYLAND_SURFACE_CONFIG_STATE_FULLSCREEN;
      repeat split; auto; intros; try discriminate; auto. }
  destruct Hcases as (Hstate & Hfull & Hmax & Hrule).
  split; [exact Hstate|]. split; [exact Hfull|]. split; [exact Hmax|].
  split; [exact Hrule|].
  split; [reflexivity|]. split; [reflexivity|]. split; [reflexivity|].
  intros h s Hw [Hm Hf].
  apply (proj1 (state_requests_sets h s)) in Hm.
  apply (proj2 (state_requests_sets h s)) in Hf.
  unfold enters in Hm, Hf. rewrite Hw in Hm, Hf.
  apply Bool.andb_true_iff in Hm as [Hm _].
  apply Bool.andb_true_iff in Hf as [Hf _].
  destruct Hstate as [E|[E|E]]; rewrite E in Hm, Hf;
    vm_compute in Hm, Hf; discriminate.
Qed.

End WindowConfig.
